(** * Kilowatt data automation: spreadsheet filtering, mapping and append

    A shallow embedding of the row filter, the column resolver, the schema
    mapper and the append engine of [excel_processor.py], [transformer.py],
    [appender.py] and [filtration.py], with the properties stated about
    them.

    Conventions of the embedding.
    - A Python [str] is a [string]; its characters are ASCII (code below
      128).  [str.strip], [str.lower], [str.isdigit] and the regular
      expressions [\d+] and [[^a-z0-9]] are written out on characters.
    - A cell value is a [value]: [None], a boolean, an integer, a float
      ([nan], or a finite float taken as the rational it denotes), a string
      or a date.
    - Row and column numbers of a worksheet are [nat] (openpyxl counts them
      from 1); identifiers and terms are [Z]. *)

From Stdlib Require Import ZArith QArith Ascii String DecimalString List Lia Bool.
From stdpp Require Import base list gmap strings.

Local Open Scope Z_scope.

(** ** Python text primitives *)

Module PyStr.

Definition chars (s : string) : list ascii := list_ascii_of_string s.
Definition text (l : list ascii) : string := string_of_list_ascii l.

Definition code (c : ascii) : nat := nat_of_ascii c.

(** [str.isspace] on an ASCII character: tab .. carriage return, the four
    separators 28 .. 31 and the blank. *)
Definition is_space (c : ascii) : bool :=
  let n := code c in
  ((9 <=? n) && (n <=? 13) || (28 <=? n) && (n <=? 32))%nat.

Definition is_digit (c : ascii) : bool :=
  let n := code c in ((48 <=? n) && (n <=? 57))%nat.

Definition is_upper (c : ascii) : bool :=
  let n := code c in ((65 <=? n) && (n <=? 90))%nat.

Definition is_lower (c : ascii) : bool :=
  let n := code c in ((97 <=? n) && (n <=? 122))%nat.

Definition lower_char (c : ascii) : ascii :=
  if is_upper c then ascii_of_nat (code c + 32) else c.

Fixpoint drop_while {A} (p : A -> bool) (l : list A) : list A :=
  match l with
  | [] => []
  | x :: l' => if p x then drop_while p l' else l
  end.

Fixpoint take_while {A} (p : A -> bool) (l : list A) : list A :=
  match l with
  | [] => []
  | x :: l' => if p x then x :: take_while p l' else []
  end.

Definition strip_chars (l : list ascii) : list ascii :=
  rev (drop_while is_space (rev (drop_while is_space l))).

(** [s.strip()] *)
Definition strip (s : string) : string := text (strip_chars (chars s)).

(** [s.rstrip()] *)
Definition rstrip (s : string) : string :=
  text (rev (drop_while is_space (rev (chars s)))).

(** [s.lower()] *)
Definition lower (s : string) : string := text (map lower_char (chars s)).

Fixpoint starts_with_chars (p l : list ascii) : bool :=
  match p, l with
  | [], _ => true
  | _ :: _, [] => false
  | a :: p', b :: l' => if ascii_dec a b then starts_with_chars p' l' else false
  end.

(** [s.startswith(p)] *)
Definition startswith (s p : string) : bool :=
  starts_with_chars (chars p) (chars s).

(** [s.endswith(p)] *)
Definition endswith (s p : string) : bool :=
  starts_with_chars (rev (chars p)) (rev (chars s)).

Fixpoint contains_chars (p l : list ascii) : bool :=
  starts_with_chars p l ||
  match l with
  | [] => false
  | _ :: l' => contains_chars p l'
  end.

(** [p in s] *)
Definition contains (p s : string) : bool :=
  contains_chars (chars p) (chars s).

(** [s[:-n]] for [0 < n]: all but the last [n] characters. *)
Definition drop_last (n : nat) (s : string) : string :=
  text (take (length (chars s) - n) (chars s)).

(** [s.isdigit()]: non-empty and made of digits. *)
Definition isdigit (s : string) : bool :=
  match chars s with
  | [] => false
  | l => forallb is_digit l
  end.

Definition digit_val (c : ascii) : Z := Z.of_nat (code c) - 48.

(** [int(ds)] for a run of decimal digits. *)
Definition int_of_digits (ds : list ascii) : Z :=
  fold_left (fun acc c => 10 * acc + digit_val c) ds 0.

(** [re.search(r"(\d+)", s)]: the first maximal run of digits. *)
Definition first_digit_run (s : string) : option (list ascii) :=
  match drop_while (fun c => negb (is_digit c)) (chars s) with
  | [] => None
  | l => Some (take_while is_digit l)
  end.

(** [re.sub(r"[^a-z0-9]", "", s)] *)
Definition keep_alnum (s : string) : string :=
  text (List.filter (fun c => is_lower c || is_digit c) (chars s)).

(** [s.split()]: the maximal runs of characters that are not white space;
    [cur] holds the run being read, last character first. *)
Fixpoint split_chars (cur l : list ascii) : list (list ascii) :=
  match l with
  | [] =>
      match cur with
      | [] => []
      | _ => [rev cur]
      end
  | c :: l' =>
      if is_space c then
        match cur with
        | [] => split_chars [] l'
        | _ => rev cur :: split_chars [] l'
        end
      else split_chars (c :: cur) l'
  end.

Definition split (s : string) : list string :=
  map text (split_chars [] (chars s)).

End PyStr.

(** ** Cell values *)

(** What a spreadsheet cell (and a pandas cell read from it) can hold.  A
    date carries the text that [str] prints for it. *)
Inductive value :=
| VNone
| VBool (b : bool)
| VInt (z : Z)
| VNaN
| VFloat (q : Q)
| VStr (s : string)
| VDate (iso : string).

(** The result of [float(s)]: a finite float, [nan] or an infinity. *)
Inductive pyfloat :=
| FFinite (q : Q)
| FNan
| FInf.

(** The library functions that the embedding does not write out.  The
    properties below hold for every implementation of them. *)
Class Library := {
  (** [str(x)] for a finite float [x] *)
  float_repr : Q -> string;
  (** [float(s)] for a string; [None] when it raises [ValueError] *)
  py_float : string -> option pyfloat;
  (** one cell of [pd.to_numeric(col, errors='coerce')] *)
  to_numeric : value -> value;
  (** one cell of [pd.to_datetime(col, errors='coerce').dt.date] *)
  to_datetime_date : value -> value;
  (** [date.today()] *)
  today : value;
  (** [excel_from_serial(x)]; [None] when it raises *)
  excel_from_serial : Q -> option value;
  (** [pd.to_datetime(s, errors='coerce')] as a date; [None] for [NaT] or
      when it raises *)
  parse_date_string : string -> option value;
  (** [dt.date()] for a date or a datetime *)
  date_part : value -> value;
  (** [int(s)] for a string; [None] when it raises [ValueError] *)
  py_int : string -> option Z;
  (** openpyxl's [is_date_format(fmt)] *)
  is_date_format : string -> bool;
  (** the number format openpyxl gives a date assigned to a cell whose
      format is not a date format *)
  default_date_format : value -> string;
}.

Module Py.

(** [int(x)] for a finite float: truncation toward zero. *)
Definition trunc (q : Q) : Z := Z.quot (Qnum q) (Zpos (Qden q)).

Definition int_of_bool (b : bool) : Z := if b then 1 else 0.

Definition str_of_int (z : Z) : string := NilZero.string_of_int (Z.to_int z).

(** [bool(v)] *)
Definition truthy (v : value) : bool :=
  match v with
  | VNone => false
  | VBool b => b
  | VInt z => negb (z =? 0)
  | VNaN => true
  | VFloat q => negb (Qeq_bool q 0)
  | VStr s => negb (String.eqb s "")
  | VDate _ => true
  end.

(** [str(v)] *)
Definition str `{Library} (v : value) : string :=
  match v with
  | VNone => "None"
  | VBool b => if b then "True" else "False"
  | VInt z => str_of_int z
  | VNaN => "nan"
  | VFloat q => float_repr q
  | VStr s => s
  | VDate iso => iso
  end.

(** [x is None] for an optional result *)
Definition is_none {A} (x : option A) : bool :=
  match x with
  | None => true
  | Some _ => false
  end.

(** [pd.isna(v)] *)
Definition isna (v : value) : bool :=
  match v with
  | VNone | VNaN => true
  | _ => false
  end.

(** [v in (None, '')] *)
Definition is_blank (v : value) : bool :=
  match v with
  | VNone => true
  | VStr s => String.eqb s ""
  | _ => false
  end.

(** A [dict] with string keys, in insertion order: assigning to a key
    that is present replaces its value in place. *)
Definition dict (V : Type) := list (string * V).

Fixpoint dict_set {V} (k : string) (v : V) (d : dict V) : dict V :=
  match d with
  | [] => [(k, v)]
  | (k', v') :: d' =>
      if String.eqb k' k then (k, v) :: d' else (k', v') :: dict_set k v d'
  end.

Fixpoint dict_get {V} (k : string) (d : dict V) : option V :=
  match d with
  | [] => None
  | (k', v') :: d' => if String.eqb k' k then Some v' else dict_get k d'
  end.

(** [enumerate(l)] *)
Definition enumerate {A} (l : list A) : list (nat * A) :=
  combine (seq 0 (length l)) l.

(** [range(a, b)] *)
Definition range (a b : nat) : list nat := seq a (b - a).

(** A [for] loop that returns from its first successful iteration. *)
Fixpoint first_some {A B} (f : A -> option B) (l : list A) : option B :=
  match l with
  | [] => None
  | x :: l' =>
      match f x with
      | Some b => Some b
      | None => first_some f l'
      end
  end.

End Py.

(** ** The pandas operations the scripts use *)

Module Pd.

(** A DataFrame: its column labels and its rows, each row with its index
    label.  [pd.read_excel] labels the rows 0, 1, 2, ...; a filtered
    frame keeps the labels of the rows it retains. *)
Record DataFrame := {
  columns : list string;
  rows : list (nat * list value);
}.

(** A Series: the cells of one column with their index labels. *)
Definition Series := list (nat * value).

Definition mem (c : string) (l : list string) : bool :=
  existsb (String.eqb c) l.

Fixpoint position (c : string) (l : list string) : option nat :=
  match l with
  | [] => None
  | x :: l' =>
      if String.eqb x c then Some 0%nat
      else option_map S (position c l')
  end.

(** The cell of a row under the column labelled [c]. *)
Definition cell (cols : list string) (c : string) (r : list value) : value :=
  match position c cols with
  | Some i => nth i r VNaN
  | None => VNaN
  end.

(** [df[c]] for a column [c] of [df] *)
Definition getitem (df : DataFrame) (c : string) : Series :=
  map (fun '(i, r) => (i, cell (columns df) c r)) (rows df).

(** [s.map(f)] *)
Definition series_map (f : value -> value) (s : Series) : Series :=
  map (fun '(i, v) => (i, f v)) s.

Definition values {A} (s : list (nat * A)) : list A := map snd s.

(** [pd.DataFrame(columns=cols)] *)
Definition empty (cols : list string) : DataFrame :=
  {| columns := cols; rows := [] |}.

(** [len(df)] *)
Definition len (df : DataFrame) : nat := length (rows df).

(** The rows picked by a boolean mask. *)
Fixpoint select {A} (mask : list bool) (l : list A) : list A :=
  match mask, l with
  | b :: mask', x :: l' => if b then x :: select mask' l' else select mask' l'
  | _, _ => []
  end.

(** [df[mask]] *)
Definition getitem_mask (df : DataFrame) (mask : list bool) : DataFrame :=
  {| columns := columns df; rows := select mask (rows df) |}.

(** [df.loc[mask, cols]] for labels [cols] of [df] *)
Definition loc (df : DataFrame) (mask : list bool) (cols : list string)
  : DataFrame :=
  {| columns := cols;
     rows := map (fun '(i, r) => (i, map (fun c => cell (columns df) c r) cols))
                 (select mask (rows df)) |}.

(** [s.reindex(idx)]: the cell of [s] under each label of [idx], [nan]
    where [s] has no such label (the labels of [s] are distinct). *)
Fixpoint lookup_label (i : nat) (s : Series) : value :=
  match s with
  | [] => VNaN
  | (j, v) :: s' => if Nat.eqb i j then v else lookup_label i s'
  end.

Definition reindex (s : Series) (idx : list nat) : list value :=
  map (fun i => lookup_label i s) idx.

(** [pd.DataFrame(index=range(n), columns=cols)]: all cells missing. *)
Definition blank (n : nat) (cols : list string) : DataFrame :=
  {| columns := cols;
     rows := map (fun i => (i, map (fun _ => VNaN) cols)) (seq 0 n) |}.

Fixpoint set_nth (i : nat) (v : value) (r : list value) : list value :=
  match i, r with
  | _, [] => []
  | O, _ :: r' => v :: r'
  | S i', x :: r' => x :: set_nth i' v r'
  end.

(** [df[c] = v] for a scalar [v] and a column [c] of [df] *)
Definition set_scalar (df : DataFrame) (c : string) (v : value) : DataFrame :=
  match position c (columns df) with
  | Some k =>
      {| columns := columns df;
         rows := map (fun '(i, r) => (i, set_nth k v r)) (rows df) |}
  | None => df
  end.

(** [df[c] = s] for a Series [s] and a column [c] of [df]: the series is
    aligned on the row labels of [df]. *)
Definition set_series (df : DataFrame) (c : string) (s : Series) : DataFrame :=
  match position c (columns df) with
  | Some k =>
      {| columns := columns df;
         rows := map (fun '(i, r) => (i, set_nth k (lookup_label i s) r))
                     (rows df) |}
  | None => df
  end.

End Pd.

(** ** The openpyxl operations the scripts use *)

Module Xl.

(** A cell: its value, its number format and its horizontal alignment. *)
Record Cell := {
  value_of : value;
  number_format : string;
  alignment : option string;
}.

Definition blank_cell : Cell :=
  {| value_of := VNone; number_format := "General"; alignment := None |}.

(** A worksheet is the dictionary of its cells, keyed by (row, column). *)
Abbreviation Worksheet := (gmap (nat * nat) Cell).

(** [ws.cell(row=r, column=c)]; reading creates no row beyond [max_row]
    in the loops below, so it is modelled as a lookup. *)
Definition cell (ws : Worksheet) (r c : nat) : Cell :=
  default blank_cell (ws !! (r, c)).

(** [ws.max_row]: the largest row that has a cell, 1 for an empty sheet. *)
Definition max_row (ws : Worksheet) : nat :=
  map_fold (fun (k : nat * nat) (_ : Cell) (m : nat) => Nat.max (fst k) m) 1%nat ws.

(** [ws.max_column] *)
Definition max_column (ws : Worksheet) : nat :=
  map_fold (fun (k : nat * nat) (_ : Cell) (m : nat) => Nat.max (snd k) m) 1%nat ws.

(** Assigning [v] to a cell keeps its format, except that a date assigned
    to a cell whose format is not a date format takes the default date
    format. *)
Definition bind_value `{Library} (cl : Cell) (v : value) : Cell :=
  {| value_of := v;
     number_format :=
       match v with
       | VDate _ =>
           if is_date_format (number_format cl) then number_format cl
           else default_date_format v
       | _ => number_format cl
       end;
     alignment := alignment cl |}.

(** [ws.cell(row=r, column=c, value=v)]: the cell is created if need be,
    and [v] is assigned unless it is [None]. *)
Definition write `{Library} (ws : Worksheet) (r c : nat) (v : value) : Worksheet :=
  match v with
  | VNone => <[(r, c) := cell ws r c]> ws
  | _ => <[(r, c) := bind_value (cell ws r c) v]> ws
  end.

(** [ws.cell(row=r, column=c).number_format = fmt] *)
Definition set_number_format (ws : Worksheet) (r c : nat) (fmt : string)
  : Worksheet :=
  let cl := cell ws r c in
  <[(r, c) := {| value_of := value_of cl; number_format := fmt;
                 alignment := alignment cl |}]> ws.

(** [ws.cell(row=r, column=c).alignment = Alignment(horizontal=h)] *)
Definition set_alignment (ws : Worksheet) (r c : nat) (h : string) : Worksheet :=
  let cl := cell ws r c in
  <[(r, c) := {| value_of := value_of cl; number_format := number_format cl;
                 alignment := Some h |}]> ws.

(** [ws.cell(row=r, column=c)] alone: the cell is created if need be. *)
Definition touch (ws : Worksheet) (r c : nat) : Worksheet :=
  <[(r, c) := cell ws r c]> ws.

Fixpoint column_letters (fuel c : nat) (acc : string) : string :=
  match fuel with
  | O => acc
  | S fuel' =>
      if (c =? 0)%nat then acc
      else column_letters fuel' ((c - 1) / 26)%nat
             (String (ascii_of_nat (65 + (c - 1) mod 26)) acc)
  end.

(** [get_column_letter(c)]: A .. Z, AA .. ZZ, AAA .. *)
Definition get_column_letter (c : nat) : string := column_letters 3 c "".

End Xl.

(** ** Files and printed messages *)

Module Fs.

(** A workbook is the list of its worksheets; the disk maps a path to the
    workbook stored there. *)
Abbreviation Workbook := (list Xl.Worksheet).
Abbreviation Disk := (gmap string Workbook).

(** What the append scripts print. *)
Inductive message :=
| SourceNotFound (path : string)
| DestinationNotFound (path : string)
| NoDataToAppend
| SourceRowsToAppend (n : nat)
| DestinationLastRow (last_row start_row : nat)
| Appended (n : nat)
| CouldNotSave
| LastAppendedRow (r : nat) (sample : list value).

(** The end of a run: the disk, what was printed, and the exception that
    ended the run, if any. *)
Record outcome := {
  disk_after : Disk;
  printed : list message;
  raised : option string;
}.

(** [wb.save(path)]: when the file is open elsewhere or locked the call
    raises [PermissionError] and the file is not touched; otherwise the
    workbook replaces the file. *)
Definition save (denied : bool) (disk : Disk) (path : string) (wb : Workbook)
  : option Disk :=
  if denied then None else Some (<[path := wb]> disk).

End Fs.

(** ** transformer.py *)

Module Transformer.

Definition TARGET_TERMS : list Z := [12; 24; 36; 48; 60].

Definition BASE_COLS : list string :=
  ["Start Month"; "State"; "Utility"; "Congestion Zone"; "Load Factor";
   "Term"; "Product"; "0-200,000"].

Definition MASTER_COLS : list string :=
  ["ID"; "Price_Date"; "Date"; "Zone"; "Load"; "REP1"; "Term"; "Min_MWh";
   "Max_MWh"; "Daily_No_Ruc"; "RUC_Nodal"; "Daily"; "Com_Disc"; "HOA_Disc";
   "Broker_Fee"; "Meter_Fee"; "Max_Meters"].

(** [int(val) if float(int(val)) == val else None] for a number; the
    integers of a sheet are exactly representable as floats. *)
Definition parse_term_to_int `{Library} (val : value) : option Z :=
  if Py.isna val then None
  else
    match val with
    | VBool b => Some (Py.int_of_bool b)
    | VInt z => Some z
    | VFloat q =>
        if Qeq_bool (inject_Z (Py.trunc q)) q then Some (Py.trunc q) else None
    | _ =>
        let s := PyStr.strip (Py.str val) in
        if PyStr.isdigit s then Some (PyStr.int_of_digits (PyStr.chars s))
        else
          match PyStr.first_digit_run s with
          | Some m => Some (PyStr.int_of_digits m)
          | None => None
          end
    end.

(** One cell of [term_vals.isin(TARGET_TERMS)]. *)
Definition isin_target (t : option Z) : bool :=
  match t with
  | Some z => existsb (Z.eqb z) TARGET_TERMS
  | None => false
  end.

Definition filter_sheet `{Library} (df : Pd.DataFrame) : Pd.DataFrame :=
  let prod_col :=
    List.find (fun col => Pd.mem (PyStr.lower (PyStr.strip col))
                            ["product"; "products"]) (Pd.columns df) in
  let term_col :=
    List.find (fun col => Pd.mem (PyStr.lower (PyStr.strip col))
                            ["term"; "terms"]) (Pd.columns df) in
  match prod_col, term_col with
  | Some prod_col, Some term_col =>
      let prod_mask :=
        map (fun v => String.eqb (PyStr.lower (PyStr.strip (Py.str v)))
                                 "fixed price")
            (Pd.values (Pd.getitem df prod_col)) in
      let term_vals := map parse_term_to_int (Pd.values (Pd.getitem df term_col)) in
      let term_mask := map isin_target term_vals in
      let cols := List.filter (fun c => Pd.mem c (Pd.columns df)) BASE_COLS in
      Pd.loc df (zip_with andb prod_mask term_mask) cols
  | _, _ => Pd.empty BASE_COLS
  end.

Definition normalize_column_name (name : string) : string :=
  PyStr.keep_alnum (PyStr.lower (PyStr.strip name)).

Definition find_column (df : Pd.DataFrame) (candidates : list string)
    (allow_contains : bool) : option string :=
  let norm_map :=
    fold_left (fun d col => Py.dict_set (normalize_column_name col) col d)
              (Pd.columns df) [] in
  match Py.first_some
          (fun candidate => Py.dict_get (normalize_column_name candidate) norm_map)
          candidates with
  | Some col => Some col
  | None =>
      if allow_contains then
        Py.first_some
          (fun '(key_norm, orig_col) =>
             if existsb (fun candidate =>
                           PyStr.contains (normalize_column_name candidate) key_norm)
                        candidates
             then Some orig_col else None)
          norm_map
      else None
  end.

Definition load_factor_suffixes : list string :=
  [" Low Load Factor"; " Medium Load Factor"; " High Load Factor"].

(** The [for token in ...] loop of [parse_zone_from_description]. *)
Fixpoint strip_suffix (s : string) (tokens : list string) : string :=
  match tokens with
  | [] => s
  | token :: rest =>
      if PyStr.endswith s token
      then PyStr.drop_last (String.length token) s
      else strip_suffix s rest
  end.

Definition parse_zone_from_description `{Library} (text : value) : string :=
  let s := PyStr.strip (Py.str (if Py.truthy text then text else VStr "")) in
  strip_suffix s load_factor_suffixes.

Definition parse_load_factor_from_description `{Library} (text : value)
  : string :=
  let s := PyStr.strip (Py.str (if Py.truthy text then text else VStr "")) in
  if PyStr.contains "Low Load Factor" s then "LOW"
  else if PyStr.contains "Medium Load Factor" s then "MED"
  else if PyStr.contains "High Load Factor" s then "HIGH"
  else "".

(** The helper [term_to_int]: [int(float(v))] when that does not raise,
    otherwise the first run of digits of [str(v)]; the result is kept only
    when it is a target term. *)
Definition term_to_int `{Library} (v : value) : option Z :=
  let attempt :=
    match v with
    | VBool b => Some (Py.int_of_bool b)
    | VInt z => Some z
    | VFloat q => Some (Py.trunc q)
    | VStr s =>
        match py_float s with
        | Some (FFinite q) => Some (Py.trunc q)
        | _ => None
        end
    | VNone | VNaN | VDate _ => None
    end in
  match attempt with
  | Some iv => if existsb (Z.eqb iv) TARGET_TERMS then Some iv else None
  | None =>
      match PyStr.first_digit_run (Py.str v) with
      | Some m =>
          let iv := PyStr.int_of_digits m in
          if existsb (Z.eqb iv) TARGET_TERMS then Some iv else None
      | None => None
      end
  end.

(** A cell of the Series that [.map(term_to_int)] yields: [None] becomes a
    missing value. *)
Definition term_cell (t : option Z) : value :=
  match t with
  | Some z => VInt z
  | None => VNaN
  end.

(** [transform_to_master_format].  A Series assigned to a column of [out]
    is aligned on the row labels 0 .. num_rows - 1 of [out]; [work_df]
    keeps the labels its rows have in [df]. *)
Definition transform_to_master_format `{Library} (df : Pd.DataFrame)
  : Pd.DataFrame :=
  let desc_candidates :=
    ["MatrixDescription"; "Matrix Description"; "Description"; "Desc"] in
  let price_candidates :=
    ["Price"; "Price $"; "Price($)"; "Matrix Price"; "Rate"; "Base Price"] in
  let green_candidates := ["GreenPrice"; "Green Price"] in
  let term_candidates :=
    ["TermCode"; "Term"; "Term Months"; "Term_Months"; "TermLength";
     "Term (months)"] in
  let start_candidates :=
    ["StartDate"; "Start Date"; "StartMonth"; "Start Month"; "Delivery Start";
     "First Delivery"] in
  let zone_candidates := ["Zone"; "Congestion Zone"] in
  let lf_candidates := ["Load Factor"; "LoadFactor"; "LF"] in
  let product_candidates := ["Product"; "Products"] in
  let c_desc := find_column df desc_candidates true in
  let c_price := find_column df price_candidates true in
  let c_green := find_column df green_candidates true in
  let c_term := find_column df term_candidates true in
  let c_start := find_column df start_candidates true in
  let c_zone := find_column df zone_candidates true in
  let c_lf := find_column df lf_candidates true in
  let c_prod := find_column df product_candidates true in
  let master_cols := MASTER_COLS in
  let out := Pd.empty master_cols in
  let fixed_price v :=
    String.eqb (PyStr.lower (PyStr.strip (Py.str v))) "fixed price" in
  let work_df :=
    match c_prod with
    | Some c_prod =>
        Pd.getitem_mask df (map fixed_price (Pd.values (Pd.getitem df c_prod)))
    | None => df
    end in
  if Py.is_none c_price && Py.is_none c_green then out
  else
  match c_term, c_start with
  | None, _ | _, None => out
  | Some c_term, Some c_start =>
      if Py.is_none c_desc && (Py.is_none c_zone && Py.is_none c_lf) then out
      else
          let num_rows := Pd.len work_df in
          if (num_rows =? 0)%nat then out
          else
            let out := Pd.blank num_rows master_cols in
            let out := Pd.set_scalar out "ID" VNone in
            let out := Pd.set_scalar out "Price_Date" today in
            let start_dates :=
              Pd.series_map to_datetime_date (Pd.getitem work_df c_start) in
            let out := Pd.set_series out "Date" start_dates in
            let out :=
              match c_desc with
              | Some c_desc =>
                  let out :=
                    Pd.set_series out "Zone"
                      (Pd.series_map (fun v => VStr (parse_zone_from_description v))
                                     (Pd.getitem work_df c_desc)) in
                  Pd.set_series out "Load"
                    (Pd.series_map (fun v => VStr (parse_load_factor_from_description v))
                                   (Pd.getitem work_df c_desc))
              | None =>
                  let out :=
                    match c_zone with
                    | Some c_zone =>
                        Pd.set_series out "Zone"
                          (Pd.series_map (fun v => VStr (Py.str v))
                                         (Pd.getitem work_df c_zone))
                    | None => Pd.set_scalar out "Zone" (VStr "")
                    end in
                  match c_lf with
                  | Some c_lf =>
                      Pd.set_series out "Load"
                        (Pd.series_map (fun v => VStr (Py.str v))
                                       (Pd.getitem work_df c_lf))
                  | None => Pd.set_scalar out "Load" (VStr "")
                  end
              end in
            let out := Pd.set_scalar out "REP1" (VStr "HUDSON") in
            let out :=
              Pd.set_series out "Term"
                (Pd.series_map (fun v => term_cell (term_to_int v))
                               (Pd.getitem work_df c_term)) in
            let out := Pd.set_scalar out "Min_MWh" (VInt 0) in
            let out := Pd.set_scalar out "Max_MWh" (VInt 1000) in
            let price_series :=
              match c_price with
              | Some c_price => Pd.series_map to_numeric (Pd.getitem work_df c_price)
              | None => []
              end in
            let price_series :=
              match c_green with
              | Some c_green =>
                  if forallb Py.isna (Pd.values price_series)
                  then Pd.series_map to_numeric (Pd.getitem work_df c_green)
                  else price_series
              | None => price_series
              end in
            let out := Pd.set_series out "Daily_No_Ruc" price_series in
            let out := Pd.set_scalar out "RUC_Nodal" (VInt 0) in
            let out := Pd.set_series out "Daily" price_series in
            let out := Pd.set_scalar out "Com_Disc" (VInt 0) in
            let out := Pd.set_scalar out "HOA_Disc" (VInt 0) in
            let out := Pd.set_scalar out "Broker_Fee" (VInt 0) in
            let out := Pd.set_scalar out "Meter_Fee" (VInt 0) in
            let out := Pd.set_scalar out "Max_Meters" (VInt 5) in
            Pd.getitem_mask out
              (map (fun v => negb (Py.isna v)) (Pd.values (Pd.getitem out "Term")))
  end.

End Transformer.

(** ** excel_processor.py *)

Module ExcelProcessor.

Definition TARGET_TERMS : list Z := [12; 24; 36; 48; 60].

Definition BASE_COLS : list string :=
  ["Start Month"; "State"; "Utility"; "Congestion Zone"; "Load Factor";
   "Term"; "Product"; "0-200,000"].

(** [int(val) if float(int(val)) == val else None] for a number; the
    integers of a sheet are exactly representable as floats. *)
Definition parse_term_to_int `{Library} (val : value) : option Z :=
  if Py.isna val then None
  else
    match val with
    | VBool b => Some (Py.int_of_bool b)
    | VInt z => Some z
    | VFloat q =>
        if Qeq_bool (inject_Z (Py.trunc q)) q then Some (Py.trunc q) else None
    | _ =>
        let s := PyStr.strip (Py.str val) in
        if PyStr.isdigit s then Some (PyStr.int_of_digits (PyStr.chars s))
        else
          match PyStr.first_digit_run s with
          | Some m => Some (PyStr.int_of_digits m)
          | None => None
          end
    end.

(** One cell of [term_vals.isin(TARGET_TERMS)]. *)
Definition isin_target (t : option Z) : bool :=
  match t with
  | Some z => existsb (Z.eqb z) TARGET_TERMS
  | None => false
  end.

Definition filter_sheet `{Library} (df : Pd.DataFrame) : Pd.DataFrame :=
  let prod_col :=
    List.find (fun col => Pd.mem (PyStr.lower (PyStr.strip col))
                            ["product"; "products"]) (Pd.columns df) in
  let term_col :=
    List.find (fun col => Pd.mem (PyStr.lower (PyStr.strip col))
                            ["term"; "terms"]) (Pd.columns df) in
  match prod_col, term_col with
  | Some prod_col, Some term_col =>
      let prod_mask :=
        map (fun v => String.eqb (PyStr.lower (PyStr.strip (Py.str v)))
                                 "fixed price")
            (Pd.values (Pd.getitem df prod_col)) in
      let term_vals := map parse_term_to_int (Pd.values (Pd.getitem df term_col)) in
      let term_mask := map isin_target term_vals in
      let cols := List.filter (fun c => Pd.mem c (Pd.columns df)) BASE_COLS in
      Pd.loc df (zip_with andb prod_mask term_mask) cols
  | _, _ => Pd.empty BASE_COLS
  end.

(** The helpers [norm] and [get_col] nested in [hda_matrix_to_master_cols],
    over the column labels [raw_cols] of its frame. *)
Definition norm (s : string) : string :=
  PyStr.keep_alnum (PyStr.lower (PyStr.strip s)).

Definition get_col (raw_cols : list string) (candidates : list string)
    (allow_contains : bool) : option string :=
  let norm_map :=
    fold_left (fun d c => Py.dict_set (norm c) c d) raw_cols [] in
  match Py.first_some (fun cand => Py.dict_get (norm cand) norm_map) candidates with
  | Some orig => Some orig
  | None =>
      if allow_contains then
        Py.first_some
          (fun '(key_norm, orig) =>
             if existsb (fun cand => PyStr.contains (norm cand) key_norm) candidates
             then Some orig else None)
          norm_map
      else None
  end.

(** The helpers [parse_zone] and [parse_lf] nested in
    [hda_matrix_to_master_cols] ([parse_lf] also prints its argument). *)
Fixpoint strip_suffix (s : string) (tokens : list string) : string :=
  match tokens with
  | [] => s
  | token :: rest =>
      if PyStr.endswith s token
      then PyStr.drop_last (String.length token) s
      else strip_suffix s rest
  end.

Definition parse_zone `{Library} (text : value) : string :=
  let s := PyStr.strip (Py.str (if Py.truthy text then text else VStr "")) in
  strip_suffix s [" Low Load Factor"; " Medium Load Factor"; " High Load Factor"].

Definition parse_lf `{Library} (text : value) : string :=
  let s := PyStr.strip (Py.str (if Py.truthy text then text else VStr "")) in
  if PyStr.contains "Low Load Factor" s then "LOW"
  else if PyStr.contains "Medium Load Factor" s then "MED"
  else if PyStr.contains "High Load Factor" s then "HIGH"
  else "".

(** The helper [term_to_int]: [int(float(v))] when that does not raise,
    otherwise the first run of digits of [str(v)]; the result is kept only
    when it is a target term. *)
Definition term_to_int `{Library} (v : value) : option Z :=
  let attempt :=
    match v with
    | VBool b => Some (Py.int_of_bool b)
    | VInt z => Some z
    | VFloat q => Some (Py.trunc q)
    | VStr s =>
        match py_float s with
        | Some (FFinite q) => Some (Py.trunc q)
        | _ => None
        end
    | VNone | VNaN | VDate _ => None
    end in
  match attempt with
  | Some iv => if existsb (Z.eqb iv) TARGET_TERMS then Some iv else None
  | None =>
      match PyStr.first_digit_run (Py.str v) with
      | Some m =>
          let iv := PyStr.int_of_digits m in
          if existsb (Z.eqb iv) TARGET_TERMS then Some iv else None
      | None => None
      end
  end.

(** A cell of the Series that [.map(term_to_int)] yields: [None] becomes a
    missing value. *)
Definition term_cell (t : option Z) : value :=
  match t with
  | Some z => VInt z
  | None => VNaN
  end.

(** [hda_matrix_to_master_cols].  A Series assigned to a column of [out]
    is aligned on the row labels 0 .. num_rows - 1 of [out]; [work_df]
    keeps the labels its rows have in [df]. *)
Definition hda_matrix_to_master_cols `{Library} (df : Pd.DataFrame)
  : Pd.DataFrame :=
  let raw_cols := Pd.columns df in
  let desc_candidates :=
    ["MatrixDescription"; "Matrix Description"; "Description"; "Desc"] in
  let price_candidates :=
    ["Price"; "Price $"; "Price($)"; "Matrix Price"; "Rate"; "Base Price"] in
  let green_candidates := ["GreenPrice"; "Green Price"] in
  let term_candidates :=
    ["TermCode"; "Term"; "Term Months"; "Term_Months"; "TermLength";
     "Term (months)"] in
  let start_candidates :=
    ["StartDate"; "Start Date"; "StartMonth"; "Start Month"; "Delivery Start";
     "First Delivery"; "DeliveryStart"] in
  let created_candidates :=
    ["CreatedDate"; "Created Date"; "Created"; "Price Date"; "PriceDate"] in
  let tdsp_candidates := ["TdspCode"; "TDSP"; "TDSP Code"; "Utility"] in
  let zone_candidates := ["Zone"; "Congestion Zone"] in
  let lf_candidates := ["Load Factor"; "LoadFactor"; "LF"] in
  let product_candidates := ["Product"; "Products"] in
  let c_desc := get_col raw_cols desc_candidates true in
  let c_price := get_col raw_cols price_candidates true in
  let c_green := get_col raw_cols green_candidates true in
  let c_term := get_col raw_cols term_candidates true in
  let c_start := get_col raw_cols start_candidates true in
  let c_created := get_col raw_cols created_candidates true in
  let c_tdsp := get_col raw_cols tdsp_candidates true in
  let c_zone := get_col raw_cols zone_candidates true in
  let c_lf := get_col raw_cols lf_candidates true in
  let c_prod := get_col raw_cols product_candidates true in
  let master_cols :=
    ["ID"; "Price_Date"; "Date"; "Zone"; "Load"; "REP1"; "Term"; "Min_MWh";
     "Max_MWh"; "Daily_No_Ruc"; "RUC_Nodal"; "Daily"; "Com_Disc"; "HOA_Disc";
     "Broker_Fee"; "Meter_Fee"; "Max_Meters"] in
  let out := Pd.empty master_cols in
  let fixed_price v :=
    String.eqb (PyStr.lower (PyStr.strip (Py.str v))) "fixed price" in
  let work_df :=
    match c_prod with
    | Some c_prod =>
        Pd.getitem_mask df (map fixed_price (Pd.values (Pd.getitem df c_prod)))
    | None => df
    end in
  if Py.is_none c_price && Py.is_none c_green then out
  else
  match c_term, c_start with
  | None, _ | _, None => out
  | Some c_term, Some c_start =>
      if Py.is_none c_desc && (Py.is_none c_zone && Py.is_none c_lf) then out
      else
          let num_rows := Pd.len work_df in
          if (num_rows =? 0)%nat then out
          else
            let out := Pd.blank num_rows master_cols in
            let out := Pd.set_scalar out "ID" VNone in
            let out := Pd.set_scalar out "Price_Date" today in
            let start_dates :=
              Pd.series_map to_datetime_date (Pd.getitem work_df c_start) in
            let out := Pd.set_series out "Date" start_dates in
            let out :=
              match c_desc with
              | Some c_desc =>
                  let out :=
                    Pd.set_series out "Zone"
                      (Pd.series_map (fun v => VStr (parse_zone v))
                                     (Pd.getitem work_df c_desc)) in
                  Pd.set_series out "Load"
                    (Pd.series_map (fun v => VStr (parse_lf v))
                                   (Pd.getitem work_df c_desc))
              | None =>
                  let out :=
                    match c_zone with
                    | Some c_zone =>
                        Pd.set_series out "Zone"
                          (Pd.series_map (fun v => VStr (Py.str v))
                                         (Pd.getitem work_df c_zone))
                    | None => Pd.set_scalar out "Zone" (VStr "")
                    end in
                  match c_lf with
                  | Some c_lf =>
                      Pd.set_series out "Load"
                        (Pd.series_map (fun v => VStr (Py.str v))
                                       (Pd.getitem work_df c_lf))
                  | None => Pd.set_scalar out "Load" (VStr "")
                  end
              end in
            let out := Pd.set_scalar out "REP1" (VStr "HUDSON") in
            let out :=
              Pd.set_series out "Term"
                (Pd.series_map (fun v => term_cell (term_to_int v))
                               (Pd.getitem work_df c_term)) in
            let out := Pd.set_scalar out "Min_MWh" (VInt 0) in
            let out := Pd.set_scalar out "Max_MWh" (VInt 1000) in
            let price_series :=
              match c_price with
              | Some c_price => Pd.series_map to_numeric (Pd.getitem work_df c_price)
              | None => []
              end in
            let price_series :=
              match c_green with
              | Some c_green =>
                  if forallb Py.isna (Pd.values price_series)
                  then Pd.series_map to_numeric (Pd.getitem work_df c_green)
                  else price_series
              | None => price_series
              end in
            let out := Pd.set_series out "Daily_No_Ruc" price_series in
            let out := Pd.set_scalar out "RUC_Nodal" (VInt 0) in
            let out := Pd.set_series out "Daily" price_series in
            let out := Pd.set_scalar out "Com_Disc" (VInt 0) in
            let out := Pd.set_scalar out "HOA_Disc" (VInt 0) in
            let out := Pd.set_scalar out "Broker_Fee" (VInt 0) in
            let out := Pd.set_scalar out "Meter_Fee" (VInt 0) in
            let out := Pd.set_scalar out "Max_Meters" (VInt 5) in
            Pd.getitem_mask out
              (map (fun v => negb (Py.isna v)) (Pd.values (Pd.getitem out "Term")))
  end.

Definition hda_matrix_to_base_cols `{Library} (df : Pd.DataFrame) : Pd.DataFrame :=
  hda_matrix_to_master_cols df.

(** *** Locating the first unused row and identifier *)

Definition last_data_row (ws : Xl.Worksheet) (scan_cols : nat) : nat :=
  let max_r := Xl.max_row ws in
  default 0%nat
    (List.find
       (fun r => existsb (fun c => negb (Py.is_blank (Xl.value_of (Xl.cell ws r c))))
                         (Py.range 1 (scan_cols + 1)))
       (rev (Py.range 1 (max_r + 1)))).

Definition find_first_blank_row (ws : Xl.Worksheet) : nat :=
  default (Xl.max_row ws + 1)%nat
    (List.find (fun r => Py.is_blank (Xl.value_of (Xl.cell ws r 1)))
               (Py.range 2 (Xl.max_row ws + 1))).

(** [int(v)] for a cell that is an [int] or a [float]; [None] for any
    other cell and for [nan], where [int] raises and the row is skipped. *)
Definition int_of_number (v : value) : option Z :=
  match v with
  | VBool b => Some (Py.int_of_bool b)
  | VInt z => Some z
  | VFloat q => Some (Py.trunc q)
  | _ => None
  end.

(** The loop shared by [get_next_id] and the appends that inline it. *)
Definition max_id_of (ws : Xl.Worksheet) : Z :=
  fold_left
    (fun max_id r =>
       match int_of_number (Xl.value_of (Xl.cell ws r 1)) with
       | Some vi => if vi >? max_id then vi else max_id
       | None => max_id
       end)
    (Py.range 2 (Xl.max_row ws + 1)) 0.

Definition get_next_id (ws : Xl.Worksheet) : Z := max_id_of ws + 1.

(** *** Master formats *)

(** Expected master headers in order (B..Q). *)
Definition MASTER_HEADERS : list string :=
  ["Price_Date"; "Date"; "Zone"; "Load"; "REP1"; "Term"; "Min_MWh"; "Max_MWh";
   "Daily_No_Ruc"; "RUC_Nodal"; "Daily"; "Com_Disc"; "HOA_Disc"; "Broker_Fee";
   "Meter_Fee"; "Max_Meters"].

Definition MASTER_FORMATS : Py.dict string :=
  [("A", "General");
   ("B", "mm-dd-yy");
   ("C", "mm-dd-yy");
   ("D", "General");
   ("E", "General");
   ("F", "General");
   ("G", "* #,##0;* (#,##0);* -00");
   ("H", "* #,##0;* (#,##0);* -00");
   ("I", "General");
   ("J", "$#,##0.00;($#,##0.00)");
   ("K", "$#,##0.00");
   ("L", "$#,##0.00");
   ("M", "$* #,##0.00;$* (#,##0.00);$* -00");
   ("N", "$* #,##0.00;$* (#,##0.00);$* -00");
   ("O", "$#,##0.00");
   ("P", "$* #,##0.00;$* (#,##0.00);$* -00");
   ("Q", "#,##0")].

Definition apply_master_formats (ws_dst : Xl.Worksheet) (row_idx : nat)
  : Xl.Worksheet :=
  fold_left
    (fun ws c =>
       let col_letter := Xl.get_column_letter c in
       let fmt := Py.dict_get col_letter MASTER_FORMATS in
       let ws := Xl.touch ws row_idx c in
       let ws :=
         match fmt with
         | Some f => if String.eqb f "" then ws
                     else Xl.set_number_format ws row_idx c f
         | None => ws
         end in
       if (c =? 6)%nat then Xl.set_alignment ws row_idx c "right" else ws)
    (Py.range 1 (17 + 1)) ws_dst.

(** *** Appending a master-formatted DataFrame: [a] *)

(** [v * 100] on a cell; [None] when Python raises [TypeError]. *)
Definition times_100 (v : value) : option value :=
  match v with
  | VBool b => Some (VInt (Py.int_of_bool b * 100))
  | VInt z => Some (VInt (z * 100))
  | VNaN => Some VNaN
  | VFloat q => Some (VFloat (q * 100))
  | VStr s => Some (VStr (fold_left (fun acc _ => acc +:+ s) (seq 0 100) ""))
  | VNone | VDate _ => None
  end.

(** [df[c] = df[c] * 100]; [None] when the column is missing ([KeyError])
    or a cell cannot be multiplied. *)
Definition scale_column (df : Pd.DataFrame) (c : string) : option Pd.DataFrame :=
  match Pd.position c (Pd.columns df) with
  | None => None
  | Some k =>
      rows ← mapM (fun '(i, r) =>
                     v ← times_100 (nth k r VNaN);
                     Some (i, Pd.set_nth k v r))
                  (Pd.rows df);
      Some {| Pd.columns := Pd.columns df; Pd.rows := rows |}
  end.

(** The body of the row loop of [a]: identifier, formats, then the
    values of the master headers that the row has. *)
Definition write_master_row `{Library} (cols : list string) (ws : Xl.Worksheet)
    (dst_row : nat) (id : Z) (row : list value) : Xl.Worksheet :=
  let ws := Xl.write ws dst_row 1 (VInt id) in
  let ws := apply_master_formats ws dst_row in
  fold_left
    (fun ws '(col_idx, header) =>
       if Pd.mem header cols
       then Xl.write ws dst_row (col_idx + 2) (Pd.cell cols header row)
       else ws)
    (Py.enumerate MASTER_HEADERS) ws.

(** The second half of [a] (from "Find the first blank row" to the end of
    the row loop), on the frame whose prices are already scaled. *)
Definition append_master_rows `{Library} (master_df : Pd.DataFrame)
    (ws_dst : Xl.Worksheet) : Xl.Worksheet * nat :=
  let first_blank_row := find_first_blank_row ws_dst in
  if (first_blank_row =? 0)%nat then (ws_dst, 0%nat)
  else
    let next_id := get_next_id ws_dst in
    let write_row := first_blank_row in
    fold_left
      (fun '(ws, rows_appended) '(r_offset, row) =>
         let dst_row := (write_row + r_offset)%nat in
         (write_master_row (Pd.columns master_df) ws dst_row
            (next_id + Z.of_nat r_offset) row,
          (rows_appended + 1)%nat))
      (Py.enumerate (Pd.values (Pd.rows master_df))) (ws_dst, 0%nat).

(** [a(master_df, dst_master_path)], on the active sheet [ws_dst] of the
    master workbook.  The result is the frame as [a] leaves it (the two
    price columns are scaled in place), the sheet that is saved, and the
    number of rows appended; [None] when Python raises.  The backup copy
    of the master file is left out. *)
Definition a `{Library} (master_df : Pd.DataFrame) (ws_dst : Xl.Worksheet)
  : option (Pd.DataFrame * Xl.Worksheet * nat) :=
  if (Pd.len master_df =? 0)%nat || (length (Pd.columns master_df) =? 0)%nat
  then Some (master_df, ws_dst, 0%nat)
  else
    df1 ← scale_column master_df "Daily_No_Ruc";
    df2 ← scale_column df1 "Daily";
    let '(ws, rows_appended) := append_master_rows df2 ws_dst in
    Some (df2, ws, rows_appended).

Definition append_master_formatted_dataframe_to_master `{Library}
    (master_df : Pd.DataFrame) (ws_dst : Xl.Worksheet) :=
  a master_df ws_dst.

(** *** Appending from a template by header mapping *)

(** Source header normalization map (case-insensitive). *)
Definition SOURCE_SYNONYMS : Py.dict string :=
  [("price_date", "Price_Date");
   ("date", "Date");
   ("zone", "Zone");
   ("rep1", "REP1");
   ("load", "Load");
   ("term", "Term");
   ("min_mwh", "Min_MWh");
   ("max_mwh", "Max_MWh");
   ("daily_no_ruc", "Daily_No_Ruc");
   ("ruc_nodal", "RUC_Nodal");
   ("ruc_nodal_", "RUC_Nodal");
   ("ruc_nodal__", "RUC_Nodal");
   ("daily", "Daily");
   ("com_disc", "Com_Disc");
   ("hoa_disc", "HOA_Disc");
   ("broker_fee", "Broker_Fee");
   ("meter_fee", "Meter_Fee");
   ("max_meters", "Max_Meters")].

(** [v.strip().lower().replace(' ', '_')] for a string cell. *)
Definition header_key (v : value) : option string :=
  match v with
  | VStr s =>
      Some (PyStr.text
              (map (fun c => if ascii_dec c " " then "_"%char else c)
                   (PyStr.chars (PyStr.lower (PyStr.strip s)))))
  | _ => None
  end.

Definition detect_header_row (ws : Xl.Worksheet) (max_scan_rows : nat) : nat :=
  default 1%nat
    (List.find
       (fun r =>
          let norm :=
            map (fun c => header_key (Xl.value_of (Xl.cell ws r c)))
                (Py.range 1 (Xl.max_column ws + 1)) in
          let has k := existsb (fun o => match o with
                                         | Some x => String.eqb x k
                                         | None => false
                                         end) norm in
          has "price_date" && (has "zone" || has "load")
          && (has "daily" || has "daily_no_ruc"))
       (Py.range 1 (Nat.min (Xl.max_row ws) max_scan_rows + 1))).

Definition build_source_mapping (ws : Xl.Worksheet) (header_row : nat)
  : Py.dict nat :=
  fold_left
    (fun mapping c =>
       match header_key (Xl.value_of (Xl.cell ws header_row c)) with
       | None => mapping
       | Some key =>
           match Py.dict_get key SOURCE_SYNONYMS with
           | Some norm_name =>
               if Pd.mem norm_name MASTER_HEADERS
                  && negb (bool_decide (is_Some (Py.dict_get norm_name mapping)))
               then Py.dict_set norm_name c mapping
               else mapping
           | None => mapping
           end
       end)
    (Py.range 1 (Xl.max_column ws + 1)) [].

(** The values gathered from source row [r], in master order, strings
    stripped. *)
Definition template_values (ws_src : Xl.Worksheet) (src_map : Py.dict nat)
    (r : nat) : list value :=
  map (fun h =>
         let c_idx := default 0%nat (Py.dict_get h src_map) in
         match Xl.value_of (Xl.cell ws_src r c_idx) with
         | VStr s => VStr (PyStr.strip s)
         | v => v
         end)
      MASTER_HEADERS.

(** The body of the row loop: identifier, formats, then the values for
    B..Q in the master-defined order. *)
Definition write_template_row `{Library} (ws : Xl.Worksheet) (dst_row : nat)
    (id : Z) (values : list value) : Xl.Worksheet :=
  let ws := Xl.write ws dst_row 1 (VInt id) in
  let ws := apply_master_formats ws dst_row in
  fold_left (fun ws '(i, val) => Xl.write ws dst_row (i + 2) val)
            (Py.enumerate values) ws.

(** The state of the row loop of [append_from_template]. *)
Record append_state := {
  st_sheet : Xl.Worksheet;
  st_write_row : nat;
  st_next_id : Z;
  st_rows_appended : nat;
}.

(** The part of [append_from_template] after the master workbook is
    opened, for the header row and the mapping found in the template. *)
Definition append_template_rows `{Library} (ws_src : Xl.Worksheet)
    (header_row : nat) (src_map : Py.dict nat) (ws_dst : Xl.Worksheet)
  : append_state :=
  let next_id := max_id_of ws_dst + 1 in
  let first_blank_row :=
    default (Xl.max_row ws_dst + 1)%nat
      (List.find (fun r => Py.is_blank (Xl.value_of (Xl.cell ws_dst r 1)))
                 (Py.range 2 (Xl.max_row ws_dst + 1))) in
  let start_data_row := (header_row + 1)%nat in
  fold_left
    (fun st r =>
       let values := template_values ws_src src_map r in
       let all_empty := forallb Py.is_blank values in
       if all_empty then st
       else
         {| st_sheet := write_template_row (st_sheet st) (st_write_row st)
                          (st_next_id st) values;
            st_write_row := (st_write_row st + 1)%nat;
            st_next_id := st_next_id st + 1;
            st_rows_appended := (st_rows_appended st + 1)%nat |})
    (Py.range start_data_row (Xl.max_row ws_src + 1))
    {| st_sheet := ws_dst; st_write_row := first_blank_row;
       st_next_id := next_id; st_rows_appended := 0%nat |}.

(** [append_from_template], on the template sheet [ws_src] and the first
    visible sheet [ws_dst] of the master: the sheet that is saved and the
    number of rows appended, or [None] when [ValueError] is raised for
    missing columns.  With no row to append nothing is saved. *)
Definition append_from_template `{Library} (ws_src ws_dst : Xl.Worksheet)
  : option (Xl.Worksheet * nat) :=
  let header_row := detect_header_row ws_src 30 in
  let src_map := build_source_mapping ws_src header_row in
  let missing :=
    List.filter (fun h => negb (bool_decide (is_Some (Py.dict_get h src_map))))
                MASTER_HEADERS in
  match missing with
  | _ :: _ => None
  | [] =>
      let st := append_template_rows ws_src header_row src_map ws_dst in
      if (st_rows_appended st =? 0)%nat then Some (ws_dst, 0%nat)
      else Some (st_sheet st, st_rows_appended st)
  end.

(** *** Appending L..AA of a source sheet: [append_l_aa] *)

(** [float(val)] for a cell that is an [int] or a float other than [nan]. *)
Definition float_of_number (v : value) : option Q :=
  match v with
  | VBool b => Some (inject_Z (Py.int_of_bool b))
  | VInt z => Some (inject_Z z)
  | VFloat q => Some q
  | _ => None
  end.

(** [20000 < float(val) < 60000] *)
Definition looks_like_serial (q : Q) : bool :=
  negb (Qle_bool q (inject_Z 20000)) && negb (Qle_bool (inject_Z 60000) q).

(** The value written for a source value [val]: serial numbers, datetimes
    and strings that parse as dates become dates. *)
Definition date_coerced `{Library} (val : value) : value :=
  match val with
  | VBool _ | VInt _ | VFloat _ =>
      match float_of_number val with
      | Some q =>
          if looks_like_serial q then
            match excel_from_serial q with
            | Some dt => date_part dt
            | None => val
            end
          else val
      | None => val
      end
  | VDate _ => date_part val
  | VStr s =>
      match parse_date_string (PyStr.strip s) with
      | Some d => d
      | None => val
      end
  | _ => val
  end.

(** [int(prev) if prev is not None and str(prev).strip() != '' else 0],
    and 0 when [int] raises. *)
Definition previous_id `{Library} (prev : value) : Z :=
  match prev with
  | VNone => 0
  | VBool b => Py.int_of_bool b
  | VInt z => z
  | VFloat q => Py.trunc q
  | VStr s =>
      if String.eqb (PyStr.strip s) "" then 0
      else default 0 (py_int s)
  | VNaN | VDate _ => 0
  end.

(** Column A of a pasted row: 1 in row 1, else the previous A plus 1. *)
Definition write_sequence `{Library} (ws : Xl.Worksheet) (r_dst : nat)
  : Xl.Worksheet :=
  if (r_dst =? 1)%nat then Xl.write ws r_dst 1 (VInt 1)
  else
    let prev := Xl.value_of (Xl.cell ws (r_dst - 1) 1) in
    Xl.write ws r_dst 1 (VInt (previous_id prev + 1)).

(** [l[3], l[4] = l[4], l[3]] *)
Definition swap_3_4 (l : list value) : list value :=
  match l !! 3%nat, l !! 4%nat with
  | Some x3, Some x4 => <[4%nat := x3]> (<[3%nat := x4]> l)
  | _, _ => l
  end.

(** The rows of L..AA (columns 12..27) of the source with a non-empty
    value, rows 2 on. *)
Definition gather_l_aa (ws_src : Xl.Worksheet) : list (list value) :=
  List.filter
    (fun row_vals => existsb (fun v => negb (Py.is_blank v)) row_vals)
    (map (fun r => map (fun c => Xl.value_of (Xl.cell ws_src r c)) (Py.range 12 28))
         (Py.range 2 (Xl.max_row ws_src + 1))).

(** The body of the row loop of [append_l_aa]. *)
Definition write_l_aa_row `{Library} (ws_dst : Xl.Worksheet) (r_dst : nat)
    (row_vals : list value) : Xl.Worksheet :=
  let ws := write_sequence ws_dst r_dst in
  let row_vals_to_write :=
    if (5 <=? length row_vals)%nat then swap_3_4 row_vals else row_vals in
  let ws := apply_master_formats ws r_dst in
  fold_left
    (fun ws '(offset, val) => Xl.write ws r_dst (2 + offset) (date_coerced val))
    (Py.enumerate row_vals_to_write) ws.

(** The sheet [append_l_aa] builds in memory before it saves. *)
Definition append_l_aa_rows `{Library} (src_rows : list (list value))
    (ws_dst : Xl.Worksheet) : Xl.Worksheet :=
  let last_row := last_data_row ws_dst 50 in
  let start_row := if (1 <=? last_row)%nat then (last_row + 1)%nat else 1%nat in
  fold_left
    (fun ws '(i, row_vals) => write_l_aa_row ws (start_row + i) row_vals)
    (Py.enumerate src_rows) ws_dst.

(** [append_l_aa(src_path, dst_path, sheet_index)] on a disk;
    [save_denied] tells whether saving the destination raises
    [PermissionError]. *)
Definition append_l_aa `{Library} (save_denied : bool) (disk : Fs.Disk)
    (src_path dst_path : string) (sheet_index : nat) : Fs.outcome :=
  match disk !! src_path with
  | None =>
      {| Fs.disk_after := disk; Fs.printed := [Fs.SourceNotFound src_path];
         Fs.raised := None |}
  | Some wb_src =>
      match disk !! dst_path with
      | None =>
          {| Fs.disk_after := disk;
             Fs.printed := [Fs.DestinationNotFound dst_path];
             Fs.raised := None |}
      | Some wb_dst =>
          match wb_src !! sheet_index, wb_dst !! 0%nat with
          | Some ws_src, Some ws_dst =>
              let src_rows := gather_l_aa ws_src in
              if (length src_rows =? 0)%nat then
                {| Fs.disk_after := disk; Fs.printed := [Fs.NoDataToAppend];
                   Fs.raised := None |}
              else
                let last_row := last_data_row ws_dst 50 in
                let start_row :=
                  if (1 <=? last_row)%nat then (last_row + 1)%nat else 1%nat in
                let ws := append_l_aa_rows src_rows ws_dst in
                let wb := <[0%nat := ws]> wb_dst in
                match Fs.save save_denied disk dst_path wb with
                | Some disk' =>
                    {| Fs.disk_after := disk';
                       Fs.printed := [Fs.DestinationLastRow last_row start_row;
                                      Fs.Appended (length src_rows)];
                       Fs.raised := None |}
                | None =>
                    {| Fs.disk_after := disk;
                       Fs.printed := [Fs.DestinationLastRow last_row start_row;
                                      Fs.CouldNotSave];
                       Fs.raised := None |}
                end
          | _, _ =>
              {| Fs.disk_after := disk; Fs.printed := [];
                 Fs.raised := Some "IndexError" |}
          end
      end
  end.

(** *** Appending a filtered DataFrame:
    [append_filtered_dataframe_to_master] *)

(** [col_mapping]: for each base column its place among the master
    headers, or [None] when it has no direct mapping. *)
Definition col_mapping : Py.dict (option nat) :=
  [("Start Month", Some 1%nat);
   ("State", None);
   ("Utility", Some 4%nat);
   ("Congestion Zone", Some 2%nat);
   ("Load Factor", Some 3%nat);
   ("Term", Some 5%nat);
   ("Product", None);
   ("0-200,000", None)].

(** The body of the row loop: identifier, formats, then the cells of the
    row tuple [row_data], taken by position, for the base columns that
    have a mapping. *)
Definition write_filtered_row `{Library} (ws : Xl.Worksheet) (dst_row : nat)
    (id : Z) (row_data : list value) : Xl.Worksheet :=
  let ws := Xl.write ws dst_row 1 (VInt id) in
  let ws := apply_master_formats ws dst_row in
  fold_left
    (fun ws '(i, col_name) =>
       if (i <? length row_data)%nat then
         let value := nth i row_data VNone in
         match Py.dict_get col_name col_mapping with
         | Some (Some master_col_idx) =>
             Xl.write ws dst_row (master_col_idx + 2) value
         | _ => ws
         end
       else ws)
    (Py.enumerate BASE_COLS) ws.

(** [append_filtered_dataframe_to_master(combined_df, dst)], on the active
    sheet [ws_dst] of the master workbook: the sheet that is saved and the
    number of rows appended.  The backup copy and the save are left out. *)
Definition append_filtered_dataframe_to_master `{Library}
    (combined_df : Pd.DataFrame) (ws_dst : Xl.Worksheet) : Xl.Worksheet * nat :=
  if (Pd.len combined_df =? 0)%nat || (length (Pd.columns combined_df) =? 0)%nat
  then (ws_dst, 0%nat)
  else
    let next_id := max_id_of ws_dst + 1 in
    let first_blank_row :=
      default (Xl.max_row ws_dst + 1)%nat
        (List.find (fun r => Py.is_blank (Xl.value_of (Xl.cell ws_dst r 1)))
                   (Py.range 2 (Xl.max_row ws_dst + 1))) in
    let write_row := first_blank_row in
    fold_left
      (fun '(ws, rows_appended) '(r_offset, row_data) =>
         let dst_row := (write_row + r_offset)%nat in
         (write_filtered_row ws dst_row (next_id + Z.of_nat r_offset) row_data,
          (rows_appended + 1)%nat))
      (Py.enumerate (Pd.values (Pd.rows combined_df))) (ws_dst, 0%nat).

(** *** Writing an updated copy of the master:
    [write_updated_master_copy] *)

(** [master_df['ID'] = range(next_id, next_id + len(master_df))]: the
    cells of the column are replaced by position, and the column is added
    as the last one when the frame has none. *)
Definition renumber (master_df : Pd.DataFrame) (next_id : Z) : Pd.DataFrame :=
  match Pd.position "ID" (Pd.columns master_df) with
  | Some k =>
      {| Pd.columns := Pd.columns master_df;
         Pd.rows := map (fun '(j, (i, r)) =>
                           (i, Pd.set_nth k (VInt (next_id + Z.of_nat j)) r))
                        (Py.enumerate (Pd.rows master_df)) |}
  | None =>
      {| Pd.columns := Pd.columns master_df ++ ["ID"];
         Pd.rows := map (fun '(j, (i, r)) =>
                           (i, r ++ [VInt (next_id + Z.of_nat j)]))
                        (Py.enumerate (Pd.rows master_df)) |}
  end.

(** The body of the row loop: formats, the identifier of the row, then
    the values of the master headers that the row has. *)
Definition write_copy_row `{Library} (cols : list string) (ws : Xl.Worksheet)
    (dst_row : nat) (fallback_id : Z) (row : list value) : Xl.Worksheet :=
  let ws := apply_master_formats ws dst_row in
  let id_value :=
    if Pd.mem "ID" cols then Pd.cell cols "ID" row else VInt fallback_id in
  let ws := Xl.write ws dst_row 1 id_value in
  fold_left
    (fun ws '(col_idx, header) =>
       if Pd.mem header cols
       then Xl.write ws dst_row (col_idx + 2) (Pd.cell cols header row)
       else ws)
    (Py.enumerate MASTER_HEADERS) ws.

(** The rows that [write_updated_master_copy] writes into the sheet. *)
Definition write_copy_rows `{Library} (master_df : Pd.DataFrame)
    (ws_dst : Xl.Worksheet) : Xl.Worksheet * nat :=
  let first_blank_row := find_first_blank_row ws_dst in
  let next_id := get_next_id ws_dst in
  let master_df := renumber master_df next_id in
  fold_left
    (fun '(ws, rows_appended) '(r_offset, row) =>
       let dst_row := (first_blank_row + r_offset)%nat in
       (write_copy_row (Pd.columns master_df) ws dst_row
          (next_id + Z.of_nat r_offset) row,
        (rows_appended + 1)%nat))
    (Py.enumerate (Pd.values (Pd.rows master_df))) (ws_dst, 0%nat).

(** [write_updated_master_copy(master_df, ...)] on a disk, for the paths
    [master_path] and [out_path] it resolves; [active] is the index of the
    active sheet of the master workbook.  What it prints is left out. *)
Definition write_updated_master_copy `{Library} (save_denied : bool)
    (active : nat) (master_df : Pd.DataFrame) (disk : Fs.Disk)
    (master_path out_path : string) : Fs.outcome :=
  match disk !! master_path with
  | None =>
      {| Fs.disk_after := disk; Fs.printed := [];
         Fs.raised := Some "FileNotFoundError" |}
  | Some wb_dst =>
      if (Pd.len master_df =? 0)%nat || (length (Pd.columns master_df) =? 0)%nat
      then {| Fs.disk_after := disk; Fs.printed := []; Fs.raised := None |}
      else
        match wb_dst !! active with
        | None =>
            {| Fs.disk_after := disk; Fs.printed := [];
               Fs.raised := Some "IndexError" |}
        | Some ws_dst =>
            let '(ws, _) := write_copy_rows master_df ws_dst in
            match Fs.save save_denied disk out_path (<[active := ws]> wb_dst) with
            | Some disk' =>
                {| Fs.disk_after := disk'; Fs.printed := []; Fs.raised := None |}
            | None =>
                {| Fs.disk_after := disk; Fs.printed := [];
                   Fs.raised := Some "PermissionError" |}
            end
        end
  end.

(** *** Processing a workbook: [process_xlsm_file] *)

(** The sheet that is read for the preferred name [sheet_name_prefer]:
    the first one whose stripped, lowercased name is the wanted one, else
    the first one whose name has every word of the wanted one. *)
Definition preferred_sheet (names : list string) (sheet_name_prefer : string)
  : option string :=
  let wanted := PyStr.lower (PyStr.strip sheet_name_prefer) in
  match List.find (fun name => String.eqb (PyStr.lower (PyStr.strip name)) wanted)
                  names with
  | Some target => Some target
  | None =>
      let words :=
        List.filter (fun w => negb (String.eqb w "")) (PyStr.split wanted) in
      List.find
        (fun name =>
           let nrm := PyStr.lower (PyStr.strip name) in
           forallb (fun w => PyStr.contains w nrm) words)
        names
  end.

(** The sheet that [process_xlsm_file] reads; without a preferred name,
    the first one whose lowercased name has 'matrix' and 'table'. *)
Definition target_sheet (names : list string) (sheet_name_prefer : option string)
  : option string :=
  match sheet_name_prefer with
  | Some prefer =>
      if String.eqb prefer "" then
        List.find (fun name => PyStr.contains "matrix" (PyStr.lower name)
                               && PyStr.contains "table" (PyStr.lower name))
                  names
      else preferred_sheet names prefer
  | None =>
      List.find (fun name => PyStr.contains "matrix" (PyStr.lower name)
                             && PyStr.contains "table" (PyStr.lower name))
                names
  end.

(** [process_xlsm_file(src_xlsm, dst_master, sheet_name_prefer)], on the
    sheets [all_sheets] that [pd.read_excel] reads from the source and the
    active sheet [ws_dst] of the master: the sheet of the master after the
    call and the number it returns.  An exception raised on the way is
    caught: the master is then as before and the number is 0. *)
Definition process_xlsm_file `{Library} (all_sheets : Py.dict Pd.DataFrame)
    (ws_dst : Xl.Worksheet) (sheet_name_prefer : option string)
  : Xl.Worksheet * nat :=
  match target_sheet (map fst all_sheets) sheet_name_prefer with
  | None => (ws_dst, 0%nat)
  | Some target =>
      match Py.dict_get target all_sheets with
      | None => (ws_dst, 0%nat)
      | Some sheet =>
          let transformed_df := hda_matrix_to_master_cols sheet in
          if (Pd.len transformed_df =? 0)%nat
             || (length (Pd.columns transformed_df) =? 0)%nat
          then (ws_dst, 0%nat)
          else
            match append_master_formatted_dataframe_to_master transformed_df
                    ws_dst with
            | Some (_, ws, rows_appended) => (ws, rows_appended)
            | None => (ws_dst, 0%nat)
            end
      end
  end.

End ExcelProcessor.

(** ** appender.py *)

Module Appender.

Definition SRC : string := "2-copy-reformat/ERCOT-filtered.xlsx".
Definition DST : string := "2-copy-reformat/DAILY PRICING - new - Copy.xlsx".

Definition SRC_FIRST_COL : nat := 12.
Definition SRC_LAST_COL : nat := 27.
Definition DST_START_COL : nat := 2.

Definition last_data_row (ws : Xl.Worksheet) (scan_cols : nat) : nat :=
  let max_r := Xl.max_row ws in
  default 0%nat
    (List.find
       (fun r => existsb (fun c => negb (Py.is_blank (Xl.value_of (Xl.cell ws r c))))
                         (Py.range 1 (scan_cols + 1)))
       (rev (Py.range 1 (max_r + 1)))).

Definition gather_source_rows (ws : Xl.Worksheet) : list (list value) :=
  List.filter
    (fun row_vals => existsb (fun v => negb (Py.is_blank v)) row_vals)
    (map (fun r => map (fun c => Xl.value_of (Xl.cell ws r c))
                       (Py.range SRC_FIRST_COL (SRC_LAST_COL + 1)))
         (Py.range 2 (Xl.max_row ws + 1))).

(** The value pasted for [val] and the flag [is_date]: a number strictly
    between 20000 and 60000 is converted by [excel_from_serial]. *)
Definition from_serial `{Library} (val : value) : value * bool :=
  match ExcelProcessor.float_of_number val with
  | Some q =>
      if ExcelProcessor.looks_like_serial q then
        match excel_from_serial q with
        | Some dt => (dt, true)
        | None => (val, false)
        end
      else (val, false)
  | None => (val, false)
  end.

(** The body of the row loop of [main]. *)
Definition paste_row `{Library} (ws_dst : Xl.Worksheet) (r : nat)
    (row_vals : list value) : Xl.Worksheet :=
  let ws := ExcelProcessor.write_sequence ws_dst r in
  let row_vals_to_write :=
    if (5 <=? length row_vals)%nat then ExcelProcessor.swap_3_4 row_vals
    else row_vals in
  fold_left
    (fun ws '(offset, val) =>
       let '(val, is_date) := from_serial val in
       let ws := Xl.write ws r (DST_START_COL + offset) val in
       if is_date
       then Xl.set_number_format ws r (DST_START_COL + offset) "mm/dd/yyyy"
       else ws)
    (Py.enumerate row_vals_to_write) ws.

Definition paste_rows `{Library} (src_rows : list (list value))
    (ws_dst : Xl.Worksheet) : Xl.Worksheet :=
  let last_row := last_data_row ws_dst 50 in
  let start_row := if (1 <=? last_row)%nat then (last_row + 1)%nat else 1%nat in
  fold_left (fun ws '(i, row_vals) => paste_row ws (start_row + i) row_vals)
            (Py.enumerate src_rows) ws_dst.

(** [main()] on a disk; [save_denied] tells whether saving the destination
    raises [PermissionError]. *)
Definition main `{Library} (save_denied : bool) (disk : Fs.Disk) : Fs.outcome :=
  match disk !! SRC with
  | None =>
      {| Fs.disk_after := disk; Fs.printed := [Fs.SourceNotFound SRC];
         Fs.raised := None |}
  | Some wb_src =>
      match disk !! DST with
      | None =>
          {| Fs.disk_after := disk; Fs.printed := [Fs.DestinationNotFound DST];
             Fs.raised := None |}
      | Some wb_dst =>
          match wb_src !! 0%nat, wb_dst !! 0%nat with
          | Some ws_src, Some ws_dst =>
              let src_rows := gather_source_rows ws_src in
              if (length src_rows =? 0)%nat then
                {| Fs.disk_after := disk;
                   Fs.printed := [Fs.SourceRowsToAppend 0; Fs.NoDataToAppend];
                   Fs.raised := None |}
              else
                let last_row := last_data_row ws_dst 50 in
                let start_row :=
                  if (1 <=? last_row)%nat then (last_row + 1)%nat else 1%nat in
                let ws := paste_rows src_rows ws_dst in
                let wb := <[0%nat := ws]> wb_dst in
                match Fs.save save_denied disk DST wb with
                | Some disk' =>
                    let last_appended_row :=
                      (start_row + length src_rows - 1)%nat in
                    {| Fs.disk_after := disk';
                       Fs.printed :=
                         [Fs.SourceRowsToAppend (length src_rows);
                          Fs.DestinationLastRow last_row start_row;
                          Fs.Appended (length src_rows);
                          Fs.LastAppendedRow last_appended_row
                            (map (fun c => Xl.value_of (Xl.cell ws last_appended_row c))
                                 (Py.range 1 5))];
                       Fs.raised := None |}
                | None =>
                    {| Fs.disk_after := disk;
                       Fs.printed :=
                         [Fs.SourceRowsToAppend (length src_rows);
                          Fs.DestinationLastRow last_row start_row;
                          Fs.CouldNotSave];
                       Fs.raised := None |}
                end
          | _, _ =>
              {| Fs.disk_after := disk; Fs.printed := [];
                 Fs.raised := Some "IndexError" |}
          end
      end
  end.

End Appender.

(** ** filtration.py *)

(** [main] of [filtration.py] uses [SRC], [DST], [DST_START_COL],
    [gather_source_rows], [last_data_row] and [excel_from_serial] without
    defining them; they are the ones of [appender.py], from which this
    [main] differs by the number formats and by the missing swap. *)
Module Filtration.

Definition TARGET_TERMS : list Z := [12; 24; 36; 48; 60].

Definition BASE_COLS : list string :=
  ["Start Month"; "State"; "Utility"; "Congestion Zone"; "Load Factor";
   "Term"; "Product"; "0-200,000"].

(** [parse_term_to_int]: an [int] is returned as it is (a [bool] counts as
    the integer 1 or 0), a float only when it is whole. *)
Definition parse_term_to_int `{Library} (val : value) : option Z :=
  if Py.isna val then None
  else
    match val with
    | VBool b => Some (Py.int_of_bool b)
    | VInt z => Some z
    | VFloat q =>
        let ival := Py.trunc q in
        if Qeq_bool (inject_Z ival) q then Some ival else None
    | _ =>
        let s := PyStr.strip (Py.str val) in
        if PyStr.isdigit s then Some (PyStr.int_of_digits (PyStr.chars s))
        else
          match PyStr.first_digit_run s with
          | Some m => Some (PyStr.int_of_digits m)
          | None => None
          end
    end.

Definition find_col (df : Pd.DataFrame) (preferred_names : list string)
  : option string :=
  let norm_map :=
    fold_left (fun d col => Py.dict_set (PyStr.lower (PyStr.strip col)) col d)
              (Pd.columns df) [] in
  match Py.first_some
          (fun name => Py.dict_get (PyStr.lower (PyStr.strip name)) norm_map)
          preferred_names with
  | Some col => Some col
  | None =>
      Py.first_some
        (fun '(key, orig) =>
           if existsb (fun name => PyStr.contains (PyStr.lower (PyStr.strip name)) key)
                      preferred_names
           then Some orig else None)
        norm_map
  end.

(** [filter_sheet]; [None] when [df.iloc[0:0][BASE_COLS]] raises
    [KeyError] because the frame lacks a base column. *)
Definition filter_sheet `{Library} (df : Pd.DataFrame) : option Pd.DataFrame :=
  let prod_col := find_col df ["Product"; "Products"] in
  let term_col := find_col df ["Term"; "Terms"] in
  match prod_col, term_col with
  | Some prod_col, Some term_col =>
      let prod_mask :=
        map (fun v => String.eqb (PyStr.lower (PyStr.strip (Py.str v)))
                                 "fixed price")
            (Pd.values (Pd.getitem df prod_col)) in
      let term_vals := map parse_term_to_int (Pd.values (Pd.getitem df term_col)) in
      let term_mask :=
        map (fun t => match t with
                      | Some z => existsb (Z.eqb z) TARGET_TERMS
                      | None => false
                      end) term_vals in
      let cols := List.filter (fun c => Pd.mem c (Pd.columns df)) BASE_COLS in
      Some (Pd.loc df (zip_with andb prod_mask term_mask) cols)
  | _, _ =>
      if forallb (fun c => Pd.mem c (Pd.columns df)) BASE_COLS
      then Some (Pd.empty BASE_COLS)
      else None
  end.


(** [dst_formats]: the number formats of columns 1..19 of the last data
    row, or 'General' for all of them when there is no data row. *)
Definition dst_formats (ws_dst : Xl.Worksheet) (last_row : nat)
  : list (nat * string) :=
  if (0 <? last_row)%nat
  then map (fun c => (c, Xl.number_format (Xl.cell ws_dst last_row c)))
           (Py.range 1 20)
  else map (fun c => (c, "General")) (Py.range 1 20).

(** [formats.get(c, 'General')] *)
Fixpoint format_for (formats : list (nat * string)) (c : nat) : string :=
  match formats with
  | [] => "General"
  | (k, f) :: rest => if (k =? c)%nat then f else format_for rest c
  end.

(** The body of the row loop of [main]. *)
Definition paste_row `{Library} (formats : list (nat * string))
    (ws_dst : Xl.Worksheet) (r : nat) (row_vals : list value) : Xl.Worksheet :=
  let ws := ExcelProcessor.write_sequence ws_dst r in
  fold_left
    (fun ws '(offset, val) =>
       let '(val, is_date) := Appender.from_serial val in
       let col_index := (Appender.DST_START_COL + offset)%nat in
       let ws := Xl.write ws r col_index val in
       let ws := Xl.set_number_format ws r col_index (format_for formats col_index) in
       if is_date then Xl.set_number_format ws r col_index "mm/dd/yyyy" else ws)
    (Py.enumerate row_vals) ws.

Definition paste_rows `{Library} (src_rows : list (list value))
    (ws_dst : Xl.Worksheet) : Xl.Worksheet :=
  let last_row := Appender.last_data_row ws_dst 50 in
  let start_row := if (1 <=? last_row)%nat then (last_row + 1)%nat else 1%nat in
  let formats := dst_formats ws_dst last_row in
  fold_left (fun ws '(i, row_vals) => paste_row formats ws (start_row + i) row_vals)
            (Py.enumerate src_rows) ws_dst.

Definition main `{Library} (save_denied : bool) (disk : Fs.Disk) : Fs.outcome :=
  match disk !! Appender.SRC with
  | None =>
      {| Fs.disk_after := disk; Fs.printed := [Fs.SourceNotFound Appender.SRC];
         Fs.raised := None |}
  | Some wb_src =>
      match disk !! Appender.DST with
      | None =>
          {| Fs.disk_after := disk;
             Fs.printed := [Fs.DestinationNotFound Appender.DST];
             Fs.raised := None |}
      | Some wb_dst =>
          match wb_src !! 0%nat, wb_dst !! 0%nat with
          | Some ws_src, Some ws_dst =>
              let src_rows := Appender.gather_source_rows ws_src in
              if (length src_rows =? 0)%nat then
                {| Fs.disk_after := disk;
                   Fs.printed := [Fs.SourceRowsToAppend 0; Fs.NoDataToAppend];
                   Fs.raised := None |}
              else
                let last_row := Appender.last_data_row ws_dst 50 in
                let start_row :=
                  if (1 <=? last_row)%nat then (last_row + 1)%nat else 1%nat in
                let ws := paste_rows src_rows ws_dst in
                let wb := <[0%nat := ws]> wb_dst in
                match Fs.save save_denied disk Appender.DST wb with
                | Some disk' =>
                    let last_appended_row :=
                      (start_row + length src_rows - 1)%nat in
                    {| Fs.disk_after := disk';
                       Fs.printed :=
                         [Fs.SourceRowsToAppend (length src_rows);
                          Fs.DestinationLastRow last_row start_row;
                          Fs.Appended (length src_rows);
                          Fs.LastAppendedRow last_appended_row
                            (map (fun c => Xl.value_of (Xl.cell ws last_appended_row c))
                                 (Py.range 1 5))];
                       Fs.raised := None |}
                | None =>
                    {| Fs.disk_after := disk;
                       Fs.printed :=
                         [Fs.SourceRowsToAppend (length src_rows);
                          Fs.DestinationLastRow last_row start_row;
                          Fs.CouldNotSave];
                       Fs.raised := None |}
                end
          | _, _ =>
              {| Fs.disk_after := disk; Fs.printed := [];
                 Fs.raised := Some "IndexError" |}
          end
      end
  end.

End Filtration.

(** ** A concrete library, for evaluating the embedding on examples *)

Definition sample_library : Library := {|
  float_repr := fun q => Py.str_of_int (Py.trunc q) +:+ ".0";
  py_float := fun s =>
    if PyStr.isdigit s then Some (FFinite (inject_Z (PyStr.int_of_digits (PyStr.chars s))))
    else None;
  to_numeric := fun v =>
    match v with
    | VInt z => VFloat (inject_Z z)
    | VFloat q => VFloat q
    | _ => VNaN
    end;
  to_datetime_date := fun v =>
    match v with
    | VDate iso => VDate iso
    | VStr s => VDate s
    | _ => VNone
    end;
  today := VDate "2026-11-04";
  excel_from_serial := fun q => Some (VDate (Py.str_of_int (Py.trunc q)));
  parse_date_string := fun _ => None;
  date_part := fun v => v;
  py_int := fun s =>
    if PyStr.isdigit (PyStr.strip s)
    then Some (PyStr.int_of_digits (PyStr.chars (PyStr.strip s)))
    else None;
  is_date_format := fun fmt =>
    existsb (fun c => existsb (fun d => if ascii_dec c d then true else false)
                              (PyStr.chars "dmyhs"))
            (PyStr.chars (PyStr.lower fmt));
  default_date_format := fun _ => "yyyy-mm-dd h:mm:ss";
|}.

(** A sheet with a product and a term column, and one without a term
    column. *)
Definition sample_sheet : Pd.DataFrame := {|
  Pd.columns := ["Product"; "Term"; "Start Month"; "State"; "Congestion Zone";
                 "0-200,000"];
  Pd.rows :=
    [(0%nat, [VStr "Fixed Price"; VInt 12; VStr "2024-01-01"; VStr "TX";
              VStr "HOUSTON"; VFloat (151 # 2)]);
     (1%nat, [VStr "Variable"; VInt 24; VStr "2024-02-01"; VStr "TX";
              VStr "NORTH"; VFloat (401 # 5)]);
     (2%nat, [VStr " fixed PRICE "; VStr "36 Months"; VStr "2024-03-01";
              VStr "TX"; VStr "SOUTH"; VFloat (721 # 10)]);
     (3%nat, [VStr "Fixed Price"; VFloat (49 # 2); VStr "2024-03-01";
              VStr "TX"; VStr "SOUTH"; VFloat (721 # 10)])]
|}.

Definition sample_sheet_no_term : Pd.DataFrame := {|
  Pd.columns := ["Product"; "Start Month"];
  Pd.rows := [(0%nat, [VStr "Fixed Price"; VStr "2024-01-01"])]
|}.

Definition sample_headers : Pd.DataFrame := {|
  Pd.columns := ["Matrix Description"; "Term (Months)"; "Matrix Price"; "Start_Date"];
  Pd.rows := []
|}.

(** A master sheet with a header row and two rows of data, and a template
    sheet with the master headers, one row of data, one blank row and
    another row of data. *)
Definition text_cell (s : string) : Xl.Cell :=
  {| Xl.value_of := VStr s; Xl.number_format := "General"; Xl.alignment := None |}.

Definition number_cell (z : Z) : Xl.Cell :=
  {| Xl.value_of := VInt z; Xl.number_format := "General"; Xl.alignment := None |}.

Definition sample_master : Xl.Worksheet :=
  list_to_map
    [((1, 1), text_cell "ID"); ((1, 2), text_cell "Price_Date");
     ((2, 1), number_cell 1); ((2, 4), text_cell "NORTH");
     ((3, 1), number_cell 2); ((3, 4), text_cell "SOUTH")]%nat.

Definition sample_template : Xl.Worksheet :=
  list_to_map
    (map (fun '(c, h) => ((1%nat, (c + 1)%nat), text_cell h))
         (Py.enumerate ExcelProcessor.MASTER_HEADERS)
     ++ [((2, 3), text_cell " COAST "); ((2, 6), number_cell 12);
         ((4, 3), text_cell "WEST"); ((4, 6), number_cell 24)]%nat).

(** A sheet whose only identifier is negative. *)
Definition negative_id_sheet : Xl.Worksheet :=
  list_to_map [((1, 1), text_cell "ID"); ((2, 1), number_cell (-5))]%nat.

(** A frame in master format with two rows, as the schema mapper yields
    them. *)
Definition sample_master_frame : Pd.DataFrame := {|
  Pd.columns := Transformer.MASTER_COLS;
  Pd.rows :=
    [(0%nat, [VNone; VDate "2026-11-04"; VDate "2024-03-01"; VStr "HOUSTON";
              VStr "HIGH"; VStr "HUDSON"; VInt 12; VInt 0; VInt 1000;
              VFloat (151 # 2); VInt 0; VFloat (151 # 2); VInt 0; VInt 0; VInt 0;
              VInt 0; VInt 5]);
     (1%nat, [VNone; VDate "2026-11-04"; VDate "2024-06-01"; VStr "NORTH";
              VStr "LOW"; VStr "HUDSON"; VInt 24; VInt 0; VInt 1000;
              VFloat (321 # 4); VInt 0; VFloat (321 # 4); VInt 0; VInt 0; VInt 0;
              VInt 0; VInt 5])]
|}.

(** A matrix sheet with a product column; its second row is not a fixed
    price. *)
Definition sample_matrix : Pd.DataFrame := {|
  Pd.columns := ["MatrixDescription"; "Price"; "TermCode"; "StartDate"; "Product"];
  Pd.rows :=
    [(0%nat, [VStr "North Zone Low Load Factor"; VInt 50; VInt 12;
              VStr "2024-01-01"; VStr "Fixed Price"]);
     (1%nat, [VStr "South Zone Medium Load Factor"; VInt 60; VInt 24;
              VStr "2024-02-01"; VStr "Variable"]);
     (2%nat, [VStr "West Zone High Load Factor"; VInt 70; VStr "13 months";
              VStr "2024-03-01"; VStr "Fixed Price"])]
|}.

(** A filtered source sheet with one row in L..AA (the date in L is a
    serial number), and a destination with a header and one row. *)
Definition sample_source : Xl.Worksheet :=
  list_to_map
    [((1, 12), text_cell "L"); ((2, 12), number_cell 45887);
     ((2, 14), text_cell "COAST"); ((2, 15), text_cell "LOW");
     ((2, 16), text_cell "APG&E"); ((2, 17), number_cell 12)]%nat.

Definition sample_destination : Xl.Worksheet :=
  list_to_map
    [((1, 1), text_cell "ID"); ((1, 2), text_cell "Price_Date");
     ((2, 1), number_cell 7);
     ((2, 2), {| Xl.value_of := VDate "2025-08-17"; Xl.number_format := "mm-dd-yy";
                 Xl.alignment := None |});
     ((2, 4), text_cell "NORTH")]%nat.

Definition sample_disk : Fs.Disk :=
  list_to_map [(Appender.SRC, [sample_source]); (Appender.DST, [sample_destination])].

(** A source sheet whose cell in L already holds a date, as openpyxl reads
    a date-formatted cell. *)
Definition dated_source : Xl.Worksheet :=
  list_to_map
    [((1, 12), text_cell "L");
     ((2, 12), {| Xl.value_of := VDate "2025-08-18"; Xl.number_format := "mm-dd-yy";
                  Xl.alignment := None |});
     ((2, 14), text_cell "COAST")]%nat.

(** * Vocabulary of the properties *)

(** What the decoding of a description promises, for a zone decoder [zone]
    and a load-factor decoder [lf]. *)
Definition decodes_round_trip (zone lf : value -> string) (z s : string) : Prop :=
  (zone (VStr (z +:+ " Low Load Factor")) = z /\
   lf (VStr (z +:+ " Low Load Factor")) = "LOW") /\
  (zone (VStr (z +:+ " Medium Load Factor")) = z /\
   (PyStr.contains "Low Load Factor" z = false ->
    lf (VStr (z +:+ " Medium Load Factor")) = "MED")) /\
  (zone (VStr (z +:+ " High Load Factor")) = z /\
   (PyStr.contains "Low Load Factor" z = false ->
    PyStr.contains "Medium Load Factor" z = false ->
    lf (VStr (z +:+ " High Load Factor")) = "HIGH")) /\
  (zone (VStr s) = s /\ lf (VStr s) = "").

(** The first label of [l] that satisfies [P]. *)
Definition first_label (P : string -> Prop) (l : list string) (c : string) : Prop :=
  exists l1 l2, l = l1 ++ c :: l2 /\ P c /\ forall x, In x l1 -> ~ P x.

Definition product_label (c : string) : Prop :=
  PyStr.lower (PyStr.strip c) = "product" \/ PyStr.lower (PyStr.strip c) = "products".

Definition term_label (c : string) : Prop :=
  PyStr.lower (PyStr.strip c) = "term" \/ PyStr.lower (PyStr.strip c) = "terms".

(** A row is kept when its product cell reads 'fixed price' and its term
    cell parses to one of the target terms. *)
Definition kept_row (parse : value -> option Z) (str_of : value -> string)
    (cols : list string) (pc tc : string) (r : list value) : Prop :=
  PyStr.lower (PyStr.strip (str_of (Pd.cell cols pc r))) = "fixed price" /\
  exists t, parse (Pd.cell cols tc r) = Some t /\ In t [12; 24; 36; 48; 60].

(** What [parse_term_to_int] computes: nothing for a missing cell, the
    integer itself, a float only when it is whole, and for a string the
    first run of digits of the stripped text. *)
Definition term_parse_result (parse : value -> option Z) : Prop :=
  parse VNone = None /\ parse VNaN = None /\
  (forall z, parse (VInt z) = Some z) /\
  (forall q z, q == inject_Z z -> parse (VFloat q) = Some z) /\
  (forall q, (forall z, ~ q == inject_Z z) -> parse (VFloat q) = None) /\
  (forall s, parse (VStr s)
             = option_map PyStr.int_of_digits (PyStr.first_digit_run (PyStr.strip s))).

(** The frame the row filter promises: the kept rows of [df], in order and
    with their labels, projected on the base columns that [df] has; or the
    empty frame with all base columns when a product or a term column is
    missing. *)
Definition row_filter_result `{Library} (filter_sheet : Pd.DataFrame -> Pd.DataFrame)
    (parse : value -> option Z) (base_cols : list string) (df : Pd.DataFrame) : Prop :=
  ((exists c, In c (Pd.columns df) /\ product_label c) ->
   (exists c, In c (Pd.columns df) /\ term_label c) ->
   exists pc tc keep,
     first_label product_label (Pd.columns df) pc /\
     first_label term_label (Pd.columns df) tc /\
     (forall r, keep r = true <-> kept_row parse Py.str (Pd.columns df) pc tc r) /\
     let cols := List.filter (fun c => Pd.mem c (Pd.columns df)) base_cols in
     Pd.columns (filter_sheet df) = cols /\
     Pd.rows (filter_sheet df)
       = map (fun ir => (fst ir, map (fun c => Pd.cell (Pd.columns df) c (snd ir)) cols))
             (List.filter (fun ir => keep (snd ir)) (Pd.rows df))) /\
  ((~ (exists c, In c (Pd.columns df) /\ product_label c) \/
    ~ (exists c, In c (Pd.columns df) /\ term_label c)) ->
   filter_sheet df = Pd.empty base_cols).

(** [x] occurs in [y] as a substring. *)
Definition substring_of (x y : string) : Prop :=
  exists a b, y = a +:+ x +:+ b.

(** The column a resolver promises for the labels [cols], the candidate
    names and the flag, with [nm] the normalization of a name. *)
Definition resolver_result (nm : string -> string)
    (resolve : list string -> bool -> option string)
    (cols candidates : list string) (allow_contains : bool) : Prop :=
  let exact c := exists cand, In cand candidates /\ nm cand = nm c in
  let partial c := exists cand, In cand candidates /\ substring_of (nm cand) (nm c) in
  ((exists c, In c cols /\ exact c) ->
   exists c, resolve candidates allow_contains = Some c /\ In c cols /\ exact c) /\
  (~ (exists c, In c cols /\ exact c) -> allow_contains = true ->
   (exists c, In c cols /\ partial c) ->
   exists c, resolve candidates allow_contains = Some c /\ In c cols /\ partial c) /\
  (resolve candidates allow_contains = None <->
   ~ (exists c, In c cols /\ exact c) /\
   (allow_contains = true -> ~ (exists c, In c cols /\ partial c))).

(** The normalization map that the resolver builds from the column labels. *)
Definition norm_map_of (cols : list string) : Py.dict string :=
  fold_left (fun d c => Py.dict_set (Transformer.normalize_column_name c) c d)
            cols [].

(** A name is normalized by stripping it, lowercasing it and deleting every
    character outside [a-z0-9]. *)
Definition normalization_result (nm : string -> string) : Prop :=
  forall name,
    nm name
    = PyStr.text
        (List.filter
           (fun c => let n := nat_of_ascii c in
                     ((nat_of_ascii "a" <=? n) && (n <=? nat_of_ascii "z")
                      || (nat_of_ascii "0" <=? n) && (n <=? nat_of_ascii "9"))%nat)
           (PyStr.chars (PyStr.lower (PyStr.strip name)))).

(** The master number format of column [c], when [MASTER_FORMATS] has a
    non-empty one for its letter. *)
Definition master_format (c : nat) : option string :=
  match Py.dict_get (Xl.get_column_letter c) ExcelProcessor.MASTER_FORMATS with
  | Some f => if String.eqb f "" then None else Some f
  | None => None
  end.

(** A cell of column [c] after [apply_master_formats] went over its row. *)
Definition master_cell (cl : Xl.Cell) (c : nat) : Xl.Cell :=
  if ((1 <=? c) && (c <=? 17))%nat then
    {| Xl.value_of := Xl.value_of cl;
       Xl.number_format := default (Xl.number_format cl) (master_format c);
       Xl.alignment := if (c =? 6)%nat then Some "right" else Xl.alignment cl |}
  else cl.

(** A cell after [ws.cell(..., value=v)]. *)
Definition assigned `{Library} (cl : Xl.Cell) (v : value) : Xl.Cell :=
  match v with
  | VNone => cl
  | _ => Xl.bind_value cl v
  end.

(** The cell of column [c] in an appended row: [old] is the cell before the
    append, [id] the identifier of the row, and [vs] the values offered to
    columns B, C, ... ([None] where the row has no value for the column).
    The identifier is assigned first, the master formats are applied to the
    row next, and the values are assigned last. *)
Definition appended_cell `{Library} (old : Xl.Cell) (id : Z)
    (vs : list (option value)) (c : nat) : Xl.Cell :=
  let with_id := if (c =? 1)%nat then Xl.bind_value old (VInt id) else old in
  let formatted := master_cell with_id c in
  match (if (2 <=? c)%nat then vs !! (c - 2)%nat else None) with
  | Some (Some v) => assigned formatted v
  | _ => formatted
  end.

(** Rows written one below the other from row [r], with identifiers
    counting up from [id]. *)
Fixpoint write_rows {X} (W : Xl.Worksheet -> nat -> Z -> X -> Xl.Worksheet)
    (r : nat) (id : Z) (xs : list X) (ws : Xl.Worksheet) : Xl.Worksheet :=
  match xs with
  | [] => ws
  | x :: xs' => write_rows W (S r) (id + 1) xs' (W ws r id x)
  end.

(** The values [a] offers to columns B..Q for a row of a frame with the
    labels [cols]. *)
Definition master_values (cols : list string) (row : list value)
  : list (option value) :=
  map (fun h => if Pd.mem h cols then Some (Pd.cell cols h row) else None)
      ExcelProcessor.MASTER_HEADERS.

(** The non-empty rows that [append_from_template] gathers from the source
    rows [rs]. *)
Definition template_rows (ws_src : Xl.Worksheet) (src_map : Py.dict nat)
    (rs : list nat) : list (list value) :=
  List.filter (fun vs => negb (forallb Py.is_blank vs))
              (map (ExcelProcessor.template_values ws_src src_map) rs).

(** [r0] is the first unused row of [ws]: the first row from 2 on whose
    cell in column A is [None] or the empty string, or [max_row + 1] when
    there is none. *)
Definition first_unused_row (ws : Xl.Worksheet) (r0 : nat) : Prop :=
  (2 <= r0)%nat /\
  (((r0 <= Xl.max_row ws)%nat /\ Py.is_blank (Xl.value_of (Xl.cell ws r0 1)) = true)
   \/ r0 = (Xl.max_row ws + 1)%nat) /\
  forall r, (2 <= r < r0)%nat -> Py.is_blank (Xl.value_of (Xl.cell ws r 1)) = false.

(** [n] is one plus the largest of 0 and the integers [int(v)] of the
    numeric cells [v] of column A in rows 2..max_row. *)
Definition next_identifier (ws : Xl.Worksheet) (n : Z) : Prop :=
  0 <= n - 1 /\
  (forall r z, (2 <= r <= Xl.max_row ws)%nat ->
     ExcelProcessor.int_of_number (Xl.value_of (Xl.cell ws r 1)) = Some z ->
     z <= n - 1) /\
  (n - 1 = 0 \/
   exists r, (2 <= r <= Xl.max_row ws)%nat /\
     ExcelProcessor.int_of_number (Xl.value_of (Xl.cell ws r 1)) = Some (n - 1)).

(** [m] is the maximum integer-valued cell of column A in rows 2..max_row. *)
Definition max_integer_cell (ws : Xl.Worksheet) (m : Z) : Prop :=
  (exists r, (2 <= r <= Xl.max_row ws)%nat /\ Xl.value_of (Xl.cell ws r 1) = VInt m) /\
  forall r z, (2 <= r <= Xl.max_row ws)%nat ->
    Xl.value_of (Xl.cell ws r 1) = VInt z -> z <= m.

(** The rows [rows] sit in [ws'] from row [r0] on, one below the other and
    in order, with the identifiers [n0], [n0 + 1], ... in column A and
    their values (those that are not [None]) from column B on. *)
Definition rows_appended_at (ws' : Xl.Worksheet) (r0 : nat) (n0 : Z)
    (rows : list (list value)) : Prop :=
  forall j vs, rows !! j = Some vs ->
    Xl.value_of (Xl.cell ws' (r0 + j) 1) = VInt (n0 + Z.of_nat j) /\
    forall i v, vs !! i = Some v -> v <> VNone ->
      Xl.value_of (Xl.cell ws' (r0 + j) (i + 2)) = v.

(** A number as [pd.to_numeric] yields it: an integer, a finite float or
    [nan]. *)
Definition numeric (v : value) : Prop :=
  match v with
  | VInt _ | VFloat _ | VNaN => True
  | _ => False
  end.

(** [w] is one hundred times the number [v] ([nan] stays [nan]). *)
Definition hundredfold (v w : value) : Prop :=
  match v with
  | VInt z => w = VInt (z * 100)
  | VFloat q => w = VFloat (q * 100)
  | VNaN => w = VNaN
  | _ => False
  end.

(** Every row of the frame has one cell per column. *)
Definition rectangular (df : Pd.DataFrame) : Prop :=
  forall ir, In ir (Pd.rows df) -> length (snd ir) = length (Pd.columns df).

(** The 17 columns of the master schema, in order. *)
Definition master_schema : list string :=
  ["ID"; "Price_Date"; "Date"; "Zone"; "Load"; "REP1"; "Term"; "Min_MWh";
   "Max_MWh"; "Daily_No_Ruc"; "RUC_Nodal"; "Daily"; "Com_Disc"; "HOA_Disc";
   "Broker_Fee"; "Meter_Fee"; "Max_Meters"].

(** A Term cell before the last filter: missing, or a target term. *)
Definition term_or_missing (v : value) : Prop :=
  v = VNaN \/ exists t, v = VInt t /\ In t [12; 24; 36; 48; 60].

(** What the schema mapper promises of its result on [df]: exactly the
    master columns, every row with one cell per column and a target term,
    and no row when [df] has none. *)
Definition master_schema_result (mapper : Pd.DataFrame -> Pd.DataFrame)
    (df : Pd.DataFrame) : Prop :=
  Pd.columns (mapper df) = master_schema /\
  (forall ir, In ir (Pd.rows (mapper df)) ->
     length (snd ir) = 17%nat /\
     exists t, Pd.cell master_schema "Term" (snd ir) = VInt t /\
               In t [12; 24; 36; 48; 60]) /\
  (Pd.rows df = [] -> Pd.rows (mapper df) = []).

(** The rows of a frame under construction have 17 cells ([with_term]:
    and a Term cell that is missing or a target term). *)
Definition master_rows (with_term : bool) (out : Pd.DataFrame) : Prop :=
  Pd.columns out = master_schema /\
  forall ir, In ir (Pd.rows out) ->
    length (snd ir) = 17%nat /\
    (with_term = true -> term_or_missing (nth 6 (snd ir) VNaN)).

(** The values of a gathered row in the order they are written to B, C,
    ...: indices 3 and 4 change places when the row has at least 5 values. *)
Definition written_order (row_vals : list value) : list value :=
  if (5 <=? length row_vals)%nat then ExcelProcessor.swap_3_4 row_vals
  else row_vals.

(** A cell with another number format. *)
Definition with_format (cl : Xl.Cell) (fmt : string) : Xl.Cell :=
  {| Xl.value_of := Xl.value_of cl; Xl.number_format := fmt;
     Xl.alignment := Xl.alignment cl |}.

(** A cell of the standalone appender after the source value [x] is pasted
    into it. *)
Definition appender_cell `{Library} (old : Xl.Cell) (x : value) : Xl.Cell :=
  let '(v, is_date) := Appender.from_serial x in
  if is_date then with_format (assigned old v) "mm/dd/yyyy" else assigned old v.

(** A cell of column [c] in the legacy path after the source value [x] is
    pasted into it. *)
Definition legacy_cell `{Library} (formats : list (nat * string)) (old : Xl.Cell)
    (c : nat) (x : value) : Xl.Cell :=
  let '(v, is_date) := Appender.from_serial x in
  with_format (assigned old v)
    (if is_date then "mm/dd/yyyy" else Filtration.format_for formats c).

(** How the three L..AA appends leave the cell of column [c] of a pasted
    row: [old] is the cell before, [new] the cell after. *)
Definition l_aa_pasted `{Library} (old : Xl.Cell) (row_vals : list value) (c : nat)
    (new : Xl.Cell) : Prop :=
  if (c =? 1)%nat then exists id, new = master_cell (Xl.bind_value old (VInt id)) 1
  else if (2 <=? c)%nat then
    new = match written_order row_vals !! (c - 2)%nat with
          | Some v => assigned (master_cell old c) (ExcelProcessor.date_coerced v)
          | None => master_cell old c
          end
  else new = old.

Definition appender_pasted `{Library} (old : Xl.Cell) (row_vals : list value)
    (c : nat) (new : Xl.Cell) : Prop :=
  if (c =? 1)%nat then exists id, new = Xl.bind_value old (VInt id)
  else if (2 <=? c)%nat then
    new = match written_order row_vals !! (c - 2)%nat with
          | Some x => appender_cell old x
          | None => old
          end
  else new = old.

Definition legacy_pasted `{Library} (formats : list (nat * string)) (old : Xl.Cell)
    (row_vals : list value) (c : nat) (new : Xl.Cell) : Prop :=
  if (c =? 1)%nat then exists id, new = Xl.bind_value old (VInt id)
  else if (2 <=? c)%nat then
    new = match row_vals !! (c - 2)%nat with
          | Some x => legacy_cell formats old c x
          | None => old
          end
  else new = old.

(** The destination column of the value at index [i] of a gathered row:
    index 3 goes to column 6 (F) and index 4 to column 5 (E) when the row
    has at least 5 values; every other index [i] goes to column [i + 2]. *)
Definition lands_in (row_vals : list value) (i : nat) : nat :=
  if (5 <=? length row_vals)%nat then
    if (i =? 3)%nat then 6%nat else if (i =? 4)%nat then 5%nat else (i + 2)%nat
  else (i + 2)%nat.

(** The row where the L..AA appends start. *)
Definition l_aa_start_row (ws_dst : Xl.Worksheet) : nat :=
  let last_row := ExcelProcessor.last_data_row ws_dst 50 in
  if (1 <=? last_row)%nat then (last_row + 1)%nat else 1%nat.

(** The number format of a cell that had the format [fmt] when [v] was
    assigned to it: a date assigned to a cell whose format is not a date
    format brings the default date format, every other value keeps [fmt]. *)
Definition format_after `{Library} (fmt : string) (v : value) : string :=
  match v with
  | VDate _ => if is_date_format fmt then fmt else default_date_format v
  | _ => fmt
  end.

(** The value assigned to column [c] of an appended row with the identifier
    [id] and the values [vs] offered to columns B, C, ...; [None] where
    nothing is assigned. *)
Definition written_to (id : Z) (vs : list (option value)) (c : nat) : value :=
  if (c =? 1)%nat then VInt id
  else match vs !! (c - 2)%nat with
       | Some (Some v) => v
       | _ => VNone
       end.

(** [new], a cell of column [c], carries the master format of its column
    as it is after [v] was assigned to a cell that already had it, and is
    right-aligned in column F. *)
Definition master_formatted `{Library} (c : nat) (v : value) (new : Xl.Cell) : Prop :=
  (exists fmt, master_format c = Some fmt /\
               Xl.number_format new = format_after fmt v) /\
  (c = 6%nat -> Xl.alignment new = Some "right").

(** The number format the legacy path captures for column [c]: that of the
    last data row of the destination, or 'General' when it has none. *)
Definition captured_format (ws_dst : Xl.Worksheet) (c : nat) : string :=
  let last_row := Appender.last_data_row ws_dst 50 in
  if (0 <? last_row)%nat then Xl.number_format (Xl.cell ws_dst last_row c)
  else "General".

(** The cell [new] that the legacy path pastes [x] into, in column [c]:
    'mm/dd/yyyy' when [x] is a serial number that was converted to a date,
    the captured format of the column for every other [x]. *)
Definition legacy_formatted `{Library} (ws_dst : Xl.Worksheet) (c : nat) (x : value)
    (new : Xl.Cell) : Prop :=
  Xl.number_format new
  = if snd (Appender.from_serial x) then "mm/dd/yyyy" else captured_format ws_dst c.

(** The legacy path forces a date display format on every pasted cell
    that holds a date. *)
Definition legacy_dates_forced `{Library} (ws_dst : Xl.Worksheet)
    (src_rows : list (list value)) : Prop :=
  forall j row_vals i x d,
    src_rows !! j = Some row_vals -> row_vals !! i = Some x ->
    let new := Xl.cell (Filtration.paste_rows src_rows ws_dst)
                       (l_aa_start_row ws_dst + j) (i + 2) in
    Xl.value_of new = VDate d -> is_date_format (Xl.number_format new) = true.

(** What a run whose save is denied promises, given the run [ok] that the
    same call makes when the save goes through: the disk is as before;
    where [ok] reports appended rows, the denied run reports instead that
    it could not save, and ends without raising; and running again from
    the disk it leaves does what [ok] does. *)
Definition save_failure_is_harmless (run : bool -> Fs.Disk -> Fs.outcome)
    (disk : Fs.Disk) : Prop :=
  let denied := run true disk in
  let ok := run false disk in
  Fs.disk_after denied = disk /\
  (forall n, In (Fs.Appended n) (Fs.printed ok) ->
     In Fs.CouldNotSave (Fs.printed denied) /\
     ~ In (Fs.Appended n) (Fs.printed denied) /\
     Fs.raised denied = None) /\
  run false (Fs.disk_after denied) = ok.

(** ** Vocabulary of the further properties *)

(** Row [r] of [ws] has a value other than [None] and the empty string in
    one of its first [scan_cols] columns. *)
Definition has_data (ws : Xl.Worksheet) (scan_cols r : nat) : Prop :=
  exists c, (1 <= c <= scan_cols)%nat /\
            Py.is_blank (Xl.value_of (Xl.cell ws r c)) = false.

(** The identifier that the L..AA appends give row [r] of [ws]: 1 in row
    1, else one more than what [int] makes of the cell above in column A
    (0 when that cell is empty or no number). *)
Definition sequence_id `{Library} (ws : Xl.Worksheet) (r : nat) : Z :=
  if (r =? 1)%nat then 1
  else ExcelProcessor.previous_id (Xl.value_of (Xl.cell ws (r - 1) 1)) + 1.


(** A label whose normalization is that of [cand]. *)
Definition matches_exactly (cand c : string) : Prop :=
  Transformer.normalize_column_name c = Transformer.normalize_column_name cand.

(** A frame with two columns that normalize alike. *)
Definition twin_columns : Pd.DataFrame :=
  {| Pd.columns := ["Term "; "Price"; "TERM"]; Pd.rows := [] |}.


(** The master header that the cell of column [c] in the header row
    stands for: its text, stripped, lowercased and with blanks turned into
    underscores, is a key of [SOURCE_SYNONYMS] whose name is a master
    header. *)
Definition header_name (ws : Xl.Worksheet) (header_row c : nat) : option string :=
  match ExcelProcessor.header_key (Xl.value_of (Xl.cell ws header_row c)) with
  | Some key =>
      match Py.dict_get key ExcelProcessor.SOURCE_SYNONYMS with
      | Some norm_name =>
          if Pd.mem norm_name ExcelProcessor.MASTER_HEADERS then Some norm_name
          else None
      | None => None
      end
  | None => None
  end.


(** Of the disk, a run changed at most the first sheet of the workbook
    stored at [dst]. *)
Definition changes_first_sheet_only (dst : string) (disk disk' : Fs.Disk) : Prop :=
  (forall path, path <> dst -> disk' !! path = disk !! path) /\
  (disk' = disk \/
   exists wb ws', disk !! dst = Some wb /\ disk' !! dst = Some (<[0%nat := ws']> wb)).


(** What [append_filtered_dataframe_to_master] offers to columns B..G for
    the row tuple [row_data]: nothing to B, and to C, D, E, F and G the
    cells at the places 0, 3, 4, 2 and 5 of the tuple. *)
Definition filtered_values (row_data : list value) : list (option value) :=
  [None; row_data !! 0%nat; row_data !! 3%nat; row_data !! 4%nat;
   row_data !! 2%nat; row_data !! 5%nat].


(** A disk that holds a master workbook only. *)
Definition master_only_disk : Fs.Disk :=
  list_to_map [("Master-Table.xlsx", [sample_master])].


(** The key under which [find_col] of [filtration.py] files a label. *)
Definition label_key (c : string) : string := PyStr.lower (PyStr.strip c).

(** [c] is the only label of [cols] that satisfies [P]. *)
Definition only_label (P : string -> Prop) (cols : list string) (c : string) : Prop :=
  exists k1 k2, cols = k1 ++ c :: k2 /\ P c /\
                forall x, In x (k1 ++ k2) -> ~ P x.

(** The dictionary from keys to labels that a resolver builds: a later
    label replaces an earlier one under the same key. *)
Definition key_map (key : string -> string) (cols : list string) : Py.dict string :=
  fold_left (fun d col => Py.dict_set (key col) col d) cols [].


(** The sheets of a source workbook, as [pd.read_excel] returns them. *)
Definition sample_workbook : Py.dict Pd.DataFrame :=
  [("Notes", sample_sheet); ("Matrix Table", sample_matrix)].


(** The first row of [work] with the index label [i]. *)
Definition labelled_row (work : Pd.DataFrame) (i : nat) : option (list value) :=
  snd <$> List.find (fun ir => Nat.eqb i (fst ir)) (Pd.rows work).

(** The cell that a Series computed by [f] from column [c] of [work]
    gives to the row labelled [i] of another frame when it is assigned to
    one of its columns: a missing value where [work] has no such label. *)
Definition aligned (work : Pd.DataFrame) (f : value -> value) (c : string)
    (i : nat) : value :=
  match labelled_row work i with
  | Some r => f (Pd.cell (Pd.columns work) c r)
  | None => VNaN
  end.

(** The columns that the schema mapper resolves. *)
Record mapper_columns := {
  m_desc : option string;
  m_price : option string;
  m_green : option string;
  m_term : option string;
  m_start : option string;
  m_zone : option string;
  m_lf : option string;
  m_prod : option string;
}.

(** The columns that [hda_matrix_to_master_cols] resolves in [df]. *)
Definition hda_columns (df : Pd.DataFrame) : mapper_columns :=
  let get := fun candidates => ExcelProcessor.get_col (Pd.columns df) candidates true in
  {| m_desc := get ["MatrixDescription"; "Matrix Description"; "Description"; "Desc"];
     m_price := get ["Price"; "Price $"; "Price($)"; "Matrix Price"; "Rate";
                     "Base Price"];
     m_green := get ["GreenPrice"; "Green Price"];
     m_term := get ["TermCode"; "Term"; "Term Months"; "Term_Months"; "TermLength";
                    "Term (months)"];
     m_start := get ["StartDate"; "Start Date"; "StartMonth"; "Start Month";
                     "Delivery Start"; "First Delivery"; "DeliveryStart"];
     m_zone := get ["Zone"; "Congestion Zone"];
     m_lf := get ["Load Factor"; "LoadFactor"; "LF"];
     m_prod := get ["Product"; "Products"] |}.

(** The rows the mapper works on: those of [df] whose product reads
    'fixed price', or all of them when there is no product column. *)
Definition fixed_price_rows `{Library} (cs : mapper_columns) (df : Pd.DataFrame)
  : Pd.DataFrame :=
  match m_prod cs with
  | Some c_prod =>
      Pd.getitem_mask df
        (map (fun v => String.eqb (PyStr.lower (PyStr.strip (Py.str v))) "fixed price")
             (Pd.values (Pd.getitem df c_prod)))
  | None => df
  end.

(** The price that the row labelled [i] gets: from the price column,
    unless there is none or all its cells are missing and there is a
    green-price column. *)
Definition mapped_price `{Library} (cs : mapper_columns) (work : Pd.DataFrame)
    (i : nat) : value :=
  let all_missing c :=
    forallb (fun ir => Py.isna (to_numeric (Pd.cell (Pd.columns work) c (snd ir))))
            (Pd.rows work) in
  match m_price cs, m_green cs with
  | Some p, Some g =>
      if all_missing p then aligned work to_numeric g i else aligned work to_numeric p i
  | Some p, None => aligned work to_numeric p i
  | None, Some g => aligned work to_numeric g i
  | None, None => VNaN
  end.

(** The term cell that the row labelled [i] gets. *)
Definition mapped_term `{Library} (c_term : string) (work : Pd.DataFrame) (i : nat)
  : value :=
  aligned work (fun v => ExcelProcessor.term_cell (ExcelProcessor.term_to_int v))
          c_term i.

(** The row of the result with the label [i]. *)
Definition mapped_row `{Library} (cs : mapper_columns) (c_term c_start : string)
    (work : Pd.DataFrame) (i : nat) : list value :=
  let zone :=
    match m_desc cs with
    | Some d => aligned work (fun v => VStr (ExcelProcessor.parse_zone v)) d i
    | None =>
        match m_zone cs with
        | Some z => aligned work (fun v => VStr (Py.str v)) z i
        | None => VStr ""
        end
    end in
  let load :=
    match m_desc cs with
    | Some d => aligned work (fun v => VStr (ExcelProcessor.parse_lf v)) d i
    | None =>
        match m_lf cs with
        | Some l => aligned work (fun v => VStr (Py.str v)) l i
        | None => VStr ""
        end
    end in
  [VNone; today; aligned work to_datetime_date c_start i; zone; load;
   VStr "HUDSON"; mapped_term c_term work i; VInt 0; VInt 1000;
   mapped_price cs work i; VInt 0; mapped_price cs work i; VInt 0; VInt 0;
   VInt 0; VInt 0; VInt 5].

(** The rows of the result: one for each label [i] below the number of
    rows of [work] whose term cell is not missing; none when a required
    column is not resolved. *)
Definition mapped_rows `{Library} (cs : mapper_columns) (work : Pd.DataFrame)
  : list (nat * list value) :=
  match m_term cs, m_start cs with
  | Some c_term, Some c_start =>
      if Py.is_none (m_price cs) && Py.is_none (m_green cs) then []
      else if Py.is_none (m_desc cs) && (Py.is_none (m_zone cs) && Py.is_none (m_lf cs))
      then []
      else
        map (fun i => (i, mapped_row cs c_term c_start work i))
            (List.filter (fun i => negb (Py.isna (mapped_term c_term work i)))
                         (seq 0 (Pd.len work)))
  | _, _ => []
  end.

(** The frame with the columns [cols] whose row labelled [i] is [F i], for
    the labels [l]. *)
Definition tabulated (cols : list string) (F : nat -> list value) (l : list nat)
  : Pd.DataFrame :=
  {| Pd.columns := cols; Pd.rows := map (fun i => (i, F i)) l |}.


(** * Properties *)

(** ** Text lemmas *)

Section text_lemmas.
Import PyStr.

Lemma text_chars s : text (chars s) = s.
Proof. apply string_of_list_ascii_of_string. Qed.

Lemma chars_text l : chars (text l) = l.
Proof. apply list_ascii_of_string_of_list_ascii. Qed.

Lemma chars_app s t : chars (s +:+ t) = chars s ++ chars t.
Proof. induction s as [|c s IH]; simpl; [done|]. by rewrite <- IH. Qed.

Lemma chars_inj s t : chars s = chars t -> s = t.
Proof. intros E. rewrite <- (text_chars s), <- (text_chars t). by rewrite E. Qed.

Lemma chars_length s : length (chars s) = String.length s.
Proof. induction s as [|c s IH]; simpl; [done|]. by rewrite IH. Qed.

Lemma drop_while_length {A} (p : A -> bool) l :
  (length (drop_while p l) <= length l)%nat.
Proof. induction l as [|x l IH]; simpl; [lia|]. destruct (p x); simpl; lia. Qed.

Lemma drop_while_fix {A} (p : A -> bool) l :
  length (drop_while p l) = length l -> drop_while p l = l.
Proof.
  destruct l as [|x l]; simpl; [done|].
  destruct (p x); [|done].
  pose proof (drop_while_length p l). lia.
Qed.

Lemma drop_while_head {A} (p : A -> bool) x l :
  p x = false -> drop_while p (x :: l) = x :: l.
Proof. simpl. by intros ->. Qed.

Lemma drop_while_fix_head {A} (p : A -> bool) x l :
  drop_while p (x :: l) = x :: l -> p x = false.
Proof.
  simpl. destruct (p x) eqn:E; [|done].
  intros Heq. pose proof (drop_while_length p l) as Hl.
  rewrite Heq in Hl. simpl in Hl. lia.
Qed.

(** A stripped text is fixed by both passes of [strip]. *)
Lemma strip_chars_fix l :
  strip_chars l = l ->
  drop_while is_space l = l /\ drop_while is_space (rev l) = rev l.
Proof.
  unfold strip_chars. intros Heq.
  pose proof (drop_while_length is_space l) as H1.
  pose proof (drop_while_length is_space (rev (drop_while is_space l))) as H2.
  assert (Hlen : length (rev (drop_while is_space (rev (drop_while is_space l))))
                 = length l) by (by rewrite Heq).
  rewrite !length_rev in *.
  assert (E1 : drop_while is_space l = l) by (apply drop_while_fix; lia).
  split; [done|].
  rewrite E1 in Hlen. apply drop_while_fix. rewrite length_rev. lia.
Qed.

Lemma starts_with_app p l : starts_with_chars p (p ++ l) = true.
Proof.
  induction p as [|a p IH]; simpl; [done|].
  destruct (ascii_dec a a); [done|congruence].
Qed.

Lemma starts_with_spec p l :
  starts_with_chars p l = true <-> exists r, l = p ++ r.
Proof.
  split.
  - revert l. induction p as [|a p IH]; intros l H; simpl in *.
    + by exists l.
    + destruct l as [|b l]; [done|].
      destruct (ascii_dec a b) as [->|]; [|done].
      destruct (IH _ H) as [r ->]. by exists r.
  - intros [r ->]. apply starts_with_app.
Qed.

Lemma contains_here p l :
  starts_with_chars p l = true -> contains_chars p l = true.
Proof. intros H. destruct l; simpl; by rewrite H. Qed.

Lemma contains_spec p l :
  contains_chars p l = true <-> exists a b, l = a ++ p ++ b.
Proof.
  split.
  - induction l as [|c l IH]; simpl; intros H.
    + apply orb_true_iff in H as [H|H]; [|done].
      apply starts_with_spec in H as [r ->]. by exists [], r.
    + apply orb_true_iff in H as [H|H].
      * apply starts_with_spec in H as [r ->]. by exists [], r.
      * destruct (IH H) as (a & b & ->). by exists (c :: a), b.
  - intros (a & b & ->). induction a as [|c a IH].
    + rewrite app_nil_l. apply contains_here, starts_with_app.
    + simpl. rewrite IH. apply orb_true_r.
Qed.

End text_lemmas.

(** ** Zone and load factor decoding *)

Section zone_lemmas.
Import PyStr.

Lemma strip_chars_app z t x r :
  strip_chars z = z -> z <> [] -> rev t = x :: r -> is_space x = false ->
  strip_chars (z ++ t) = z ++ t.
Proof.
  intros Hz Hne Ht Hx.
  destruct (strip_chars_fix _ Hz) as [Hl _].
  destruct z as [|c z']; [done|].
  apply drop_while_fix_head in Hl.
  unfold strip_chars.
  change ((c :: z') ++ t) with (c :: (z' ++ t)).
  rewrite (drop_while_head _ _ _ Hl).
  change (c :: (z' ++ t)) with ((c :: z') ++ t).
  rewrite rev_app_distr, Ht.
  change ((x :: r) ++ rev (c :: z')) with (x :: (r ++ rev (c :: z'))).
  rewrite (drop_while_head _ _ _ Hx).
  change (x :: (r ++ rev (c :: z'))) with ((x :: r) ++ rev (c :: z')).
  by rewrite <- Ht, <- rev_app_distr, rev_involutive.
Qed.

Lemma strip_app z t x r :
  strip z = z -> z <> "" -> rev (chars t) = x :: r -> is_space x = false ->
  strip (z +:+ t) = z +:+ t.
Proof.
  unfold strip. intros Hz Hne Ht Hx.
  rewrite chars_app, (strip_chars_app _ _ x r); try done.
  - by rewrite <- chars_app, text_chars.
  - apply (f_equal chars) in Hz. by rewrite chars_text in Hz.
  - intros E. apply Hne. apply chars_inj. by rewrite E.
Qed.

Lemma endswith_app z t : endswith (z +:+ t) t = true.
Proof.
  unfold endswith. rewrite chars_app, rev_app_distr. apply starts_with_app.
Qed.

Lemma drop_last_app z t : drop_last (String.length t) (z +:+ t) = z.
Proof.
  unfold drop_last. rewrite chars_app, length_app, <- chars_length.
  replace (length (chars z) + length (chars t) - length (chars t))%nat
    with (length (chars z)) by lia.
  by rewrite take_app_length, text_chars.
Qed.

Lemma contains_app_token p a b : contains p (a +:+ b +:+ p) = true.
Proof.
  unfold contains. rewrite !chars_app. apply contains_spec.
  exists (chars a ++ chars b), []. by rewrite app_nil_r, app_assoc.
Qed.

Lemma starts_with_app_inv p z t :
  starts_with_chars p (z ++ t) = true ->
  starts_with_chars p z = true \/
  ((length z < length p)%nat /\ starts_with_chars (drop (length z) p) t = true).
Proof.
  revert z. induction p as [|a p IH]; intros z H; [by left|].
  destruct z as [|b z].
  - right. split; [simpl; lia|done].
  - simpl in H. destruct (ascii_dec a b) as [->|]; [|done].
    destruct (IH _ H) as [Hl|[Hk Hr]].
    + left. simpl. by destruct (ascii_dec b b).
    + right. split; [simpl; lia|done].
Qed.

(** An occurrence of [p] in [z ++ t] lies in [z], lies in [t], or
    straddles the seam. *)
Lemma contains_app_inv p z t :
  contains_chars p (z ++ t) = true ->
  contains_chars p z = true \/ contains_chars p t = true \/
  exists k, (0 < k < length p)%nat /\ starts_with_chars (drop k p) t = true.
Proof.
  induction z as [|c z IH]; intros H; [by right; left|].
  change ((c :: z) ++ t) with (c :: (z ++ t)) in H.
  simpl in H. apply orb_true_iff in H as [H|H].
  - change (c :: (z ++ t)) with ((c :: z) ++ t) in H.
    apply starts_with_app_inv in H as [H|[Hk H]].
    + left. by apply contains_here.
    + right; right. exists (length (c :: z)). split; [simpl in *; lia|done].
  - destruct (IH H) as [Hz|[Ht|Hk]].
    + left. simpl. rewrite Hz. apply orb_true_r.
    + by right; left.
    + by right; right.
Qed.

Lemma no_straddle p t :
  forallb (fun k => negb (starts_with_chars (drop k p) t))
          (seq 1 (length p - 1)) = true ->
  forall k, (0 < k < length p)%nat -> starts_with_chars (drop k p) t = false.
Proof.
  intros H k Hk. rewrite forallb_forall in H.
  specialize (H k). apply negb_true_iff, H, in_seq. lia.
Qed.

Lemma contains_app_false p z t :
  contains p z = false -> contains p t = false ->
  forallb (fun k => negb (starts_with_chars (drop k (chars p)) (chars t)))
          (seq 1 (length (chars p) - 1)) = true ->
  contains p (z +:+ t) = false.
Proof.
  unfold contains. intros Hz Ht Hs. rewrite chars_app.
  destruct (contains_chars (chars p) (chars z ++ chars t)) eqn:E; [|done].
  apply contains_app_inv in E as [E|[E|(k & Hk & E)]]; [congruence..|].
  by rewrite (no_straddle _ _ Hs k Hk) in E.
Qed.

Lemma endswith_contains s a p :
  endswith s (a +:+ p) = true -> contains p s = true.
Proof.
  unfold endswith, contains. intros H.
  apply starts_with_spec in H as [r Hr].
  apply (f_equal (@rev ascii)) in Hr.
  rewrite rev_involutive, rev_app_distr, rev_involutive, chars_app in Hr.
  apply contains_spec. exists (rev r ++ chars a), [].
  by rewrite Hr, app_nil_r, app_assoc.
Qed.

End zone_lemmas.

Section zone_round_trip.
Context `{Library}.
Import PyStr.

Local Abbreviation low := " Low Load Factor".
Local Abbreviation med := " Medium Load Factor".
Local Abbreviation high := " High Load Factor".

Lemma truthy_app z t : t <> "" -> Py.truthy (VStr (z +:+ t)) = true.
Proof.
  intros Ht. simpl. apply negb_true_iff, String.eqb_neq.
  destruct z; simpl; [done|discriminate].
Qed.

Lemma transformer_zone_is_processor_zone v :
  ExcelProcessor.parse_zone v = Transformer.parse_zone_from_description v.
Proof. reflexivity. Qed.

Lemma transformer_lf_is_processor_lf v :
  ExcelProcessor.parse_lf v = Transformer.parse_load_factor_from_description v.
Proof. reflexivity. Qed.

Lemma zone_of_low z :
  strip z = z -> z <> "" ->
  Transformer.parse_zone_from_description (VStr (z +:+ low)) = z.
Proof.
  intros Hz Hne. unfold Transformer.parse_zone_from_description.
  rewrite truthy_app by done. simpl Py.str.
  rewrite (strip_app z low "r"%char (tail (rev (chars low)))) by done.
  unfold Transformer.load_factor_suffixes. cbn [Transformer.strip_suffix].
  rewrite (endswith_app z low). apply (drop_last_app z low).
Qed.

Lemma zone_of_med z :
  strip z = z -> z <> "" ->
  Transformer.parse_zone_from_description (VStr (z +:+ med)) = z.
Proof.
  intros Hz Hne. unfold Transformer.parse_zone_from_description.
  rewrite truthy_app by done. simpl Py.str.
  rewrite (strip_app z med "r"%char (tail (rev (chars med)))) by done.
  unfold Transformer.load_factor_suffixes. cbn [Transformer.strip_suffix].
  assert (E : endswith (z +:+ med) low = false).
  { unfold endswith. rewrite chars_app, rev_app_distr. by vm_compute. }
  rewrite E, (endswith_app z med). apply (drop_last_app z med).
Qed.

Lemma zone_of_high z :
  strip z = z -> z <> "" ->
  Transformer.parse_zone_from_description (VStr (z +:+ high)) = z.
Proof.
  intros Hz Hne. unfold Transformer.parse_zone_from_description.
  rewrite truthy_app by done. simpl Py.str.
  rewrite (strip_app z high "r"%char (tail (rev (chars high)))) by done.
  unfold Transformer.load_factor_suffixes. cbn [Transformer.strip_suffix].
  assert (E1 : endswith (z +:+ high) low = false).
  { unfold endswith. rewrite chars_app, rev_app_distr. by vm_compute. }
  assert (E2 : endswith (z +:+ high) med = false).
  { unfold endswith. rewrite chars_app, rev_app_distr. by vm_compute. }
  rewrite E1, E2, (endswith_app z high). apply (drop_last_app z high).
Qed.

Lemma lf_of_low z :
  strip z = z -> z <> "" ->
  Transformer.parse_load_factor_from_description (VStr (z +:+ low)) = "LOW".
Proof.
  intros Hz Hne. unfold Transformer.parse_load_factor_from_description.
  rewrite truthy_app by done. simpl Py.str.
  rewrite (strip_app z low "r"%char (tail (rev (chars low)))) by done.
  pose proof (contains_app_token "Low Load Factor" z " ") as E.
  change (" " +:+ "Low Load Factor") with low in E. by rewrite E.
Qed.

Lemma lf_of_med z :
  strip z = z -> z <> "" -> contains "Low Load Factor" z = false ->
  Transformer.parse_load_factor_from_description (VStr (z +:+ med)) = "MED".
Proof.
  intros Hz Hne Hlow. unfold Transformer.parse_load_factor_from_description.
  rewrite truthy_app by done. simpl Py.str.
  rewrite (strip_app z med "r"%char (tail (rev (chars med)))) by done.
  rewrite (contains_app_false "Low Load Factor" z med) by done.
  pose proof (contains_app_token "Medium Load Factor" z " ") as E.
  change (" " +:+ "Medium Load Factor") with med in E. by rewrite E.
Qed.

Lemma lf_of_high z :
  strip z = z -> z <> "" -> contains "Low Load Factor" z = false ->
  contains "Medium Load Factor" z = false ->
  Transformer.parse_load_factor_from_description (VStr (z +:+ high)) = "HIGH".
Proof.
  intros Hz Hne Hlow Hmed. unfold Transformer.parse_load_factor_from_description.
  rewrite truthy_app by done. simpl Py.str.
  rewrite (strip_app z high "r"%char (tail (rev (chars high)))) by done.
  rewrite (contains_app_false "Low Load Factor" z high) by done.
  rewrite (contains_app_false "Medium Load Factor" z high) by done.
  pose proof (contains_app_token "High Load Factor" z " ") as E.
  change (" " +:+ "High Load Factor") with high in E. by rewrite E.
Qed.

Lemma str_or_empty s :
  Py.str (if Py.truthy (VStr s) then VStr s else VStr "") = s.
Proof.
  simpl. destruct (String.eqb s "") eqn:E; simpl; [|done].
  by apply String.eqb_eq in E.
Qed.

Lemma zone_of_plain s :
  strip s = s ->
  contains "Low Load Factor" s = false ->
  contains "Medium Load Factor" s = false ->
  contains "High Load Factor" s = false ->
  Transformer.parse_zone_from_description (VStr s) = s /\
  Transformer.parse_load_factor_from_description (VStr s) = "".
Proof.
  intros Hs Hl Hm Hh.
  unfold Transformer.parse_zone_from_description,
    Transformer.parse_load_factor_from_description.
  rewrite str_or_empty, Hs, Hl, Hm, Hh. split; [|done].
  unfold Transformer.load_factor_suffixes. cbn [Transformer.strip_suffix].
  destruct (endswith s low) eqn:E1.
  { apply (endswith_contains s " " "Low Load Factor") in E1. congruence. }
  destruct (endswith s med) eqn:E2.
  { apply (endswith_contains s " " "Medium Load Factor") in E2. congruence. }
  destruct (endswith s high) eqn:E3.
  { apply (endswith_contains s " " "High Load Factor") in E3. congruence. }
  done.
Qed.

End zone_round_trip.

(** C5, as amended.  For every non-empty string [z] with neither leading nor
    trailing whitespace, the description [z + " Low Load Factor"] decodes to
    zone [z] and load factor LOW; [z + " Medium Load Factor"] decodes to zone
    [z], and to load factor MED when [z] does not contain "Low Load Factor";
    [z + " High Load Factor"] decodes to zone [z], and to load factor HIGH
    when [z] contains neither "Low Load Factor" nor "Medium Load Factor".
    For every stripped string [s] containing none of the three
    "... Load Factor" tokens the zone is [s] itself and the load factor is
    empty.  This holds for the decoders of [transformer.py] and for the
    helpers nested in [hda_matrix_to_master_cols]. *)
Theorem zone_load_factor_round_trip `{Library} (z s : string) :
  PyStr.strip z = z -> z <> "" ->
  PyStr.strip s = s ->
  PyStr.contains "Low Load Factor" s = false ->
  PyStr.contains "Medium Load Factor" s = false ->
  PyStr.contains "High Load Factor" s = false ->
  decodes_round_trip Transformer.parse_zone_from_description
                     Transformer.parse_load_factor_from_description z s /\
  decodes_round_trip ExcelProcessor.parse_zone ExcelProcessor.parse_lf z s.
Proof.
  intros Hz Hne Hs Hl Hm Hh.
  assert (decodes_round_trip Transformer.parse_zone_from_description
            Transformer.parse_load_factor_from_description z s) as HT.
  { repeat split.
    - by apply zone_of_low.
    - by apply lf_of_low.
    - by apply zone_of_med.
    - intros. by apply lf_of_med.
    - by apply zone_of_high.
    - intros. by apply lf_of_high.
    - by apply zone_of_plain.
    - by apply zone_of_plain. }
  split; [exact HT|exact HT].
Qed.

Lemma zone_load_factor_round_trip_witness :
  decodes_round_trip (@Transformer.parse_zone_from_description sample_library)
    (@Transformer.parse_load_factor_from_description sample_library)
    "North Zone" "Some other text" /\
  decodes_round_trip (@ExcelProcessor.parse_zone sample_library)
    (@ExcelProcessor.parse_lf sample_library) "North Zone" "Some other text".
Proof.
  apply (@zone_load_factor_round_trip sample_library "North Zone" "Some other text");
    try reflexivity.
  discriminate.
Defined.

(** C5 as stated fails: a zone with leading whitespace has no trailing
    whitespace, yet it is not recovered, because the whole description is
    stripped first. *)
Lemma zone_round_trip_counterexample :
  ~ (forall (L : Library) (z : string),
        PyStr.rstrip z = z ->
        Transformer.parse_zone_from_description (VStr (z +:+ " Low Load Factor")) = z /\
        Transformer.parse_load_factor_from_description
          (VStr (z +:+ " Low Load Factor")) = "LOW").
Proof.
  intros Hall.
  destruct (Hall sample_library " North" eq_refl) as [Hzone _].
  vm_compute in Hzone. discriminate Hzone.
Qed.

(** ** Row filter *)

Section row_filter.
Context `{Library}.
Import PyStr.

Lemma mem_In c l : Pd.mem c l = true <-> In c l.
Proof.
  unfold Pd.mem. rewrite existsb_exists. split.
  - intros (x & Hx & E). apply String.eqb_eq in E. by subst.
  - intros Hc. exists c. split; [done|apply String.eqb_refl].
Qed.

Lemma select_masks {A} (f g : A -> bool) (l : list A) :
  Pd.select (zip_with andb (map f l) (map g l)) l
  = List.filter (fun x => f x && g x) l.
Proof.
  induction l as [|x l IH]; simpl; [done|].
  rewrite IH. by destruct (f x), (g x).
Qed.

Lemma values_getitem_map {B} (f : value -> B) df c :
  map f (Pd.values (Pd.getitem df c))
  = map (fun ir => f (Pd.cell (Pd.columns df) c (snd ir))) (Pd.rows df).
Proof.
  unfold Pd.values, Pd.getitem. rewrite !map_map.
  apply map_ext. by intros [i r].
Qed.

Lemma find_first {A} (f : A -> bool) l c :
  List.find f l = Some c ->
  exists l1 l2, l = l1 ++ c :: l2 /\ f c = true /\ forall x, In x l1 -> f x = false.
Proof.
  induction l as [|x l IH]; simpl; [done|].
  destruct (f x) eqn:E.
  - intros [= ->]. exists [], l. repeat split; [done|]. intros ? [].
  - intros Hf. destruct (IH Hf) as (l1 & l2 & -> & Hc & Hl1).
    exists (x :: l1), l2. repeat split; [done|].
    intros y [<-|Hy]; [done|by apply Hl1].
Qed.

Lemma label_in c names :
  Pd.mem (lower (strip c)) names = true <-> In (lower (strip c)) names.
Proof. apply mem_In. Qed.

Lemma product_label_dec c :
  Pd.mem (lower (strip c)) ["product"; "products"] = true <-> product_label c.
Proof.
  rewrite label_in. unfold product_label. simpl. split.
  - intros [E|[E|[]]]; auto.
  - intros [E|E]; auto.
Qed.

Lemma term_label_dec c :
  Pd.mem (lower (strip c)) ["term"; "terms"] = true <-> term_label c.
Proof.
  rewrite label_in. unfold term_label. simpl. split.
  - intros [E|[E|[]]]; auto.
  - intros [E|E]; auto.
Qed.

Lemma find_first_label (f : string -> bool) (P : string -> Prop) l c :
  (forall x, f x = true <-> P x) ->
  List.find f l = Some c -> first_label P l c.
Proof.
  intros Hf Hfind. destruct (find_first f l c Hfind) as (l1 & l2 & -> & Hc & Hl1).
  exists l1, l2. repeat split; [by apply Hf|].
  intros x Hx HP. apply Hf in HP. by rewrite (Hl1 x Hx) in HP.
Qed.

Lemma find_none_label (f : string -> bool) (P : string -> Prop) l :
  (forall x, f x = true <-> P x) ->
  List.find f l = None -> ~ exists c, In c l /\ P c.
Proof.
  intros Hf Hfind (c & Hc & HP).
  apply Hf in HP. by rewrite (find_none f l Hfind c Hc) in HP.
Qed.

Lemma isin_target_spec t :
  ExcelProcessor.isin_target t = true <->
  exists z, t = Some z /\ In z [12; 24; 36; 48; 60].
Proof.
  destruct t as [z|]; unfold ExcelProcessor.isin_target.
  - rewrite existsb_exists. unfold ExcelProcessor.TARGET_TERMS. split.
    + intros (x & Hx & E). apply Z.eqb_eq in E. subst. eauto.
    + intros (x & [= ->] & Hx). exists x. split; [done|apply Z.eqb_refl].
  - split; [done|]. by intros (z & ? & _).
Qed.

Lemma processor_filter_result df :
  row_filter_result ExcelProcessor.filter_sheet ExcelProcessor.parse_term_to_int
    ExcelProcessor.BASE_COLS df.
Proof.
  unfold row_filter_result, ExcelProcessor.filter_sheet.
  destruct (List.find _ (Pd.columns df)) as [pc|] eqn:Ep;
    [destruct (List.find (fun col => Pd.mem (lower (strip col)) ["term"; "terms"])
                 (Pd.columns df)) as [tc|] eqn:Et|].
  - split; [|intros [Hn|Hn]; exfalso; apply Hn].
    + intros _ _.
      exists pc, tc,
        (fun r => String.eqb (lower (strip (Py.str (Pd.cell (Pd.columns df) pc r))))
                    "fixed price"
                  && ExcelProcessor.isin_target
                       (ExcelProcessor.parse_term_to_int (Pd.cell (Pd.columns df) tc r))).
      split; [by apply (find_first_label _ _ _ _ product_label_dec)|].
      split; [by apply (find_first_label _ _ _ _ term_label_dec)|].
      split.
      { intros r. rewrite andb_true_iff, String.eqb_eq, isin_target_spec.
        reflexivity. }
      split; [done|].
      unfold Pd.loc. cbn [Pd.rows].
      rewrite map_map, !values_getitem_map, select_masks.
      apply map_ext. by intros [i r].
    + destruct (find_first _ _ _ Ep) as (l1 & l2 & E & Hc & _).
      exists pc. split; [rewrite E; apply in_elt|by apply product_label_dec].
    + destruct (find_first _ _ _ Et) as (l1 & l2 & E & Hc & _).
      exists tc. split; [rewrite E; apply in_elt|by apply term_label_dec].
  - split; [|done].
    intros _ Ht. exfalso.
    by apply (find_none_label _ _ _ term_label_dec Et).
  - split; [|done].
    intros Hp _. exfalso.
    by apply (find_none_label _ _ _ product_label_dec Ep).
Qed.

End row_filter.

Section term_parsing.
Context `{Library}.
Import PyStr.

Lemma trunc_whole q z : q == inject_Z z -> Py.trunc q = z.
Proof.
  unfold Qeq, inject_Z, Py.trunc. simpl. intros E.
  rewrite Z.mul_1_r in E. rewrite E. by apply Z.quot_mul.
Qed.

Lemma take_while_all {A} (p : A -> bool) l :
  forallb p l = true -> take_while p l = l.
Proof.
  induction l as [|x l IH]; simpl; [done|].
  intros [Hx Hl]%andb_true_iff. by rewrite Hx, IH.
Qed.

Lemma isdigit_first_run s :
  isdigit s = true -> first_digit_run s = Some (chars s).
Proof.
  unfold isdigit, first_digit_run.
  destruct (chars s) as [|c l] eqn:E; [done|].
  intros Hall. pose proof Hall as Hall'.
  simpl in Hall. apply andb_true_iff in Hall as [Hc _].
  simpl drop_while. rewrite Hc. simpl negb. cbv iota.
  by rewrite take_while_all.
Qed.

Lemma processor_term_parse : term_parse_result ExcelProcessor.parse_term_to_int.
Proof.
  unfold term_parse_result, ExcelProcessor.parse_term_to_int.
  repeat split; try done.
  - intros q z Hq. simpl. rewrite (trunc_whole q z Hq).
    assert (Qeq_bool (inject_Z z) q = true) as ->; [|done].
    apply Qeq_bool_iff. by symmetry.
  - intros q Hq. simpl.
    destruct (Qeq_bool (inject_Z (Py.trunc q)) q) eqn:E; [|done].
    apply Qeq_bool_iff in E. exfalso. apply (Hq (Py.trunc q)). by symmetry.
  - intros s. simpl.
    destruct (isdigit (strip s)) eqn:E.
    + by rewrite (isdigit_first_run _ E).
    + by destruct (first_digit_run (strip s)).
Qed.

End term_parsing.



Example filter_sheet_sample :
  Pd.rows (@ExcelProcessor.filter_sheet sample_library sample_sheet)
  = [(0%nat, [VStr "2024-01-01"; VStr "TX"; VStr "HOUSTON"; VInt 12;
              VStr "Fixed Price"; VFloat (151 # 2)]);
     (2%nat, [VStr "2024-03-01"; VStr "TX"; VStr "SOUTH"; VStr "36 Months";
              VStr " fixed PRICE "; VFloat (721 # 10)])].
Proof. reflexivity. Qed.

(** ** Column resolver *)

Section dict_lemmas.
Context {V : Type}.
Implicit Types (d : Py.dict V) (k : string) (v : V).

Lemma dict_get_set k k' v d :
  Py.dict_get k' (Py.dict_set k v d)
  = if String.eqb k k' then Some v else Py.dict_get k' d.
Proof.
  induction d as [|[k0 v0] d IH]; simpl.
  - done.
  - destruct (String.eqb k0 k) eqn:E0; simpl.
    + apply String.eqb_eq in E0 as ->. by destruct (String.eqb k k').
    + destruct (String.eqb k0 k') eqn:E1.
      * apply String.eqb_eq in E1 as ->. by rewrite String.eqb_sym, E0.
      * apply IH.
Qed.

Lemma dict_get_In k v d : Py.dict_get k d = Some v -> In (k, v) d.
Proof.
  induction d as [|[k0 v0] d IH]; simpl; [done|].
  destruct (String.eqb k0 k) eqn:E.
  - apply String.eqb_eq in E as ->. intros [= ->]. by left.
  - intros Hg. right. by apply IH.
Qed.

Lemma dict_set_In k k' v v' d :
  In (k', v') (Py.dict_set k v d) -> (k', v') = (k, v) \/ In (k', v') d.
Proof.
  induction d as [|[k0 v0] d IH]; simpl.
  - intros [E|[]]. by left.
  - destruct (String.eqb k0 k).
    + intros [E|Hin]; [by left|right; by right].
    + intros [E|Hin]; [right; by left|].
      destruct (IH Hin) as [?|?]; [by left|right; by right].
Qed.

Lemma In_dict_get k v d : In (k, v) d -> exists v', Py.dict_get k d = Some v'.
Proof.
  induction d as [|[k0 v0] d IH]; simpl; [done|].
  intros [[= -> ->]|Hin].
  - rewrite String.eqb_refl. eauto.
  - destruct (String.eqb k0 k); eauto.
Qed.

Lemma first_some_Some {A B} (f : A -> option B) l b :
  Py.first_some f l = Some b -> exists a, In a l /\ f a = Some b.
Proof.
  induction l as [|x l IH]; simpl; [done|].
  destruct (f x) eqn:E.
  - intros [= ->]. exists x. auto.
  - intros Hl. destruct (IH Hl) as (a & Ha & Hf). exists a. auto.
Qed.

Lemma first_some_None {A B} (f : A -> option B) l :
  Py.first_some f l = None <-> forall a, In a l -> f a = None.
Proof.
  induction l as [|x l IH]; simpl.
  - split; [by intros _ ? []|done].
  - destruct (f x) eqn:E.
    + split; [done|]. intros Hall. rewrite <- E. apply Hall. by left.
    + rewrite IH. split.
      * intros Hall a [<-|Ha]; auto.
      * intros Hall a Ha. apply Hall. by right.
Qed.

End dict_lemmas.

Section resolver.
Import PyStr.

(** Every key of the normalization map is the normalization of its
    column, and every column has its normalization as a key. *)
Lemma norm_map_get cols k c :
  Py.dict_get k (norm_map_of cols) = Some c ->
  In c cols /\ Transformer.normalize_column_name c = k.
Proof.
  unfold norm_map_of. revert k c.
  induction cols as [|x cols IH] using rev_ind; intros k c; [done|].
  rewrite fold_left_app. simpl. rewrite dict_get_set.
  destruct (String.eqb _ k) eqn:E.
  - apply String.eqb_eq in E. intros [= <-]. split; [|done].
    apply in_or_app. right. by left.
  - intros Hg. destruct (IH _ _ Hg) as [Hin Hk].
    split; [|done]. apply in_or_app. by left.
Qed.

Lemma norm_map_In cols k c :
  In (k, c) (norm_map_of cols) ->
  In c cols /\ Transformer.normalize_column_name c = k.
Proof.
  unfold norm_map_of. revert k c.
  induction cols as [|x cols IH] using rev_ind; intros k c; [done|].
  rewrite fold_left_app. simpl.
  intros [[= -> ->]|Hin]%dict_set_In.
  - split; [|done]. apply in_or_app. right. by left.
  - destruct (IH _ _ Hin) as [Hc Hk]. split; [|done]. apply in_or_app. by left.
Qed.

Lemma norm_map_has cols c :
  In c cols ->
  exists c', Py.dict_get (Transformer.normalize_column_name c) (norm_map_of cols)
             = Some c'.
Proof.
  unfold norm_map_of.
  induction cols as [|x cols IH] using rev_ind; [done|].
  rewrite fold_left_app. simpl. rewrite dict_get_set.
  intros [Hin|[<-|[]]]%in_app_or.
  - destruct (String.eqb _ _); eauto.
  - rewrite String.eqb_refl. eauto.
Qed.

Lemma contains_substring x y : contains x y = true <-> substring_of x y.
Proof.
  unfold contains, substring_of. rewrite contains_spec. split.
  - intros (a & b & E). exists (text a), (text b).
    apply chars_inj. by rewrite !chars_app, !chars_text.
  - intros (a & b & ->). exists (chars a), (chars b). by rewrite !chars_app.
Qed.

Lemma substring_refl x : substring_of x x.
Proof.
  exists "", "". apply chars_inj. rewrite !chars_app. simpl.
  by rewrite app_nil_r.
Qed.

Lemma transformer_resolver df candidates allow_contains :
  resolver_result Transformer.normalize_column_name (Transformer.find_column df)
    (Pd.columns df) candidates allow_contains.
Proof.
  unfold resolver_result, Transformer.find_column.
  fold (norm_map_of (Pd.columns df)).
  set (cols := Pd.columns df). set (nm := Transformer.normalize_column_name).
  set (d := norm_map_of cols).
  set (lookup := fun candidate : string => Py.dict_get (nm candidate) d).
  set (scan := fun kv : string * string =>
                 let '(key_norm, orig_col) := kv in
                 if existsb (fun candidate => contains (nm candidate) key_norm)
                            candidates
                 then Some orig_col else None).
  assert (Hexact : forall c, Py.first_some lookup candidates = Some c ->
                   In c cols /\ exists cand, In cand candidates /\ nm cand = nm c).
  { intros c Hf. apply first_some_Some in Hf as (cand & Hcand & Hl).
    apply norm_map_get in Hl as [Hin Hk]. split; [done|]. by exists cand. }
  assert (Hnone : Py.first_some lookup candidates = None <->
                  ~ exists c, In c cols /\ exists cand, In cand candidates /\ nm cand = nm c).
  { rewrite first_some_None. split.
    - intros Hall (c & Hc & cand & Hcand & E).
      destruct (norm_map_has cols c Hc) as [c' Hc'].
      specialize (Hall cand Hcand). unfold lookup, d, nm in *.
      rewrite E in Hall. congruence.
    - intros Hno cand Hcand. destruct (lookup cand) as [c|] eqn:E; [|done].
      exfalso. apply Hno. apply norm_map_get in E as [Hin Hk].
      exists c. split; [done|]. by exists cand. }
  assert (Hscan : forall c, Py.first_some scan d = Some c ->
                  In c cols /\ exists cand, In cand candidates /\
                                            substring_of (nm cand) (nm c)).
  { intros c Hf. apply first_some_Some in Hf as ([k c'] & Hkv & Hs).
    simpl in Hs. destruct (existsb _ candidates) eqn:E; [|done].
    injection Hs as ->.
    apply existsb_exists in E as (cand & Hcand & Hc).
    apply contains_substring in Hc.
    destruct (norm_map_In cols k c Hkv) as [Hin Hk].
    unfold nm. rewrite Hk. split; [done|]. by exists cand. }
  assert (Hscan_none : Py.first_some scan d = None ->
                       ~ exists c, In c cols /\ exists cand, In cand candidates /\
                                                 substring_of (nm cand) (nm c)).
  { rewrite first_some_None. intros Hall (c & Hc & cand & Hcand & Hsub).
    destruct (norm_map_has cols c Hc) as [c' Hc'].
    apply dict_get_In in Hc'. specialize (Hall _ Hc'). simpl in Hall.
    assert (E : existsb (fun candidate => contains (nm candidate)
                           (Transformer.normalize_column_name c)) candidates = true).
    { apply existsb_exists. exists cand. split; [done|].
      by apply contains_substring. }
    by rewrite E in Hall. }
  destruct (Py.first_some lookup candidates) as [c|] eqn:Eexact.
  - destruct (Hexact c eq_refl) as [Hin Hex].
    split; [intros _; exists c; auto|].
    split; [intros Hno; exfalso; apply Hno; exists c; auto|].
    split; [done|]. intros [Hno _]. exfalso. apply Hno. exists c. auto.
  - pose proof (proj1 Hnone eq_refl) as Hno.
    split; [intros Hyes; by exfalso|].
    destruct allow_contains.
    + destruct (Py.first_some scan d) as [c|] eqn:Escan.
      * destruct (Hscan c eq_refl) as [Hin Hsub].
        split; [intros _ _ _; exists c; auto|].
        split; [done|]. intros [_ Hn]. exfalso. apply Hn; [done|]. exists c. auto.
      * split; [intros _ _ Hyes; exfalso; by apply (Hscan_none eq_refl)|].
        split; [|done]. intros _. split; [done|]. intros _. by apply Hscan_none.
    + split; [done|]. split; [|done]. intros _. split; [done|done].
Qed.

End resolver.

(** C4.  [find_column] (and the helper [get_col] of
    [hda_matrix_to_master_cols]) compares names after stripping,
    lowercasing and deleting all characters outside [a-z0-9].  When some
    candidate and some column have equal normalizations it returns such a
    column, whatever the flag; otherwise, when [allow_contains] holds and the
    normalization of some candidate occurs in that of some column, it returns
    such a column; and it returns [None] exactly when no candidate matches
    under these rules. *)
Theorem find_column_resolves (df : Pd.DataFrame) (candidates : list string)
    (allow_contains : bool) :
  (normalization_result Transformer.normalize_column_name /\
   resolver_result Transformer.normalize_column_name (Transformer.find_column df)
     (Pd.columns df) candidates allow_contains) /\
  (normalization_result ExcelProcessor.norm /\
   resolver_result ExcelProcessor.norm (ExcelProcessor.get_col (Pd.columns df))
     (Pd.columns df) candidates allow_contains).
Proof.
  split; (split; [intros name; reflexivity|apply transformer_resolver]).
Qed.

Lemma find_column_resolves_witness :
  exists c,
    Transformer.find_column sample_headers ["TermCode"; "Term"] true = Some c /\
    In c (Pd.columns sample_headers) /\
    exists cand, In cand ["TermCode"; "Term"] /\
      substring_of (Transformer.normalize_column_name cand)
                   (Transformer.normalize_column_name c).
Proof.
  destruct (find_column_resolves sample_headers ["TermCode"; "Term"] true)
    as [[_ (_ & Hpartial & _)] _].
  apply Hpartial.
  - intros (c & Hc & cand & Hcand & E).
    simpl in Hc, Hcand.
    destruct Hc as [<-|[<-|[<-|[<-|[]]]]];
      destruct Hcand as [<-|[<-|[]]]; vm_compute in E; discriminate.
  - reflexivity.
  - exists "Term (Months)". split; [simpl; auto|].
    exists "Term". split; [simpl; auto|].
    exists "", "months". reflexivity.
Defined.

Example find_column_exact_first :
  Transformer.find_column sample_headers ["Price"; "Start Date"] true
  = Some "Start_Date".
Proof. reflexivity. Qed.

Example find_column_partial :
  Transformer.find_column sample_headers ["Price"; "Rate"] true
  = Some "Matrix Price"
  /\ Transformer.find_column sample_headers ["Price"; "Rate"] false = None.
Proof. split; reflexivity. Qed.

(** ** Worksheet lemmas *)

Section worksheet.
Context `{Library}.
Implicit Types (ws : Xl.Worksheet) (r c : nat) (v : value).

Lemma cell_insert ws r c cl r' c' :
  Xl.cell (<[(r, c) := cl]> ws) r' c'
  = if decide ((r, c) = (r', c')) then cl else Xl.cell ws r' c'.
Proof.
  unfold Xl.cell. rewrite lookup_insert. by destruct (decide _).
Qed.

Lemma cell_write ws r c v r' c' :
  Xl.cell (Xl.write ws r c v) r' c'
  = if decide ((r, c) = (r', c')) then assigned (Xl.cell ws r c) v
    else Xl.cell ws r' c'.
Proof.
  unfold Xl.write, assigned. destruct v; rewrite cell_insert; done.
Qed.

Lemma cell_write_other_row ws r c v r' c' :
  r' <> r -> Xl.cell (Xl.write ws r c v) r' c' = Xl.cell ws r' c'.
Proof. intros Hr. rewrite cell_write. destruct (decide _); [congruence|done]. Qed.

Lemma cell_touch ws r c r' c' : Xl.cell (Xl.touch ws r c) r' c' = Xl.cell ws r' c'.
Proof.
  unfold Xl.touch. rewrite cell_insert.
  destruct (decide _) as [[= -> ->]|]; done.
Qed.

Lemma cell_set_number_format ws r c f r' c' :
  Xl.cell (Xl.set_number_format ws r c f) r' c'
  = if decide ((r, c) = (r', c'))
    then {| Xl.value_of := Xl.value_of (Xl.cell ws r c); Xl.number_format := f;
            Xl.alignment := Xl.alignment (Xl.cell ws r c) |}
    else Xl.cell ws r' c'.
Proof. unfold Xl.set_number_format. by rewrite cell_insert. Qed.

Lemma cell_set_alignment ws r c h r' c' :
  Xl.cell (Xl.set_alignment ws r c h) r' c'
  = if decide ((r, c) = (r', c'))
    then {| Xl.value_of := Xl.value_of (Xl.cell ws r c);
            Xl.number_format := Xl.number_format (Xl.cell ws r c);
            Xl.alignment := Some h |}
    else Xl.cell ws r' c'.
Proof. unfold Xl.set_alignment. by rewrite cell_insert. Qed.

End worksheet.

Section master_formats.
Context `{Library}.
Implicit Types (ws : Xl.Worksheet) (r c : nat).

(** One turn of the loop of [apply_master_formats]. *)
Let format_step r ws c :=
  let col_letter := Xl.get_column_letter c in
  let fmt := Py.dict_get col_letter ExcelProcessor.MASTER_FORMATS in
  let ws := Xl.touch ws r c in
  let ws :=
    match fmt with
    | Some f => if String.eqb f "" then ws else Xl.set_number_format ws r c f
    | None => ws
    end in
  if (c =? 6)%nat then Xl.set_alignment ws r c "right" else ws.

Let formatted (cl : Xl.Cell) c : Xl.Cell :=
  {| Xl.value_of := Xl.value_of cl;
     Xl.number_format := default (Xl.number_format cl) (master_format c);
     Xl.alignment := if (c =? 6)%nat then Some "right" else Xl.alignment cl |}.

Lemma format_step_cell r ws c r' c' :
  Xl.cell (format_step r ws c) r' c'
  = if decide ((r, c) = (r', c')) then formatted (Xl.cell ws r c) c
    else Xl.cell ws r' c'.
Proof.
  unfold format_step, formatted, master_format.
  destruct (Py.dict_get _ _) as [f|]; [destruct (String.eqb f "")|];
    destruct (c =? 6)%nat; simpl;
    rewrite ?cell_set_alignment, ?cell_set_number_format, ?cell_touch;
    destruct (decide ((r, c) = (r', c'))) as [[= <- <-]|Hne];
    rewrite ?cell_set_number_format, ?cell_touch;
    try destruct (decide ((r, c) = (r, c))); simpl; try done.
  all: by destruct (Xl.cell ws r c).
Qed.

Lemma format_fold_cell r cs ws r' c' :
  NoDup cs ->
  Xl.cell (fold_left (format_step r) cs ws) r' c'
  = if decide (r' = r /\ c' ∈ cs) then formatted (Xl.cell ws r c') c'
    else Xl.cell ws r' c'.
Proof.
  intros Hnd. revert ws. induction Hnd as [|c cs Hc Hnd IH]; intros ws; simpl.
  - destruct (decide _) as [[_ Hin]|]; [|done]. by apply elem_of_nil in Hin.
  - rewrite IH, !format_step_cell.
    destruct (decide (r' = r /\ c' ∈ cs)) as [[-> Hin]|Hno].
    + destruct (decide ((r, c) = (r, c'))) as [[= ->]|_]; [done|].
      destruct (decide _) as [_|Hn]; [done|].
      exfalso. apply Hn. split; [done|]. by apply elem_of_cons; right.
    + destruct (decide ((r, c) = (r', c'))) as [[= -> ->]|Hne].
      * destruct (decide _) as [_|Hn]; [done|].
        exfalso. apply Hn. split; [done|]. by apply elem_of_cons; left.
      * destruct (decide _) as [[-> Hin]|_]; [|done].
        apply elem_of_cons in Hin as [->|Hin]; [done|].
        exfalso. by apply Hno.
Qed.

(** [apply_master_formats] gives every cell of columns A..Q of its row the
    master format of its column and right-aligns column F; it changes no
    value and no other cell. *)
Lemma cell_apply_master_formats ws r r' c' :
  Xl.cell (ExcelProcessor.apply_master_formats ws r) r' c'
  = if decide (r' = r) then master_cell (Xl.cell ws r c') c'
    else Xl.cell ws r' c'.
Proof.
  unfold ExcelProcessor.apply_master_formats.
  change (Xl.cell (fold_left (format_step r) (Py.range 1 (17 + 1)) ws) r' c' = 
          if decide (r' = r) then master_cell (Xl.cell ws r c') c'
          else Xl.cell ws r' c').
  rewrite format_fold_cell by apply NoDup_seq.
  unfold master_cell, Py.range.
  destruct (decide (r' = r)) as [->|Hr].
  - destruct ((1 <=? c') && (c' <=? 17))%nat eqn:E.
    + destruct (decide _) as [_|Hn]; [done|]. exfalso. apply Hn. split; [done|].
      apply andb_true_iff in E as [E1 E2].
      apply Nat.leb_le in E1, E2. apply list_elem_of_In, in_seq. simpl. lia.
    + destruct (decide _) as [[_ Hin]|_]; [|done].
      apply list_elem_of_In, in_seq in Hin. simpl in Hin.
      apply andb_false_iff in E as [E|E]; apply Nat.leb_gt in E; lia.
  - destruct (decide _) as [[? _]|_]; done.
Qed.

End master_formats.

(** ** Rows appended one below the other *)

Section appended_rows.
Context `{Library}.
Implicit Types (ws : Xl.Worksheet) (r c : nat).

Lemma fold_left_ext_in {A B} (f g : A -> B -> A) l a :
  (forall a x, In x l -> f a x = g a x) -> fold_left f l a = fold_left g l a.
Proof.
  revert a. induction l as [|x l IH]; intros a Hfg; simpl; [done|].
  rewrite Hfg by (by left). apply IH. intros. apply Hfg. by right.
Qed.

(** Values assigned to the columns from [k + 2] on. *)
Lemma cell_write_values {X} (g : X -> option value) ws r xs k r' c' :
  Xl.cell (fold_left (fun ws '(i, x) =>
                        match g x with
                        | Some v => Xl.write ws r (i + 2) v
                        | None => ws
                        end)
                     (combine (seq k (length xs)) xs) ws) r' c'
  = if decide (r' = r) then
      match (if (k + 2 <=? c')%nat then xs !! (c' - (k + 2))%nat else None) with
      | Some x => match g x with
                  | Some v => assigned (Xl.cell ws r c') v
                  | None => Xl.cell ws r c'
                  end
      | None => Xl.cell ws r c'
      end
    else Xl.cell ws r' c'.
Proof.
  revert k ws. induction xs as [|x xs IH]; intros k ws; simpl.
  - destruct (decide _) as [->|]; [|done]. by destruct (k + 2 <=? c')%nat.
  - rewrite IH. destruct (decide (r' = r)) as [->|Hr].
    + destruct (Nat.eq_dec c' (k + 2)%nat) as [->|Hc].
      * replace (S k + 2 <=? k + 2)%nat with false
          by (symmetry; apply Nat.leb_gt; lia).
        rewrite Nat.leb_refl, Nat.sub_diag. simpl.
        destruct (g x) as [v|]; [|done].
        rewrite cell_write. by destruct (decide _).
      * assert (Hsame : Xl.cell (match g x with
                                           | Some v => Xl.write ws r (k + 2)%nat v
                                           | None => ws
                                           end) r c' = Xl.cell ws r c').
        { destruct (g x); [|done]. rewrite cell_write.
          destruct (decide _) as [[= E]|]; [lia|done]. }
        rewrite Hsame.
        destruct (S k + 2 <=? c')%nat eqn:E1.
        -- apply Nat.leb_le in E1.
           replace (k + 2 <=? c')%nat with true by (symmetry; apply Nat.leb_le; lia).
           replace (c' - (k + 2))%nat with (S (c' - (S k + 2))) by lia. done.
        -- apply Nat.leb_gt in E1.
           replace (k + 2 <=? c')%nat with false by (symmetry; apply Nat.leb_gt; lia).
           done.
    + destruct (g x); [|done]. by rewrite cell_write_other_row.
Qed.

Lemma cell_write_template_row ws r id values r' c' :
  Xl.cell (ExcelProcessor.write_template_row ws r id values) r' c'
  = if decide (r' = r)
    then appended_cell (Xl.cell ws r c') id (Some <$> values) c'
    else Xl.cell ws r' c'.
Proof.
  unfold ExcelProcessor.write_template_row, Py.enumerate.
  etrans; [apply (cell_write_values Some)|].
  rewrite !cell_apply_master_formats.
  destruct (decide (r' = r)) as [->|Hr].
  - destruct (decide (r = r)) as [_|?]; [|done].
    rewrite cell_write. unfold appended_cell. rewrite list_lookup_fmap.
    change (0 + 2 <=? c')%nat with (2 <=? c')%nat.
    change (0 + 2)%nat with 2%nat.
    destruct (decide ((r, 1%nat) = (r, c'))) as [[= <-]|Hne].
    + simpl. done.
    + replace (c' =? 1)%nat with false
        by (symmetry; apply Nat.eqb_neq; congruence).
      destruct (2 <=? c')%nat; [|done]. by destruct (values !! _).
  - destruct (decide (r' = r)); [done|]. by rewrite cell_write_other_row.
Qed.

Lemma cell_write_master_row cols ws r id row r' c' :
  Xl.cell (ExcelProcessor.write_master_row cols ws r id row) r' c'
  = if decide (r' = r)
    then appended_cell (Xl.cell ws r c') id (master_values cols row) c'
    else Xl.cell ws r' c'.
Proof.
  unfold ExcelProcessor.write_master_row, Py.enumerate.
  rewrite (fold_left_ext_in _
             (fun ws '(i, h) =>
                match (if Pd.mem h cols then Some (Pd.cell cols h row) else None) with
                | Some v => Xl.write ws r (i + 2) v
                | None => ws
                end)) by (intros ? [? h] _; by destruct (Pd.mem h cols)).
  rewrite (cell_write_values
             (fun h => if Pd.mem h cols then Some (Pd.cell cols h row) else None)),
    !cell_apply_master_formats.
  destruct (decide (r' = r)) as [->|Hr].
  - destruct (decide (r = r)) as [_|?]; [|done].
    rewrite cell_write. unfold appended_cell, master_values.
    rewrite list_lookup_fmap.
    change (0 + 2 <=? c')%nat with (2 <=? c')%nat.
    change (0 + 2)%nat with 2%nat.
    destruct (decide ((r, 1%nat) = (r, c'))) as [[= <-]|Hne].
    + simpl. done.
    + replace (c' =? 1)%nat with false
        by (symmetry; apply Nat.eqb_neq; congruence).
      destruct (2 <=? c')%nat; [|done].
      destruct (ExcelProcessor.MASTER_HEADERS !! _) as [h|]; [|done]. simpl.
      by destruct (Pd.mem h cols).
  - by rewrite cell_write_other_row.
Qed.

End appended_rows.

Section row_sequences.
Context `{Library} {X : Type}.
Variable W : Xl.Worksheet -> nat -> Z -> X -> Xl.Worksheet.
Variable offered : X -> list (option value).
Hypothesis W_cell : forall ws r id x r' c',
  Xl.cell (W ws r id x) r' c'
  = if decide (r' = r) then appended_cell (Xl.cell ws r c') id (offered x) c'
    else Xl.cell ws r' c'.

(** The sheet after a run of appended rows, cell by cell: row [r0 + j]
    holds the [j]-th row with identifier [id0 + j]; all other rows are as
    before. *)
Lemma write_rows_cell xs r0 id0 ws r c :
  Xl.cell (write_rows W r0 id0 xs ws) r c
  = match (if (r0 <=? r)%nat then xs !! (r - r0)%nat else None) with
    | Some x => appended_cell (Xl.cell ws r c) (id0 + Z.of_nat (r - r0)) (offered x) c
    | None => Xl.cell ws r c
    end.
Proof.
  revert r0 id0 ws. induction xs as [|x xs IH]; intros r0 id0 ws; simpl.
  - by destruct (r0 <=? r)%nat.
  - rewrite IH, W_cell. destruct (decide (r = r0)) as [->|Hr].
    + replace (S r0 <=? r0)%nat with false by (symmetry; apply Nat.leb_gt; lia).
      rewrite Nat.leb_refl, Nat.sub_diag. simpl. by rewrite Z.add_0_r.
    + destruct (S r0 <=? r)%nat eqn:E.
      * apply Nat.leb_le in E.
        replace (r0 <=? r)%nat with true by (symmetry; apply Nat.leb_le; lia).
        replace (r - r0)%nat with (S (r - S r0)) by lia. simpl.
        destruct (xs !! _); [|done]. f_equal. lia.
      * apply Nat.leb_gt in E.
        replace (r0 <=? r)%nat with false by (symmetry; apply Nat.leb_gt; lia).
        done.
Qed.

(** The loop over [enumerate(rows)] writes the rows one below the other. *)
Lemma fold_enumerate_write_rows xs r0 id0 k ws :
  fold_left (fun ws '(i, x) => W ws (r0 + i)%nat (id0 + Z.of_nat i) x)
            (combine (seq k (length xs)) xs) ws
  = write_rows W (r0 + k)%nat (id0 + Z.of_nat k) xs ws.
Proof.
  revert k ws. induction xs as [|x xs IH]; intros k ws; simpl; [done|].
  rewrite IH. f_equal; lia.
Qed.

Lemma fold_counting {A B} (f : A -> B -> A) (l : list B) a n :
  fold_left (fun '(a, n) x => (f a x, (n + 1)%nat)) l (a, n)
  = (fold_left f l a, (n + length l)%nat).
Proof.
  revert a n. induction l as [|x l IH]; intros a n; simpl.
  - f_equal. lia.
  - rewrite IH. f_equal. lia.
Qed.

End row_sequences.

(** ** First unused row and next identifier *)

Section locate.
Implicit Types (ws : Xl.Worksheet).

Lemma max_row_pos ws : (1 <= Xl.max_row ws)%nat.
Proof.
  unfold Xl.max_row.
  apply (map_fold_weak_ind (fun m _ => (1 <= m)%nat)); [lia|].
  intros. lia.
Qed.

Lemma find_seq_first (f : nat -> bool) a n r :
  List.find f (seq a n) = Some r ->
  (a <= r < a + n)%nat /\ f r = true /\ forall x, (a <= x < r)%nat -> f x = false.
Proof.
  revert a. induction n as [|n IH]; intros a; simpl; [done|].
  destruct (f a) eqn:E.
  - intros [= <-]. repeat split; [lia|lia|done|]. intros x Hx. lia.
  - intros Hf. destruct (IH _ Hf) as (Hr & Hfr & Hbelow).
    repeat split; [lia|lia|done|].
    intros x Hx. destruct (Nat.eq_dec x a) as [->|]; [done|]. apply Hbelow. lia.
Qed.

Lemma find_seq_none (f : nat -> bool) a n :
  List.find f (seq a n) = None -> forall x, (a <= x < a + n)%nat -> f x = false.
Proof. intros Hf x Hx. apply (find_none _ _ Hf). apply in_seq. lia. Qed.

Lemma find_first_blank_row_spec ws :
  first_unused_row ws (ExcelProcessor.find_first_blank_row ws).
Proof.
  unfold first_unused_row, ExcelProcessor.find_first_blank_row, Py.range.
  pose proof (max_row_pos ws) as Hmax.
  destruct (List.find _ _) as [r0|] eqn:E; simpl.
  - apply find_seq_first in E as (Hr & Hb & Hbelow).
    split; [lia|]. split; [left; split; [lia|done]|]. done.
  - split; [lia|]. split; [by right|].
    intros r Hr. apply (find_seq_none _ _ _ E). lia.
Qed.

Lemma first_blank_row_ge_2 ws : (2 <= ExcelProcessor.find_first_blank_row ws)%nat.
Proof. apply find_first_blank_row_spec. Qed.

Lemma max_id_fold (g : nat -> option Z) rs m0 :
  let m := fold_left (fun max_id r => match g r with
                                      | Some vi => if vi >? max_id then vi else max_id
                                      | None => max_id
                                      end) rs m0 in
  m0 <= m /\
  (forall r z, In r rs -> g r = Some z -> z <= m) /\
  (m = m0 \/ exists r, In r rs /\ g r = Some m).
Proof.
  revert m0. induction rs as [|r rs IH]; intros m0; simpl.
  - split; [lia|]. split; [by intros ? ? []|by left].
  - set (m1 := match g r with
               | Some vi => if vi >? m0 then vi else m0
               | None => m0
               end).
    destruct (IH m1) as (Hle & Hall & Hex).
    assert (Hm1 : m0 <= m1 /\ (forall z, g r = Some z -> z <= m1) /\
                  (m1 = m0 \/ g r = Some m1)).
    { unfold m1. destruct (g r) as [vi|]; [|by repeat split; [lia|done|left]].
      destruct (Z.gtb_spec vi m0).
      - repeat split; [lia| |by right]. intros z [= ->]. lia.
      - repeat split; [lia| |by left]. intros z [= ->]. lia. }
    destruct Hm1 as (H0 & Hr & Hor).
    split; [lia|]. split.
    + intros r' z [<-|Hin] Hg; [specialize (Hr z Hg); lia|eauto].
    + destruct Hex as [->|(r' & Hin & Hg)].
      * destruct Hor as [->|Hg]; [by left|right; exists r; auto].
      * right. exists r'. auto.
Qed.

Lemma get_next_id_spec ws : next_identifier ws (ExcelProcessor.get_next_id ws).
Proof.
  unfold next_identifier, ExcelProcessor.get_next_id, ExcelProcessor.max_id_of.
  replace (fold_left _ _ _ + 1 - 1) with
    (fold_left (fun max_id r =>
                  match ExcelProcessor.int_of_number (Xl.value_of (Xl.cell ws r 1)) with
                  | Some vi => if vi >? max_id then vi else max_id
                  | None => max_id
                  end) (Py.range 2 (Xl.max_row ws + 1)) 0) by lia.
  destruct (max_id_fold
              (fun r => ExcelProcessor.int_of_number (Xl.value_of (Xl.cell ws r 1)))
              (Py.range 2 (Xl.max_row ws + 1)) 0) as (Hle & Hall & Hex).
  pose proof (max_row_pos ws) as Hmax.
  split; [done|]. split.
  - intros r z Hr. apply Hall. apply in_seq. lia.
  - destruct Hex as [E|(r & Hin & Hg)]; [by left|right].
    exists r. split; [|done]. apply in_seq in Hin. lia.
Qed.

End locate.

(** ** The two append loops *)

Section append_loops.
Context `{Library}.
Implicit Types (ws : Xl.Worksheet).

Lemma append_master_rows_eq df ws :
  ExcelProcessor.append_master_rows df ws
  = (write_rows (ExcelProcessor.write_master_row (Pd.columns df))
       (ExcelProcessor.find_first_blank_row ws) (ExcelProcessor.get_next_id ws)
       (Pd.values (Pd.rows df)) ws,
     Pd.len df).
Proof.
  unfold ExcelProcessor.append_master_rows.
  pose proof (first_blank_row_ge_2 ws) as Hr0.
  replace (ExcelProcessor.find_first_blank_row ws =? 0)%nat with false
    by (symmetry; apply Nat.eqb_neq; lia).
  set (r0 := ExcelProcessor.find_first_blank_row ws).
  set (id0 := ExcelProcessor.get_next_id ws).
  rewrite (fold_left_ext_in _
             (fun '(a, n) x =>
                ((fun ws '(i, row) =>
                    ExcelProcessor.write_master_row (Pd.columns df) ws (r0 + i)%nat
                      (id0 + Z.of_nat i) row) a x, (n + 1)%nat)))
    by (by intros [? ?] [? ?]).
  rewrite fold_counting. unfold Py.enumerate.
  rewrite (fold_enumerate_write_rows
             (ExcelProcessor.write_master_row (Pd.columns df))).
  f_equal.
  - f_equal; lia.
  - unfold Pd.len, Pd.values.
    rewrite length_combine, length_seq, !length_map. lia.
Qed.

Lemma template_loop ws_src src_map rs st :
  let rows := template_rows ws_src src_map rs in
  fold_left
    (fun st r =>
       let values := ExcelProcessor.template_values ws_src src_map r in
       let all_empty := forallb Py.is_blank values in
       if all_empty then st
       else
         {| ExcelProcessor.st_sheet :=
              ExcelProcessor.write_template_row (ExcelProcessor.st_sheet st)
                (ExcelProcessor.st_write_row st) (ExcelProcessor.st_next_id st) values;
            ExcelProcessor.st_write_row := (ExcelProcessor.st_write_row st + 1)%nat;
            ExcelProcessor.st_next_id := ExcelProcessor.st_next_id st + 1;
            ExcelProcessor.st_rows_appended :=
              (ExcelProcessor.st_rows_appended st + 1)%nat |})
    rs st
  = {| ExcelProcessor.st_sheet :=
         write_rows ExcelProcessor.write_template_row
           (ExcelProcessor.st_write_row st) (ExcelProcessor.st_next_id st) rows
           (ExcelProcessor.st_sheet st);
       ExcelProcessor.st_write_row := (ExcelProcessor.st_write_row st + length rows)%nat;
       ExcelProcessor.st_next_id := ExcelProcessor.st_next_id st + Z.of_nat (length rows);
       ExcelProcessor.st_rows_appended :=
         (ExcelProcessor.st_rows_appended st + length rows)%nat |}.
Proof.
  revert st. induction rs as [|r rs IH]; intros st.
  - destruct st; simpl. f_equal; lia.
  - unfold template_rows in *. cbn [fold_left map List.filter].
    destruct (forallb Py.is_blank (ExcelProcessor.template_values ws_src src_map r));
      cbn [negb].
    + apply IH.
    + rewrite IH. cbn [write_rows length ExcelProcessor.st_sheet
                       ExcelProcessor.st_write_row ExcelProcessor.st_next_id
                       ExcelProcessor.st_rows_appended].
      rewrite (Nat.add_1_r (ExcelProcessor.st_write_row st)) at 1.
      f_equal; lia.
Qed.

Lemma append_template_rows_eq ws_src header_row src_map ws :
  let rows := template_rows ws_src src_map
                (Py.range (header_row + 1) (Xl.max_row ws_src + 1)) in
  ExcelProcessor.append_template_rows ws_src header_row src_map ws
  = {| ExcelProcessor.st_sheet :=
         write_rows ExcelProcessor.write_template_row
           (ExcelProcessor.find_first_blank_row ws) (ExcelProcessor.get_next_id ws)
           rows ws;
       ExcelProcessor.st_write_row :=
         (ExcelProcessor.find_first_blank_row ws + length rows)%nat;
       ExcelProcessor.st_next_id :=
         ExcelProcessor.get_next_id ws + Z.of_nat (length rows);
       ExcelProcessor.st_rows_appended := length rows |}.
Proof.
  unfold ExcelProcessor.append_template_rows. by rewrite template_loop.
Qed.

(** In an appended row, column A holds the identifier and each later
    column the value offered to it. *)
Lemma appended_cell_id old id vs :
  Xl.value_of (appended_cell old id vs 1) = VInt id.
Proof. reflexivity. Qed.

Lemma appended_cell_value old id vs i v :
  vs !! i = Some (Some v) -> v <> VNone ->
  Xl.value_of (appended_cell old id vs (i + 2)) = v.
Proof.
  intros Hv Hne. unfold appended_cell.
  replace (2 <=? i + 2)%nat with true by (symmetry; apply Nat.leb_le; lia).
  replace (i + 2 - 2)%nat with i by lia. rewrite Hv.
  unfold assigned. by destruct v.
Qed.

Lemma write_rows_appended_at {X} (W : Xl.Worksheet -> nat -> Z -> X -> Xl.Worksheet)
    (offered : X -> list (option value)) (values : X -> list value)
    xs r0 id0 ws :
  (forall ws r id x r' c',
     Xl.cell (W ws r id x) r' c'
     = if decide (r' = r) then appended_cell (Xl.cell ws r c') id (offered x) c'
       else Xl.cell ws r' c') ->
  (forall x i v, values x !! i = Some v -> v <> VNone ->
                 offered x !! i = Some (Some v)) ->
  rows_appended_at (write_rows W r0 id0 xs ws) r0 id0 (values <$> xs).
Proof.
  intros HW Hoff j vs Hj.
  rewrite list_lookup_fmap in Hj.
  destruct (xs !! j) as [x|] eqn:Ex; [|done]. injection Hj as <-.
  assert (Hrow : forall c, Xl.cell (write_rows W r0 id0 xs ws) (r0 + j) c
                 = appended_cell (Xl.cell ws (r0 + j) c) (id0 + Z.of_nat j)
                     (offered x) c).
  { intros c. rewrite (write_rows_cell W offered HW).
    replace (r0 <=? r0 + j)%nat with true by (symmetry; apply Nat.leb_le; lia).
    replace (r0 + j - r0)%nat with j by lia. by rewrite Ex. }
  split.
  - by rewrite Hrow.
  - intros i v Hv Hne. rewrite Hrow. apply appended_cell_value; auto.
Qed.

End append_loops.

(** C2, as amended.  On every destination sheet the append starts at the
    first row from 2 on whose column-A cell is [None] or the empty string,
    or at [max_row + 1] when there is none; the next identifier is one plus
    the largest of 0 and the integers [int(v)] of the numeric cells of
    column A in rows 2..max_row; [append_from_template] writes one row per
    non-empty source row, in source order, with the identifiers
    [next_id], [next_id + 1], ... in column A; and [a] writes one row per
    row of its frame with the same identifiers. *)
Theorem append_locates_first_unused_row_and_identifier `{Library}
    (ws_dst ws_src : Xl.Worksheet) (header_row : nat) (src_map : Py.dict nat)
    (master_df : Pd.DataFrame) :
  let r0 := ExcelProcessor.find_first_blank_row ws_dst in
  let n0 := ExcelProcessor.get_next_id ws_dst in
  first_unused_row ws_dst r0 /\
  next_identifier ws_dst n0 /\
  (let st := ExcelProcessor.append_template_rows ws_src header_row src_map ws_dst in
   let rows := template_rows ws_src src_map
                 (Py.range (header_row + 1) (Xl.max_row ws_src + 1)) in
   ExcelProcessor.st_rows_appended st = length rows /\
   rows_appended_at (ExcelProcessor.st_sheet st) r0 n0 rows) /\
  (let res := ExcelProcessor.append_master_rows master_df ws_dst in
   snd res = Pd.len master_df /\
   forall j, (j < Pd.len master_df)%nat ->
     Xl.value_of (Xl.cell (fst res) (r0 + j) 1) = VInt (n0 + Z.of_nat j)).
Proof.
  intros r0 n0.
  split; [apply find_first_blank_row_spec|].
  split; [apply get_next_id_spec|].
  split.
  - rewrite append_template_rows_eq. cbn zeta. simpl ExcelProcessor.st_rows_appended.
    split; [done|]. simpl ExcelProcessor.st_sheet.
    set (rows := template_rows _ _ _).
    rewrite <- (list_fmap_id rows) at 2.
    apply (write_rows_appended_at ExcelProcessor.write_template_row (fmap Some) id).
    + intros. apply cell_write_template_row.
    + intros x i v Hv _. unfold id in Hv. by rewrite list_lookup_fmap, Hv.
  - rewrite append_master_rows_eq. cbn zeta. simpl fst. simpl snd.
    split; [done|].
    intros j Hj.
    rewrite (write_rows_cell _ (master_values (Pd.columns master_df))
               (cell_write_master_row (Pd.columns master_df))).
    fold r0.
    replace (r0 <=? r0 + j)%nat with true by (symmetry; apply Nat.leb_le; lia).
    replace (r0 + j - r0)%nat with j by lia.
    unfold Pd.len, Pd.values in *.
    destruct (lookup_lt_is_Some_2 (map snd (Pd.rows master_df)) j) as [row Hrow];
      [by rewrite length_map|].
    rewrite Hrow. apply appended_cell_id.
Qed.

Lemma append_locates_first_unused_row_and_identifier_witness :
  ExcelProcessor.find_first_blank_row sample_master = 4%nat /\
  ExcelProcessor.get_next_id sample_master = 3 /\
  first_unused_row sample_master 4 /\
  next_identifier sample_master 3 /\
  rows_appended_at
    (ExcelProcessor.st_sheet
       (@ExcelProcessor.append_template_rows sample_library sample_template 1
          (ExcelProcessor.build_source_mapping sample_template 1) sample_master))
    4 3
    (template_rows sample_template (ExcelProcessor.build_source_mapping sample_template 1)
       (Py.range 2 (Xl.max_row sample_template + 1))).
Proof.
  pose proof (@append_locates_first_unused_row_and_identifier sample_library
                sample_master sample_template 1
                (ExcelProcessor.build_source_mapping sample_template 1)
                sample_sheet) as (Hrow & Hid & [_ Hrows] & _).
  split; [by vm_compute|]. split; [by vm_compute|].
  split; [exact Hrow|]. split; [exact Hid|]. exact Hrows.
Defined.

(** C2 as stated fails: with the single identifier -5 in column A the next
    identifier is 1, not one plus the maximum integer-valued cell. *)
Lemma next_identifier_counterexample :
  ~ (forall ws m, max_integer_cell ws m -> ExcelProcessor.get_next_id ws = 1 + m).
Proof.
  intros Hall.
  assert (Hmax : max_integer_cell negative_id_sheet (-5)).
  { split.
    - exists 2%nat. split; [by vm_compute|reflexivity].
    - intros r z Hr. change (Xl.max_row negative_id_sheet) with 2%nat in Hr.
      assert (r = 2%nat) as -> by lia.
      change (Xl.value_of (Xl.cell negative_id_sheet 2 1)) with (VInt (-5)).
      intros [= <-]. lia. }
  specialize (Hall _ _ Hmax). vm_compute in Hall. discriminate Hall.
Qed.

(** C9.  Appending by [append_from_template] or by [a] leaves every cell of
    every row above the insertion row, the header row included, as it was:
    its value, its number format and its alignment. *)
Theorem append_leaves_rows_above_untouched `{Library}
    (ws_dst ws_src : Xl.Worksheet) (header_row : nat) (src_map : Py.dict nat)
    (master_df : Pd.DataFrame) (r c : nat) :
  (r < ExcelProcessor.find_first_blank_row ws_dst)%nat ->
  Xl.cell (ExcelProcessor.st_sheet
             (ExcelProcessor.append_template_rows ws_src header_row src_map ws_dst))
          r c = Xl.cell ws_dst r c /\
  Xl.cell (fst (ExcelProcessor.append_master_rows master_df ws_dst)) r c
    = Xl.cell ws_dst r c /\
  (forall ws' n, ExcelProcessor.append_from_template ws_src ws_dst = Some (ws', n) ->
                 Xl.cell ws' r c = Xl.cell ws_dst r c) /\
  (forall df' ws' n, ExcelProcessor.a master_df ws_dst = Some (df', ws', n) ->
                     Xl.cell ws' r c = Xl.cell ws_dst r c).
Proof.
  intros Hr.
  assert (Htemplate : forall hr sm,
            Xl.cell (ExcelProcessor.st_sheet
                       (ExcelProcessor.append_template_rows ws_src hr sm ws_dst)) r c
            = Xl.cell ws_dst r c).
  { intros hr sm. rewrite append_template_rows_eq. simpl ExcelProcessor.st_sheet.
    rewrite (write_rows_cell _ (fmap Some) cell_write_template_row).
    by replace (ExcelProcessor.find_first_blank_row ws_dst <=? r)%nat with false
      by (symmetry; apply Nat.leb_gt; lia). }
  assert (Hmaster : forall df,
            Xl.cell (fst (ExcelProcessor.append_master_rows df ws_dst)) r c
            = Xl.cell ws_dst r c).
  { intros df. rewrite append_master_rows_eq. simpl fst.
    rewrite (write_rows_cell _ (master_values (Pd.columns df))
               (cell_write_master_row (Pd.columns df))).
    by replace (ExcelProcessor.find_first_blank_row ws_dst <=? r)%nat with false
      by (symmetry; apply Nat.leb_gt; lia). }
  split; [apply Htemplate|]. split; [apply Hmaster|]. split.
  - intros ws' n. unfold ExcelProcessor.append_from_template.
    destruct (List.filter _ _); [|done].
    destruct (_ =? 0)%nat; intros [= <- <-]; [done|apply Htemplate].
  - intros df' ws' n. unfold ExcelProcessor.a.
    destruct (_ || _); [by intros [= <- <- <-]|].
    destruct (ExcelProcessor.scale_column master_df _) as [df1|]; [|done]. simpl.
    destruct (ExcelProcessor.scale_column df1 _) as [df2|]; [|done]. simpl.
    specialize (Hmaster df2).
    destruct (ExcelProcessor.append_master_rows df2 ws_dst) as [ws2 n2].
    by intros [= <- <- <-].
Qed.

Lemma append_leaves_rows_above_untouched_witness :
  Xl.cell (ExcelProcessor.st_sheet
             (@ExcelProcessor.append_template_rows sample_library sample_template 1
                (ExcelProcessor.build_source_mapping sample_template 1) sample_master))
          3 4 = text_cell "SOUTH".
Proof.
  destruct (@append_leaves_rows_above_untouched sample_library sample_master
              sample_template 1 (ExcelProcessor.build_source_mapping sample_template 1)
              sample_sheet 3 4) as [Hcell _].
  - vm_compute. lia.
  - rewrite Hcell. reflexivity.
Defined.

(** ** Price rescaling *)

Section rescaling.
Context `{Library}.

Lemma position_Some c l k :
  Pd.position c l = Some k -> (k < length l)%nat /\ nth k l "" = c.
Proof.
  revert k. induction l as [|x l IH]; intros k; simpl; [done|].
  destruct (String.eqb x c) eqn:E.
  - intros [= <-]. apply String.eqb_eq in E. split; [lia|done].
  - destruct (Pd.position c l) as [k'|]; [|done]. simpl. intros [= <-].
    destruct (IH k' eq_refl). split; [lia|done].
Qed.

Lemma position_In c l : In c l -> exists k, Pd.position c l = Some k.
Proof.
  induction l as [|x l IH]; simpl; [done|].
  destruct (String.eqb x c) eqn:E; [eauto|].
  intros [->|Hin]; [by rewrite String.eqb_refl in E|].
  destruct (IH Hin) as [k ->]. simpl. eauto.
Qed.

Lemma position_inj c c' l k :
  Pd.position c l = Some k -> Pd.position c' l = Some k -> c = c'.
Proof.
  intros [_ <-]%position_Some [_ <-]%position_Some. done.
Qed.

Lemma nth_set_nth_eq k v (r : list value) d :
  (k < length r)%nat -> nth k (Pd.set_nth k v r) d = v.
Proof.
  revert k. induction r as [|x r IH]; intros [|k] Hk; simpl in *; try lia; [done|].
  apply IH. lia.
Qed.

Lemma nth_set_nth_ne k k' v (r : list value) d :
  k <> k' -> nth k' (Pd.set_nth k v r) d = nth k' r d.
Proof.
  revert k k'. induction r as [|x r IH]; intros [|k] [|k'] Hk; simpl; try done.
  apply IH. lia.
Qed.

Lemma length_set_nth k v (r : list value) : length (Pd.set_nth k v r) = length r.
Proof.
  revert k. induction r as [|x r IH]; intros [|k]; simpl; try done. by rewrite IH.
Qed.

Lemma numeric_times_100 v :
  numeric v -> exists w, ExcelProcessor.times_100 v = Some w /\ hundredfold v w /\ numeric w.
Proof. destruct v; simpl; try done; eauto. Qed.

(** The frame with the numeric column at position [k] multiplied by 100. *)
Let scaled (k : nat) (df : Pd.DataFrame) : Pd.DataFrame :=
  {| Pd.columns := Pd.columns df;
     Pd.rows :=
       map (fun ir => (fst ir,
                       Pd.set_nth k (default VNaN
                                       (ExcelProcessor.times_100 (nth k (snd ir) VNaN)))
                                  (snd ir)))
           (Pd.rows df) |}.

Lemma scale_column_numeric df c k :
  Pd.position c (Pd.columns df) = Some k ->
  (forall ir, In ir (Pd.rows df) -> numeric (nth k (snd ir) VNaN)) ->
  ExcelProcessor.scale_column df c = Some (scaled k df).
Proof.
  intros Hk Hnum. unfold ExcelProcessor.scale_column, scaled. rewrite Hk.
  assert (E : mapM (fun '(i, r) =>
                      v ← ExcelProcessor.times_100 (nth k r VNaN);
                      Some (i, Pd.set_nth k v r)) (Pd.rows df)
              = Some (map (fun ir => (fst ir,
                             Pd.set_nth k (default VNaN
                               (ExcelProcessor.times_100 (nth k (snd ir) VNaN)))
                               (snd ir))) (Pd.rows df))).
  { induction (Pd.rows df) as [|[i r] l IH]; [done|].
    simpl. destruct (numeric_times_100 (nth k r VNaN)) as (w & Hw & _).
    { apply (Hnum (i, r)). by left. }
    rewrite Hw. simpl. rewrite IH; [done|].
    intros ir Hin. apply Hnum. by right. }
  by rewrite E.
Qed.

End rescaling.

Section rescaling_append.
Context `{Library}.

Lemma master_cell_value cl c : Xl.value_of (master_cell cl c) = Xl.value_of cl.
Proof. unfold master_cell. by destruct (_ && _). Qed.

Lemma appended_cell_none old id vs i :
  vs !! i = Some (Some VNone) ->
  Xl.value_of (appended_cell old id vs (i + 2)) = Xl.value_of old.
Proof.
  intros Hv. unfold appended_cell.
  replace (2 <=? i + 2)%nat with true by (symmetry; apply Nat.leb_le; lia).
  replace (i + 2 - 2)%nat with i by lia. rewrite Hv. simpl.
  replace (i + 2 =? 1)%nat with false by (symmetry; apply Nat.eqb_neq; lia).
  apply master_cell_value.
Qed.

Lemma cell_position cols h k row :
  Pd.position h cols = Some k -> Pd.cell cols h row = nth k row VNaN.
Proof. unfold Pd.cell. by intros ->. Qed.

Lemma hundredfold_not_None v w : hundredfold v w -> w <> VNone.
Proof. destruct v; simpl; try done; by intros ->. Qed.


End rescaling_append.


Example a_sample_prices :
  match @ExcelProcessor.a sample_library sample_master_frame sample_master with
  | Some (_, ws', n) =>
      n = 2%nat /\
      Xl.value_of (Xl.cell ws' 5 1) = VInt 4 /\
      Xl.value_of (Xl.cell ws' 5 10) = VFloat ((321 # 4) * 100) /\
      Xl.value_of (Xl.cell ws' 5 12) = VFloat ((321 # 4) * 100) /\
      Xl.value_of (Xl.cell ws' 5 7) = VInt 24 /\
      Xl.number_format (Xl.cell ws' 5 2) = "mm-dd-yy"
  | None => False
  end.
Proof. vm_compute. repeat split. Qed.

(** ** Schema mapper *)

Section schema_mapper.
Context `{Library}.

Lemma select_map {A} (f : A -> bool) (l : list A) :
  Pd.select (map f l) l = List.filter f l.
Proof. induction l as [|x l IH]; simpl; [done|]. rewrite IH. by destruct (f x). Qed.

Lemma select_In {A} (mask : list bool) (l : list A) x :
  In x (Pd.select mask l) -> In x l.
Proof.
  revert mask. induction l as [|y l IH]; intros [|b mask]; simpl; try done.
  destruct b; simpl; [intros [->|Hin]|intros Hin]; eauto.
Qed.

Lemma master_rows_blank n : master_rows false (Pd.blank n master_schema).
Proof.
  split; [done|]. intros ir Hin. simpl in Hin.
  apply in_map_iff in Hin as (i & <- & _). split; [done|discriminate].
Qed.

Lemma master_rows_update b (g : nat -> value) k out :
  master_rows b out -> (b = true -> k <> 6%nat) ->
  master_rows b {| Pd.columns := Pd.columns out;
                   Pd.rows := map (fun '(i, r) => (i, Pd.set_nth k (g i) r))
                                  (Pd.rows out) |}.
Proof.
  intros [Hcols Hrows] Hk. split; [done|].
  intros ir Hin. simpl in Hin. apply in_map_iff in Hin as ([i r] & <- & Hin).
  destruct (Hrows _ Hin) as [Hlen Hterm]. cbn [snd] in *.
  split; [by rewrite length_set_nth|].
  intros Hb. rewrite nth_set_nth_ne by auto. auto.
Qed.

Lemma position_term_only c k :
  Pd.position c master_schema = Some k -> c <> "Term" -> k <> 6%nat.
Proof.
  intros Hk Hc ->. apply Hc.
  by apply (position_inj c "Term" master_schema 6).
Qed.

Lemma master_rows_set_scalar b out c v :
  master_rows b out -> c <> "Term" -> master_rows b (Pd.set_scalar out c v).
Proof.
  intros Hout Hc. unfold Pd.set_scalar.
  destruct (Pd.position c (Pd.columns out)) as [k|] eqn:Ek; [|done].
  apply (master_rows_update b (fun _ => v)); [done|].
  intros _. destruct Hout as [Hcols _]. rewrite Hcols in Ek.
  by apply (position_term_only c).
Qed.

Lemma master_rows_set_series b out c s :
  master_rows b out -> c <> "Term" -> master_rows b (Pd.set_series out c s).
Proof.
  intros Hout Hc. unfold Pd.set_series.
  destruct (Pd.position c (Pd.columns out)) as [k|] eqn:Ek; [|done].
  apply (master_rows_update b (fun i => Pd.lookup_label i s)); [done|].
  intros _. destruct Hout as [Hcols _]. rewrite Hcols in Ek.
  by apply (position_term_only c).
Qed.

Lemma lookup_label_ok (P : value -> Prop) i s :
  P VNaN -> (forall iv, In iv s -> P (snd iv)) -> P (Pd.lookup_label i s).
Proof.
  intros Hnan. induction s as [|[j v] s IH]; intros Hall; simpl; [done|].
  destruct (Nat.eqb i j).
  - apply (Hall (j, v)). by left.
  - apply IH. intros iv Hin. apply Hall. by right.
Qed.

Lemma master_rows_set_term out s :
  master_rows false out ->
  (forall iv, In iv s -> term_or_missing (snd iv)) ->
  master_rows true (Pd.set_series out "Term" s).
Proof.
  intros [Hcols Hrows] Hs. unfold Pd.set_series. rewrite Hcols.
  change (Pd.position "Term" master_schema) with (Some 6%nat). cbv iota.
  split; [done|].
  intros ir Hin. cbn [Pd.rows] in Hin.
  apply in_map_iff in Hin as ([i r] & <- & Hin).
  destruct (Hrows _ Hin) as [Hlen _]. cbn [snd] in *.
  split; [by rewrite length_set_nth|]. intros _.
  rewrite nth_set_nth_eq by lia.
  apply lookup_label_ok; [by left|done].
Qed.

Lemma term_cell_ok (t : option Z) :
  (forall z, t = Some z -> In z [12; 24; 36; 48; 60]) ->
  term_or_missing (ExcelProcessor.term_cell t).
Proof.
  intros Ht. destruct t as [z|]; [right|by left].
  exists z. split; [done|]. by apply Ht.
Qed.

Lemma in_target_spec z :
  existsb (Z.eqb z) ExcelProcessor.TARGET_TERMS = true -> In z [12; 24; 36; 48; 60].
Proof.
  intros (x & Hx & E)%existsb_exists. apply Z.eqb_eq in E. by subst.
Qed.

Lemma term_to_int_target v z :
  ExcelProcessor.term_to_int v = Some z -> In z [12; 24; 36; 48; 60].
Proof.
  unfold ExcelProcessor.term_to_int.
  destruct (match v with
            | VBool b => Some (Py.int_of_bool b)
            | VInt z0 => Some z0
            | VFloat q => Some (Py.trunc q)
            | VStr s => match py_float s with
                        | Some (FFinite q) => Some (Py.trunc q)
                        | _ => None
                        end
            | _ => None
            end) as [iv|].
  - destruct (existsb _ _) eqn:E; [|done]. intros [= <-]. by apply in_target_spec.
  - destruct (PyStr.first_digit_run _) as [m|]; [|done].
    destruct (existsb _ _) eqn:E; [|done]. intros [= <-]. by apply in_target_spec.
Qed.

Lemma term_series_ok (s : Pd.Series) :
  forall iv,
    In iv (Pd.series_map (fun v => ExcelProcessor.term_cell (ExcelProcessor.term_to_int v)) s) ->
    term_or_missing (snd iv).
Proof.
  intros iv Hin. unfold Pd.series_map in Hin.
  apply in_map_iff in Hin as ([i v] & <- & _). simpl.
  apply term_cell_ok. intros z. apply term_to_int_target.
Qed.

(** The last step of the mapper: only the rows with a Term are kept. *)
Lemma keep_rows_with_term out :
  master_rows true out ->
  let res := Pd.getitem_mask out
               (map (fun v => negb (Py.isna v)) (Pd.values (Pd.getitem out "Term"))) in
  Pd.columns res = master_schema /\
  forall ir, In ir (Pd.rows res) ->
    length (snd ir) = 17%nat /\
    exists t, Pd.cell master_schema "Term" (snd ir) = VInt t /\
              In t [12; 24; 36; 48; 60].
Proof.
  intros [Hcols Hrows]. split; [done|].
  intros ir Hin. simpl in Hin.
  rewrite values_getitem_map, select_map in Hin.
  apply filter_In in Hin as [Hin Hna].
  destruct (Hrows _ Hin) as [Hlen Hterm]. split; [done|].
  rewrite Hcols in Hna.
  change (Pd.cell master_schema "Term" (snd ir)) with (nth 6 (snd ir) VNaN) in *.
  destruct (Hterm eq_refl) as [E|(t & E & Ht)].
  - by rewrite E in Hna.
  - eauto.
Qed.

End schema_mapper.

Section schema_mapper_result.
Context `{Library}.

Lemma select_nil {A} (mask : list bool) : Pd.select mask (@nil A) = [].
Proof. by destruct mask as [|[] ?]. Qed.

Lemma work_frame_empty df (c_prod : option string) (f : value -> bool) :
  Pd.rows df = [] ->
  Pd.len (match c_prod with
          | Some c_prod =>
              Pd.getitem_mask df (map f (Pd.values (Pd.getitem df c_prod)))
          | None => df
          end) = 0%nat.
Proof.
  intros Hrows. unfold Pd.len.
  destruct c_prod; simpl; rewrite Hrows; [by rewrite select_nil|done].
Qed.

Lemma empty_master_result (df : Pd.DataFrame) :
  Pd.columns (Pd.empty master_schema) = master_schema /\
  (forall ir, In ir (Pd.rows (Pd.empty master_schema)) ->
     length (snd ir) = 17%nat /\
     exists t, Pd.cell master_schema "Term" (snd ir) = VInt t /\
               In t [12; 24; 36; 48; 60]) /\
  (Pd.rows df = [] -> Pd.rows (Pd.empty master_schema) = []).
Proof. split; [done|]. split; [by intros ? []|done]. Qed.

Ltac mapper_step :=
  lazymatch goal with
  | |- master_rows _ (Pd.set_series _ "Term" _) =>
      apply master_rows_set_term; [|apply term_series_ok]
  | |- master_rows _ (Pd.set_series _ _ _) =>
      apply master_rows_set_series; [|discriminate]
  | |- master_rows _ (Pd.set_scalar _ _ _) =>
      apply master_rows_set_scalar; [|discriminate]
  | |- master_rows _ (Pd.blank _ _) => apply master_rows_blank
  | |- master_rows _ (match ?o with Some _ => _ | None => _ end) => destruct o
  end.

Ltac mapper_body Hwork :=
  match goal with
  | |- context [Py.is_none ?a && Py.is_none ?b] =>
      destruct (Py.is_none a && Py.is_none b); [apply empty_master_result|]
  end;
  repeat match goal with
         | |- context [match ?o with Some _ => _ | None => _ end] =>
             is_var o; destruct o; [|apply empty_master_result]
         end;
  match goal with
  | |- context [Py.is_none ?a && ?b] =>
      destruct (Py.is_none a && b); [apply empty_master_result|]
  end;
  match goal with
  | |- context [(Pd.len ?w =? 0)%nat] =>
      let Elen := fresh "Elen" in
      destruct (Pd.len w =? 0)%nat eqn:Elen; [apply empty_master_result|];
      apply Nat.eqb_neq in Elen;
      match goal with
      | |- Pd.columns (Pd.getitem_mask ?out _) = _ /\ _ =>
          let Hc := fresh "Hc" in
          let Hr := fresh "Hr" in
          destruct (keep_rows_with_term out) as [Hc Hr];
          [ repeat mapper_step
          | split; [exact Hc|split; [exact Hr|]];
            let Hrows := fresh "Hrows" in
            intros Hrows; exfalso; apply Elen, Hwork, Hrows ]
      end
  end.

Lemma processor_mapper_result df :
  master_schema_result ExcelProcessor.hda_matrix_to_master_cols df.
Proof.
  unfold master_schema_result, ExcelProcessor.hda_matrix_to_master_cols.
  cbv zeta.
  repeat match goal with
         | |- context [ExcelProcessor.get_col ?a ?b ?c] =>
             generalize (ExcelProcessor.get_col a b c); intro
         end.
  match goal with
  | |- context [Pd.len ?w] =>
      assert (Hwork : Pd.rows df = [] -> Pd.len w = 0%nat)
        by apply work_frame_empty;
      generalize dependent w; intros work_df Hwork
  end.
  mapper_body Hwork.
Qed.

Lemma transformer_mapper_result df :
  master_schema_result Transformer.transform_to_master_format df.
Proof.
  unfold master_schema_result, Transformer.transform_to_master_format.
  cbv zeta.
  repeat match goal with
         | |- context [Transformer.find_column ?a ?b ?c] =>
             generalize (Transformer.find_column a b c); intro
         end.
  match goal with
  | |- context [Pd.len ?w] =>
      assert (Hwork : Pd.rows df = [] -> Pd.len w = 0%nat)
        by apply work_frame_empty;
      generalize dependent w; intros work_df Hwork
  end.
  mapper_body Hwork.
Qed.

End schema_mapper_result.



Example hda_sample_rows :
  Pd.rows (@ExcelProcessor.hda_matrix_to_master_cols sample_library sample_matrix)
  = [(0%nat, [VNone; VDate "2026-11-04"; VDate "2024-01-01"; VStr "North Zone";
              VStr "LOW"; VStr "HUDSON"; VInt 12; VInt 0; VInt 1000;
              VFloat (inject_Z 50); VInt 0; VFloat (inject_Z 50); VInt 0; VInt 0;
              VInt 0; VInt 0; VInt 5])].
Proof. reflexivity. Qed.

(** ** Rows pasted from L..AA *)

Section pasted_rows.
Context `{Library} {X : Type}.
Implicit Types (ws : Xl.Worksheet).

(** A loop over [enumerate(xs)] whose turn [i] only touches the cell of
    column [i + 2] of row [r]. *)
Lemma cell_fold_columns (op : Xl.Worksheet -> nat -> X -> Xl.Worksheet)
    (T : Xl.Cell -> nat -> X -> Xl.Cell) r :
  (forall ws c x r' c',
     Xl.cell (op ws c x) r' c'
     = if decide ((r, c) = (r', c')) then T (Xl.cell ws r c) c x
       else Xl.cell ws r' c') ->
  forall xs k ws r' c',
    Xl.cell (fold_left (fun ws '(i, x) => op ws (i + 2)%nat x)
                       (combine (seq k (length xs)) xs) ws) r' c'
    = if decide (r' = r) then
        match (if (k + 2 <=? c')%nat then xs !! (c' - (k + 2))%nat else None) with
        | Some x => T (Xl.cell ws r c') c' x
        | None => Xl.cell ws r c'
        end
      else Xl.cell ws r' c'.
Proof.
  intros Hop xs. induction xs as [|x xs IH]; intros k ws r' c'; simpl.
  - destruct (decide _) as [->|]; [|done]. by destruct (k + 2 <=? c')%nat.
  - rewrite IH, !Hop. destruct (decide (r' = r)) as [->|Hr].
    + destruct (Nat.eq_dec c' (k + 2)%nat) as [->|Hc].
      * replace (S k + 2 <=? k + 2)%nat with false
          by (symmetry; apply Nat.leb_gt; lia).
        rewrite Nat.leb_refl, Nat.sub_diag. simpl.
        by destruct (decide _).
      * destruct (decide ((r, (k + 2)%nat) = (r, c'))) as [[= E]|_]; [lia|].
        destruct (S k + 2 <=? c')%nat eqn:E1.
        -- apply Nat.leb_le in E1.
           replace (k + 2 <=? c')%nat with true by (symmetry; apply Nat.leb_le; lia).
           replace (c' - (k + 2))%nat with (S (c' - (S k + 2))) by lia. done.
        -- apply Nat.leb_gt in E1.
           replace (k + 2 <=? c')%nat with false by (symmetry; apply Nat.leb_gt; lia).
           done.
    + destruct (decide ((r, (k + 2)%nat) = (r', c'))) as [[= E]|_]; [congruence|done].
Qed.

Variable W : Xl.Worksheet -> nat -> X -> Xl.Worksheet.
Variable R : Xl.Cell -> X -> nat -> Xl.Cell -> Prop.
Hypothesis W_other : forall ws r x r' c,
  r' <> r -> Xl.cell (W ws r x) r' c = Xl.cell ws r' c.
Hypothesis W_at : forall ws r x c,
  R (Xl.cell ws r c) x c (Xl.cell (W ws r x) r c).

Lemma paste_fold_other xs r0 k ws r c :
  (r < r0 + k)%nat ->
  Xl.cell (fold_left (fun ws '(i, x) => W ws (r0 + i)%nat x)
                     (combine (seq k (length xs)) xs) ws) r c
  = Xl.cell ws r c.
Proof.
  revert k ws. induction xs as [|x xs IH]; intros k ws Hr; simpl; [done|].
  rewrite IH by lia. apply W_other. lia.
Qed.

(** Row [r0 + k + j] of the result is the [j]-th row as its turn of the
    loop left it. *)
Lemma paste_fold_row xs r0 k ws j x c :
  xs !! j = Some x ->
  R (Xl.cell ws (r0 + k + j) c) x c
    (Xl.cell (fold_left (fun ws '(i, x) => W ws (r0 + i)%nat x)
                        (combine (seq k (length xs)) xs) ws) (r0 + k + j) c).
Proof.
  revert k ws j. induction xs as [|x0 xs IH]; intros k ws j Hj; [done|].
  simpl. destruct j as [|j].
  - injection Hj as ->. rewrite paste_fold_other by lia.
    rewrite Nat.add_0_r. apply W_at.
  - simpl in Hj. specialize (IH (S k) (W ws (r0 + k)%nat x0) j Hj).
    replace (r0 + S k + j)%nat with (r0 + k + S j)%nat in IH by lia.
    rewrite W_other in IH by lia. exact IH.
Qed.

End pasted_rows.

Section l_aa_writers.
Context `{Library}.
Implicit Types (ws : Xl.Worksheet).

Lemma cell_write_sequence ws r r' c' :
  exists id,
    Xl.cell (ExcelProcessor.write_sequence ws r) r' c'
    = if decide ((r, 1%nat) = (r', c')) then Xl.bind_value (Xl.cell ws r 1) (VInt id)
      else Xl.cell ws r' c'.
Proof.
  unfold ExcelProcessor.write_sequence.
  destruct (r =? 1)%nat; eexists; rewrite cell_write; reflexivity.
Qed.

Lemma l_aa_row_other ws r row_vals r' c :
  r' <> r ->
  Xl.cell (ExcelProcessor.write_l_aa_row ws r row_vals) r' c = Xl.cell ws r' c.
Proof.
  intros Hr.
  unfold ExcelProcessor.write_l_aa_row, Py.enumerate.
  rewrite (fold_left_ext_in _
             (fun ws '(i, x) =>
                (fun ws c x => Xl.write ws r c (ExcelProcessor.date_coerced x))
                  ws (i + 2)%nat x))
    by (intros ? [i x] _; by rewrite (Nat.add_comm 2 i)).
  rewrite (cell_fold_columns
             (fun ws c x => Xl.write ws r c (ExcelProcessor.date_coerced x))
             (fun cl _ x => assigned cl (ExcelProcessor.date_coerced x)) r)
    by (intros; apply cell_write).
  destruct (decide (r' = r)); [done|].
  rewrite cell_apply_master_formats. destruct (decide (r' = r)); [done|].
  destruct (cell_write_sequence ws r r' c) as [id ->].
  destruct (decide _) as [[= ? ?]|]; [congruence|done].
Qed.

Lemma l_aa_row_at ws r row_vals c :
  l_aa_pasted (Xl.cell ws r c) row_vals c
    (Xl.cell (ExcelProcessor.write_l_aa_row ws r row_vals) r c).
Proof.
  unfold l_aa_pasted, ExcelProcessor.write_l_aa_row, Py.enumerate.
  fold (written_order row_vals).
  rewrite (fold_left_ext_in _
             (fun ws '(i, x) =>
                (fun ws c x => Xl.write ws r c (ExcelProcessor.date_coerced x))
                  ws (i + 2)%nat x))
    by (intros ? [i x] _; by rewrite (Nat.add_comm 2 i)).
  rewrite (cell_fold_columns
             (fun ws c x => Xl.write ws r c (ExcelProcessor.date_coerced x))
             (fun cl _ x => assigned cl (ExcelProcessor.date_coerced x)) r)
    by (intros; apply cell_write).
  destruct (decide (r = r)) as [_|]; [|done].
  rewrite cell_apply_master_formats. destruct (decide (r = r)) as [_|]; [|done].
  destruct (cell_write_sequence ws r r c) as [id ->].
  change (0 + 2)%nat with 2%nat.
  destruct (c =? 1)%nat eqn:E1.
  - apply Nat.eqb_eq in E1 as ->. simpl. exists id.
    by destruct (decide _).
  - apply Nat.eqb_neq in E1.
    destruct (decide ((r, 1%nat) = (r, c))) as [[= ?]|_]; [congruence|].
    destruct (2 <=? c)%nat eqn:E2; [done|].
    apply Nat.leb_gt in E2. unfold master_cell.
    replace (1 <=? c)%nat with false by (symmetry; apply Nat.leb_gt; lia). done.
Qed.

End l_aa_writers.

Section legacy_writers.
Context `{Library}.
Implicit Types (ws : Xl.Worksheet).

Lemma appender_step_cell r ws c x r' c' :
  Xl.cell (let '(val, is_date) := Appender.from_serial x in
           let ws := Xl.write ws r c val in
           if is_date then Xl.set_number_format ws r c "mm/dd/yyyy" else ws) r' c'
  = if decide ((r, c) = (r', c')) then appender_cell (Xl.cell ws r c) x
    else Xl.cell ws r' c'.
Proof.
  unfold appender_cell, with_format.
  destruct (Appender.from_serial x) as [v [|]].
  - rewrite cell_set_number_format, !cell_write.
    destruct (decide ((r, c) = (r', c'))); [|done].
    by destruct (decide ((r, c) = (r, c))).
  - by rewrite cell_write.
Qed.

Lemma legacy_step_cell formats r ws c x r' c' :
  Xl.cell (let '(val, is_date) := Appender.from_serial x in
           let ws := Xl.write ws r c val in
           let ws := Xl.set_number_format ws r c (Filtration.format_for formats c) in
           if is_date then Xl.set_number_format ws r c "mm/dd/yyyy" else ws) r' c'
  = if decide ((r, c) = (r', c')) then legacy_cell formats (Xl.cell ws r c) c x
    else Xl.cell ws r' c'.
Proof.
  unfold legacy_cell, with_format.
  destruct (Appender.from_serial x) as [v [|]];
    repeat (first [rewrite cell_set_number_format | rewrite cell_write];
            try match goal with
                | |- context [decide ((r, c) = (r, c))] =>
                    destruct (decide ((r, c) = (r, c))); [|done]
                end);
    by destruct (decide ((r, c) = (r', c'))).
Qed.

Lemma appender_row_cell ws r row_vals r' c :
  Xl.cell (Appender.paste_row ws r row_vals) r' c
  = let base := Xl.cell (ExcelProcessor.write_sequence ws r) in
    if decide (r' = r) then
      match (if (2 <=? c)%nat then written_order row_vals !! (c - 2)%nat else None) with
      | Some x => appender_cell (base r c) x
      | None => base r c
      end
    else base r' c.
Proof.
  unfold Appender.paste_row, Py.enumerate, Appender.DST_START_COL.
  fold (written_order row_vals).
  rewrite (fold_left_ext_in _
             (fun ws '(i, x) =>
                (fun ws c x =>
                   let '(val, is_date) := Appender.from_serial x in
                   let ws := Xl.write ws r c val in
                   if is_date then Xl.set_number_format ws r c "mm/dd/yyyy" else ws)
                  ws (i + 2)%nat x))
    by (intros ? [i x] _; by rewrite (Nat.add_comm 2 i)).
  rewrite (cell_fold_columns
             (fun ws c x =>
                let '(val, is_date) := Appender.from_serial x in
                let ws := Xl.write ws r c val in
                if is_date then Xl.set_number_format ws r c "mm/dd/yyyy" else ws)
             (fun cl _ x => appender_cell cl x) r)
    by (intros; apply appender_step_cell).
  reflexivity.
Qed.

Lemma legacy_row_cell formats ws r row_vals r' c :
  Xl.cell (Filtration.paste_row formats ws r row_vals) r' c
  = let base := Xl.cell (ExcelProcessor.write_sequence ws r) in
    if decide (r' = r) then
      match (if (2 <=? c)%nat then row_vals !! (c - 2)%nat else None) with
      | Some x => legacy_cell formats (base r c) c x
      | None => base r c
      end
    else base r' c.
Proof.
  unfold Filtration.paste_row, Py.enumerate, Appender.DST_START_COL.
  rewrite (fold_left_ext_in _
             (fun ws '(i, x) =>
                (fun ws c x =>
                   let '(val, is_date) := Appender.from_serial x in
                   let ws := Xl.write ws r c val in
                   let ws := Xl.set_number_format ws r c
                               (Filtration.format_for formats c) in
                   if is_date then Xl.set_number_format ws r c "mm/dd/yyyy" else ws)
                  ws (i + 2)%nat x))
    by (intros ? [i x] _; by rewrite (Nat.add_comm 2 i)).
  rewrite (cell_fold_columns
             (fun ws c x =>
                let '(val, is_date) := Appender.from_serial x in
                let ws := Xl.write ws r c val in
                let ws := Xl.set_number_format ws r c
                            (Filtration.format_for formats c) in
                if is_date then Xl.set_number_format ws r c "mm/dd/yyyy" else ws)
             (fun cl c x => legacy_cell formats cl c x) r)
    by (intros; apply legacy_step_cell).
  reflexivity.
Qed.

Lemma appender_row_other ws r row_vals r' c :
  r' <> r -> Xl.cell (Appender.paste_row ws r row_vals) r' c = Xl.cell ws r' c.
Proof.
  intros Hr. rewrite appender_row_cell. cbv zeta.
  destruct (decide (r' = r)); [done|].
  destruct (cell_write_sequence ws r r' c) as [id ->].
  destruct (decide _) as [[= ? ?]|]; [congruence|done].
Qed.

Lemma appender_row_at ws r row_vals c :
  appender_pasted (Xl.cell ws r c) row_vals c
    (Xl.cell (Appender.paste_row ws r row_vals) r c).
Proof.
  rewrite appender_row_cell. cbv zeta. unfold appender_pasted.
  destruct (decide (r = r)) as [_|]; [|done].
  destruct (cell_write_sequence ws r r c) as [id ->].
  destruct (c =? 1)%nat eqn:E1.
  - apply Nat.eqb_eq in E1 as ->. simpl. exists id. by destruct (decide _).
  - apply Nat.eqb_neq in E1.
    destruct (decide ((r, 1%nat) = (r, c))) as [[= ?]|_]; [congruence|].
    by destruct (2 <=? c)%nat.
Qed.

Lemma legacy_row_other formats ws r row_vals r' c :
  r' <> r ->
  Xl.cell (Filtration.paste_row formats ws r row_vals) r' c = Xl.cell ws r' c.
Proof.
  intros Hr. rewrite legacy_row_cell. cbv zeta.
  destruct (decide (r' = r)); [done|].
  destruct (cell_write_sequence ws r r' c) as [id ->].
  destruct (decide _) as [[= ? ?]|]; [congruence|done].
Qed.

Lemma legacy_row_at formats ws r row_vals c :
  legacy_pasted formats (Xl.cell ws r c) row_vals c
    (Xl.cell (Filtration.paste_row formats ws r row_vals) r c).
Proof.
  rewrite legacy_row_cell. cbv zeta. unfold legacy_pasted.
  destruct (decide (r = r)) as [_|]; [|done].
  destruct (cell_write_sequence ws r r c) as [id ->].
  destruct (c =? 1)%nat eqn:E1.
  - apply Nat.eqb_eq in E1 as ->. simpl. exists id. by destruct (decide _).
  - apply Nat.eqb_neq in E1.
    destruct (decide ((r, 1%nat) = (r, c))) as [[= ?]|_]; [congruence|].
    by destruct (2 <=? c)%nat.
Qed.

End legacy_writers.

(** ** The O/P swap *)

Section swap.
Context `{Library}.

Lemma written_order_lookup row_vals i v :
  row_vals !! i = Some v ->
  (2 <= lands_in row_vals i)%nat /\
  written_order row_vals !! (lands_in row_vals i - 2)%nat = Some v.
Proof.
  intros Hi. unfold lands_in, written_order.
  destruct (5 <=? length row_vals)%nat eqn:E.
  2:{ split; [lia|]. by replace (i + 2 - 2)%nat with i by lia. }
  apply Nat.leb_le in E. unfold ExcelProcessor.swap_3_4.
  destruct (lookup_lt_is_Some_2 row_vals 3) as [x3 H3]; [lia|].
  destruct (lookup_lt_is_Some_2 row_vals 4) as [x4 H4]; [lia|].
  rewrite H3, H4.
  destruct (i =? 3)%nat eqn:E3.
  { apply Nat.eqb_eq in E3 as ->. split; [lia|]. simpl.
    rewrite list_lookup_insert_eq by (rewrite length_insert; lia). congruence. }
  destruct (i =? 4)%nat eqn:E4.
  { apply Nat.eqb_eq in E4 as ->. split; [lia|]. simpl.
    rewrite list_lookup_insert_ne by lia.
    rewrite list_lookup_insert_eq by lia. congruence. }
  apply Nat.eqb_neq in E3, E4. split; [lia|].
  replace (i + 2 - 2)%nat with i by lia.
  by rewrite !list_lookup_insert_ne by lia.
Qed.

Lemma assigned_value cl v : v <> VNone -> Xl.value_of (assigned cl v) = v.
Proof. by destruct v. Qed.

Lemma append_l_aa_rows_cell src_rows ws_dst j row_vals c :
  src_rows !! j = Some row_vals ->
  l_aa_pasted (Xl.cell ws_dst (l_aa_start_row ws_dst + j) c) row_vals c
    (Xl.cell (ExcelProcessor.append_l_aa_rows src_rows ws_dst)
             (l_aa_start_row ws_dst + j) c).
Proof.
  intros Hj. unfold ExcelProcessor.append_l_aa_rows, Py.enumerate.
  fold (l_aa_start_row ws_dst).
  pose proof (paste_fold_row ExcelProcessor.write_l_aa_row l_aa_pasted
                l_aa_row_other l_aa_row_at src_rows (l_aa_start_row ws_dst) 0
                ws_dst j row_vals c Hj) as Hrow.
  by rewrite Nat.add_0_r in Hrow.
Qed.

Lemma appender_paste_rows_cell src_rows ws_dst j row_vals c :
  src_rows !! j = Some row_vals ->
  appender_pasted (Xl.cell ws_dst (l_aa_start_row ws_dst + j) c) row_vals c
    (Xl.cell (Appender.paste_rows src_rows ws_dst) (l_aa_start_row ws_dst + j) c).
Proof.
  intros Hj. unfold Appender.paste_rows, Py.enumerate.
  change (Appender.last_data_row ws_dst 50)
    with (ExcelProcessor.last_data_row ws_dst 50).
  fold (l_aa_start_row ws_dst).
  pose proof (paste_fold_row Appender.paste_row appender_pasted
                appender_row_other appender_row_at src_rows (l_aa_start_row ws_dst) 0
                ws_dst j row_vals c Hj) as Hrow.
  by rewrite Nat.add_0_r in Hrow.
Qed.

Lemma gathered_from_source ws_src row_vals :
  In row_vals (ExcelProcessor.gather_l_aa ws_src) ->
  exists r, (2 <= r)%nat /\ length row_vals = 16%nat /\
    forall i, (i < 16)%nat ->
      row_vals !! i = Some (Xl.value_of (Xl.cell ws_src r (12 + i))).
Proof.
  unfold ExcelProcessor.gather_l_aa. intros [Hin _]%filter_In.
  apply in_map_iff in Hin as (r & <- & Hr). apply in_seq in Hr.
  exists r. split; [lia|]. split; [done|].
  intros i Hi. do 16 (destruct i as [|i]; [reflexivity|]). lia.
Qed.

End swap.

(** C8.  [append_l_aa] and the standalone appender write the value at
    index 3 of each gathered row (source column O) into destination column
    F and the value at index 4 (source column P) into destination column
    E, and every other value at index [i] into column [i + 2] of B..Q; a
    row with fewer than 5 values is written in its own order.  The value
    written is the source value after the date conversion of the script
    (a [None] is not written). *)
Theorem l_aa_append_swaps_o_and_p `{Library} (ws_src ws_dst : Xl.Worksheet)
    (src_rows : list (list value)) (j i : nat) (row_vals : list value) (v : value) :
  src_rows !! j = Some row_vals ->
  row_vals !! i = Some v ->
  let r := (l_aa_start_row ws_dst + j)%nat in
  let c := lands_in row_vals i in
  (ExcelProcessor.date_coerced v <> VNone ->
   Xl.value_of (Xl.cell (ExcelProcessor.append_l_aa_rows src_rows ws_dst) r c)
   = ExcelProcessor.date_coerced v) /\
  (fst (Appender.from_serial v) <> VNone ->
   Xl.value_of (Xl.cell (Appender.paste_rows src_rows ws_dst) r c)
   = fst (Appender.from_serial v)) /\
  ((5 <= length row_vals)%nat -> lands_in row_vals 3 = 6%nat /\ lands_in row_vals 4 = 5%nat) /\
  ((length row_vals < 5)%nat -> c = (i + 2)%nat) /\
  (Appender.gather_source_rows ws_src = ExcelProcessor.gather_l_aa ws_src /\
   forall row, In row (ExcelProcessor.gather_l_aa ws_src) ->
     exists r_src, (2 <= r_src)%nat /\ length row = 16%nat /\
       forall k, (k < 16)%nat ->
         row !! k = Some (Xl.value_of (Xl.cell ws_src r_src (12 + k)))) /\
  (Xl.get_column_letter (12 + 3) = "O" /\ Xl.get_column_letter (12 + 4) = "P" /\
   Xl.get_column_letter 6 = "F" /\ Xl.get_column_letter 5 = "E").
Proof.
  intros Hj Hi r c.
  destruct (written_order_lookup row_vals i v Hi) as [Hc Hv]. fold c in Hc, Hv.
  assert (Hc1 : (c =? 1)%nat = false) by (apply Nat.eqb_neq; lia).
  assert (Hc2 : (2 <=? c)%nat = true) by (by apply Nat.leb_le).
  split; [|split; [|split; [|split; [|split]]]].
  - intros Hne.
    pose proof (append_l_aa_rows_cell src_rows ws_dst j row_vals c Hj) as Hcell.
    unfold l_aa_pasted in Hcell. rewrite Hc1, Hc2, Hv in Hcell.
    fold r in Hcell. rewrite Hcell. by apply assigned_value.
  - intros Hne.
    pose proof (appender_paste_rows_cell src_rows ws_dst j row_vals c Hj) as Hcell.
    unfold appender_pasted in Hcell. rewrite Hc1, Hc2, Hv in Hcell.
    fold r in Hcell. rewrite Hcell. unfold appender_cell, with_format.
    destruct (Appender.from_serial v) as [w [|]]; simpl in *;
      by apply assigned_value.
  - intros Hlen. unfold lands_in.
    by replace (5 <=? length row_vals)%nat with true
      by (symmetry; by apply Nat.leb_le).
  - intros Hlen. unfold c, lands_in.
    by replace (5 <=? length row_vals)%nat with false
      by (symmetry; apply Nat.leb_gt; lia).
  - split; [reflexivity|]. intros row. apply gathered_from_source.
  - by repeat split.
Qed.

Lemma l_aa_append_swaps_o_and_p_witness :
  Xl.value_of (Xl.cell (@ExcelProcessor.append_l_aa_rows sample_library
                          (ExcelProcessor.gather_l_aa sample_source) sample_destination)
                       3 6) = VStr "LOW" /\
  Xl.value_of (Xl.cell (@Appender.paste_rows sample_library
                          (ExcelProcessor.gather_l_aa sample_source) sample_destination)
                       3 5) = VStr "APG&E".
Proof.
  split.
  - refine (proj1 (@l_aa_append_swaps_o_and_p sample_library sample_source
                     sample_destination (ExcelProcessor.gather_l_aa sample_source)
                     0 3 _ (VStr "LOW") eq_refl eq_refl) _).
    discriminate.
  - refine (proj1 (proj2 (@l_aa_append_swaps_o_and_p sample_library sample_source
                     sample_destination (ExcelProcessor.gather_l_aa sample_source)
                     0 4 _ (VStr "APG&E") eq_refl eq_refl)) _).
    discriminate.
Defined.

(** ** Formats of appended rows *)

Section formats.
Context `{Library}.
Implicit Types (ws : Xl.Worksheet) (cl : Xl.Cell).

Lemma number_format_assigned cl v :
  Xl.number_format (assigned cl v) = format_after (Xl.number_format cl) v.
Proof. by destruct v. Qed.

Lemma alignment_assigned cl v : Xl.alignment (assigned cl v) = Xl.alignment cl.
Proof. by destruct v. Qed.

Lemma master_format_table :
  map master_format (Py.range 1 18)
  = map (fun kv => Some (snd kv)) ExcelProcessor.MASTER_FORMATS.
Proof. reflexivity. Qed.

Lemma master_format_defined c :
  (1 <= c <= 17)%nat -> exists fmt, master_format c = Some fmt.
Proof.
  intros [H1 H17]. destruct c as [|c]; [lia|].
  do 17 (destruct c as [|c]; [by eexists|]). lia.
Qed.

Lemma master_cell_formatted cl c fmt :
  (1 <= c <= 17)%nat -> master_format c = Some fmt ->
  Xl.number_format (master_cell cl c) = fmt /\
  (c = 6%nat -> Xl.alignment (master_cell cl c) = Some "right").
Proof.
  intros [H1 H17] Hfmt. unfold master_cell.
  replace ((1 <=? c) && (c <=? 17))%nat with true
    by (symmetry; apply andb_true_iff; split; apply Nat.leb_le; lia).
  cbn [Xl.number_format Xl.alignment]. rewrite Hfmt. split; [done|].
  by intros ->.
Qed.

Lemma appended_cell_formatted old id vs c :
  (1 <= c <= 17)%nat ->
  master_formatted c (written_to id vs c) (appended_cell old id vs c).
Proof.
  intros Hc. destruct (master_format_defined c Hc) as [fmt Hfmt].
  unfold master_formatted, appended_cell, written_to.
  destruct (c =? 1)%nat eqn:E1.
  - apply Nat.eqb_eq in E1 as ->.
    destruct (master_cell_formatted (Xl.bind_value old (VInt id)) 1 fmt Hc Hfmt)
      as [Hf Ha].
    change (2 <=? 1)%nat with false. cbv iota. split; [|done].
    exists fmt. by rewrite Hf.
  - apply Nat.eqb_neq in E1.
    replace (2 <=? c)%nat with true by (symmetry; apply Nat.leb_le; lia).
    destruct (master_cell_formatted old c fmt Hc Hfmt) as [Hf Ha].
    destruct (vs !! (c - 2)%nat) as [[v|]|].
    + rewrite number_format_assigned, alignment_assigned, Hf.
      split; [by exists fmt|done].
    + split; [by exists fmt|done].
    + split; [by exists fmt|done].
Qed.

Lemma l_aa_pasted_formatted old row_vals c new :
  (1 <= c <= 17)%nat -> l_aa_pasted old row_vals c new ->
  exists id,
    master_formatted c
      (written_to id
         ((fun v => Some (ExcelProcessor.date_coerced v)) <$> written_order row_vals) c)
      new.
Proof.
  intros Hc. destruct (master_format_defined c Hc) as [fmt Hfmt].
  unfold l_aa_pasted, master_formatted, written_to.
  destruct (c =? 1)%nat eqn:E1.
  - apply Nat.eqb_eq in E1 as ->. intros [id ->]. exists id.
    destruct (master_cell_formatted (Xl.bind_value old (VInt id)) 1 fmt Hc Hfmt)
      as [Hf Ha].
    split; [|done]. exists fmt. by rewrite Hf.
  - apply Nat.eqb_neq in E1.
    replace (2 <=? c)%nat with true by (symmetry; apply Nat.leb_le; lia).
    intros ->. exists 0.
    destruct (master_cell_formatted old c fmt Hc Hfmt) as [Hf Ha].
    rewrite list_lookup_fmap.
    destruct (written_order row_vals !! (c - 2)%nat) as [v|]; cbn [fmap option_fmap option_map].
    + rewrite number_format_assigned, alignment_assigned, Hf.
      split; [by exists fmt|done].
    + split; [by exists fmt|done].
Qed.

Lemma format_for_range (g : nat -> string) a n c :
  (a <= c < a + n)%nat ->
  Filtration.format_for (map (fun k => (k, g k)) (seq a n)) c = g c.
Proof.
  revert a. induction n as [|n IH]; intros a Hc; [lia|].
  cbn [seq map Filtration.format_for].
  destruct (a =? c)%nat eqn:E.
  - by apply Nat.eqb_eq in E as ->.
  - apply Nat.eqb_neq in E. apply IH. lia.
Qed.

Lemma format_for_captured ws_dst c :
  (1 <= c <= 19)%nat ->
  Filtration.format_for
    (Filtration.dst_formats ws_dst (Appender.last_data_row ws_dst 50)) c
  = captured_format ws_dst c.
Proof.
  intros Hc. unfold Filtration.dst_formats, captured_format, Py.range. cbv zeta.
  destruct (0 <? Appender.last_data_row ws_dst 50)%nat.
  - apply (format_for_range
             (fun k => Xl.number_format
                         (Xl.cell ws_dst (Appender.last_data_row ws_dst 50) k))).
    simpl. lia.
  - apply (format_for_range (fun _ => "General")). simpl. lia.
Qed.

Lemma legacy_cell_format formats old c x :
  Xl.number_format (legacy_cell formats old c x)
  = if snd (Appender.from_serial x) then "mm/dd/yyyy"
    else Filtration.format_for formats c.
Proof.
  unfold legacy_cell. by destruct (Appender.from_serial x) as [v []].
Qed.

Lemma legacy_paste_rows_cell src_rows ws_dst j row_vals c :
  src_rows !! j = Some row_vals ->
  legacy_pasted (Filtration.dst_formats ws_dst (Appender.last_data_row ws_dst 50))
    (Xl.cell ws_dst (l_aa_start_row ws_dst + j) c) row_vals c
    (Xl.cell (Filtration.paste_rows src_rows ws_dst) (l_aa_start_row ws_dst + j) c).
Proof.
  intros Hj. unfold Filtration.paste_rows, Py.enumerate. cbv zeta.
  change (Appender.last_data_row ws_dst 50)
    with (ExcelProcessor.last_data_row ws_dst 50).
  fold (l_aa_start_row ws_dst).
  set (formats := Filtration.dst_formats _ _).
  pose proof (paste_fold_row (Filtration.paste_row formats) (legacy_pasted formats)
                (legacy_row_other formats) (legacy_row_at formats)
                src_rows (l_aa_start_row ws_dst) 0
                ws_dst j row_vals c Hj) as Hrow.
  by rewrite Nat.add_0_r in Hrow.
Qed.

Lemma legacy_paste_rows_format src_rows ws_dst j row_vals i x :
  src_rows !! j = Some row_vals -> row_vals !! i = Some x -> (i < 18)%nat ->
  legacy_formatted ws_dst (i + 2) x
    (Xl.cell (Filtration.paste_rows src_rows ws_dst)
             (l_aa_start_row ws_dst + j) (i + 2)).
Proof.
  intros Hj Hi Hlt.
  pose proof (legacy_paste_rows_cell src_rows ws_dst j row_vals (i + 2) Hj) as Hrow.
  unfold legacy_pasted in Hrow.
  replace (i + 2 =? 1)%nat with false in Hrow
    by (symmetry; apply Nat.eqb_neq; lia).
  replace (2 <=? i + 2)%nat with true in Hrow by (symmetry; apply Nat.leb_le; lia).
  replace (i + 2 - 2)%nat with i in Hrow by lia.
  rewrite Hi in Hrow. unfold legacy_formatted.
  rewrite Hrow, legacy_cell_format, format_for_captured by lia. done.
Qed.

End formats.




(** ** Save failure *)

(** A run that ends before the save does the same whether or not the save
    would be denied, and reports no appended row. *)
Ltac harmless_simpl :=
  cbv zeta; cbn [Fs.disk_after Fs.printed Fs.raised];
  repeat match goal with
         | E : ?x = _ |- context [?x] => rewrite E
         end;
  cbn [Fs.disk_after Fs.printed Fs.raised].

Ltac harmless_early :=
  harmless_simpl;
  split; [reflexivity|split; [|reflexivity]];
  let n := fresh "n" in
  let Hn := fresh "Hn" in
  intros n Hn; exfalso; cbn [In] in Hn; intuition discriminate.

(** C10.  When saving the destination raises [PermissionError],
    [append_l_aa] and the standalone appender print that they could not
    save and return; the disk, and so the destination file, is exactly as
    before the run, and running the script again repeats the whole append. *)
Theorem save_failure_leaves_disk_unchanged `{Library} (disk : Fs.Disk)
    (src_path dst_path : string) (sheet_index : nat) :
  save_failure_is_harmless
    (fun denied d => ExcelProcessor.append_l_aa denied d src_path dst_path sheet_index)
    disk /\
  save_failure_is_harmless Appender.main disk.
Proof.
  split.
  - unfold save_failure_is_harmless, ExcelProcessor.append_l_aa, Fs.save.
    destruct (disk !! src_path) as [wb_src|] eqn:Esrc; [|harmless_early].
    destruct (disk !! dst_path) as [wb_dst|] eqn:Edst; [|harmless_early].
    destruct (wb_src !! sheet_index) as [ws_src|] eqn:Ews; [|harmless_early].
    destruct (wb_dst !! 0%nat) as [ws_dst|] eqn:Ewd; [|harmless_early].
    destruct (length (ExcelProcessor.gather_l_aa ws_src) =? 0)%nat eqn:Elen;
      [harmless_early|].
    harmless_simpl.
    split; [reflexivity|]. split; [|reflexivity].
    intros n _. split; [right; by left|]. split; [|reflexivity].
    intros [[=]|[[=]|[]]].
  - unfold save_failure_is_harmless, Appender.main, Fs.save.
    destruct (disk !! Appender.SRC) as [wb_src|] eqn:Esrc; [|harmless_early].
    destruct (disk !! Appender.DST) as [wb_dst|] eqn:Edst; [|harmless_early].
    destruct (wb_src !! 0%nat) as [ws_src|] eqn:Ews; [|harmless_early].
    destruct (wb_dst !! 0%nat) as [ws_dst|] eqn:Ewd; [|harmless_early].
    destruct (length (Appender.gather_source_rows ws_src) =? 0)%nat eqn:Elen;
      [harmless_early|].
    harmless_simpl.
    split; [reflexivity|]. split; [|reflexivity].
    intros n _. split; [right; right; by left|]. split; [|reflexivity].
    intros [[=]|[[=]|[[=]|[]]]].
Qed.

Lemma save_failure_leaves_disk_unchanged_witness :
  Fs.disk_after (@Appender.main sample_library true sample_disk) = sample_disk /\
  In Fs.CouldNotSave (Fs.printed (@Appender.main sample_library true sample_disk)) /\
  In (Fs.Appended 1) (Fs.printed (@Appender.main sample_library false sample_disk)).
Proof.
  destruct (@save_failure_leaves_disk_unchanged sample_library sample_disk
              Appender.SRC Appender.DST 0) as [_ (Hdisk & Hmsg & _)].
  assert (Hok : In (Fs.Appended 1)
                   (Fs.printed (@Appender.main sample_library false sample_disk))).
  { vm_compute. tauto. }
  split; [exact Hdisk|]. split; [|exact Hok].
  exact (proj1 (Hmsg 1%nat Hok)).
Defined.

(** * Further properties of the embedded code *)

(** ** The last data row and the L..AA appends *)

Section last_row.
Implicit Types (ws : Xl.Worksheet).

Lemma max_row_bound ws r c : is_Some (ws !! (r, c)) -> (r <= Xl.max_row ws)%nat.
Proof.
  unfold Xl.max_row. revert r c.
  apply (map_fold_weak_ind
           (fun m (ws : Xl.Worksheet) =>
              forall r c, is_Some (ws !! (r, c)) -> (r <= m)%nat)).
  - intros r c [x Hx]. by rewrite lookup_empty in Hx.
  - intros [r0 c0] x m acc Hm IH r c Hsome. simpl.
    destruct (decide ((r0, c0) = (r, c))) as [[= -> ->]|Hne]; [lia|].
    rewrite lookup_insert_ne in Hsome by done.
    specialize (IH r c Hsome). lia.
Qed.

Lemma cell_beyond_max_row ws r c :
  (Xl.max_row ws < r)%nat -> Xl.cell ws r c = Xl.blank_cell.
Proof.
  intros Hr. unfold Xl.cell.
  destruct (ws !! (r, c)) as [x|] eqn:E; [|done].
  assert (r <= Xl.max_row ws)%nat by (apply (max_row_bound ws r c); eauto). lia.
Qed.

Lemma find_rev_seq_first (f : nat -> bool) a n r :
  List.find f (rev (seq a n)) = Some r ->
  (a <= r < a + n)%nat /\ f r = true /\
  forall x, (r < x < a + n)%nat -> f x = false.
Proof.
  induction n as [|n IH]; [done|].
  rewrite seq_S, rev_app_distr. simpl.
  destruct (f (a + n)%nat) eqn:E.
  - intros [= <-]. repeat split; [lia|lia|done|]. intros x Hx. lia.
  - intros Hf. destruct (IH Hf) as (Hr & Hfr & Habove).
    repeat split; [lia|lia|done|].
    intros x Hx. destruct (Nat.eq_dec x (a + n)%nat) as [->|]; [done|].
    apply Habove. lia.
Qed.

Lemma find_rev_seq_none (f : nat -> bool) a n :
  List.find f (rev (seq a n)) = None ->
  forall x, (a <= x < a + n)%nat -> f x = false.
Proof.
  intros Hf x Hx. apply (find_none _ _ Hf). apply in_rev.
  rewrite rev_involutive. apply in_seq. lia.
Qed.

Lemma row_scan_spec ws scan_cols r :
  existsb (fun c => negb (Py.is_blank (Xl.value_of (Xl.cell ws r c))))
          (Py.range 1 (scan_cols + 1)) = true
  <-> has_data ws scan_cols r.
Proof.
  unfold has_data, Py.range. rewrite existsb_exists. split.
  - intros (c & Hc & Hb). apply in_seq in Hc. exists c. split; [lia|].
    by apply negb_true_iff.
  - intros (c & Hc & Hb). exists c. split; [apply in_seq; lia|].
    by apply negb_true_iff.
Qed.

Lemma last_data_row_last ws scan_cols :
  let r := ExcelProcessor.last_data_row ws scan_cols in
  (r <= Xl.max_row ws)%nat /\
  ((0 < r)%nat -> has_data ws scan_cols r) /\
  (forall r', (r < r')%nat -> ~ has_data ws scan_cols r').
Proof.
  unfold ExcelProcessor.last_data_row, Py.range. cbv zeta.
  assert (Hbeyond : forall r', (Xl.max_row ws < r')%nat -> ~ has_data ws scan_cols r').
  { intros r' Hr' (c & _ & Hb). by rewrite cell_beyond_max_row in Hb. }
  destruct (List.find _ _) as [r|] eqn:E; simpl.
  - apply find_rev_seq_first in E as (Hr & Hf & Habove).
    split; [lia|]. split; [intros _; by apply row_scan_spec|].
    intros r' Hr'. destruct (Nat.le_gt_cases r' (Xl.max_row ws)) as [Hle|Hgt].
    + intros Hd%row_scan_spec. rewrite Habove in Hd by lia. done.
    + by apply Hbeyond.
  - split; [lia|]. split; [lia|].
    intros r' Hr'. destruct (Nat.le_gt_cases r' (Xl.max_row ws)) as [Hle|Hgt].
    + intros Hd%row_scan_spec.
      rewrite (find_rev_seq_none _ _ _ E) in Hd by lia. done.
    + by apply Hbeyond.
Qed.

End last_row.

(** X1.  [last_data_row] of [excel_processor.py] and of [appender.py]
    return the same row: the last row with a value other than [None] and
    the empty string in its first [scan_cols] columns, and 0 when no row
    has one.  It is never beyond [max_row]. *)
Theorem last_data_row_is_last_row_with_data (ws : Xl.Worksheet) (scan_cols : nat) :
  let r := ExcelProcessor.last_data_row ws scan_cols in
  Appender.last_data_row ws scan_cols = r /\
  (r <= Xl.max_row ws)%nat /\
  ((0 < r)%nat -> has_data ws scan_cols r) /\
  (forall r', (r < r')%nat -> ~ has_data ws scan_cols r').
Proof. split; [reflexivity|apply last_data_row_last]. Qed.

Section l_aa_frame.
Context `{Library}.
Implicit Types (ws : Xl.Worksheet).

Lemma l_aa_start_row_pos ws : (1 <= l_aa_start_row ws)%nat.
Proof. unfold l_aa_start_row. cbv zeta. destruct (1 <=? _)%nat; lia. Qed.

Lemma l_aa_start_row_below_data ws r :
  (l_aa_start_row ws <= r)%nat -> ~ has_data ws 50 r.
Proof.
  intros Hr. apply last_data_row_last. revert Hr. unfold l_aa_start_row. cbv zeta.
  destruct (1 <=? ExcelProcessor.last_data_row ws 50)%nat eqn:E; [lia|].
  apply Nat.leb_gt in E. lia.
Qed.

Lemma append_l_aa_rows_above src_rows ws r c :
  (r < l_aa_start_row ws)%nat ->
  Xl.cell (ExcelProcessor.append_l_aa_rows src_rows ws) r c = Xl.cell ws r c.
Proof.
  intros Hr. unfold ExcelProcessor.append_l_aa_rows, Py.enumerate.
  fold (l_aa_start_row ws).
  apply (paste_fold_other ExcelProcessor.write_l_aa_row l_aa_row_other). lia.
Qed.

Lemma appender_paste_rows_above src_rows ws r c :
  (r < l_aa_start_row ws)%nat ->
  Xl.cell (Appender.paste_rows src_rows ws) r c = Xl.cell ws r c.
Proof.
  intros Hr. unfold Appender.paste_rows, Py.enumerate.
  change (Appender.last_data_row ws 50) with (ExcelProcessor.last_data_row ws 50).
  fold (l_aa_start_row ws).
  apply (paste_fold_other Appender.paste_row appender_row_other). lia.
Qed.

Lemma legacy_paste_rows_above src_rows ws r c :
  (r < l_aa_start_row ws)%nat ->
  Xl.cell (Filtration.paste_rows src_rows ws) r c = Xl.cell ws r c.
Proof.
  intros Hr. unfold Filtration.paste_rows, Py.enumerate. cbv zeta.
  change (Appender.last_data_row ws 50) with (ExcelProcessor.last_data_row ws 50).
  fold (l_aa_start_row ws).
  apply (paste_fold_other (Filtration.paste_row _) (legacy_row_other _)). lia.
Qed.

End l_aa_frame.



Section sequence.
Context `{Library} {X : Type}.
Implicit Types (ws : Xl.Worksheet).

Lemma write_sequence_id ws r :
  Xl.value_of (Xl.cell (ExcelProcessor.write_sequence ws r) r 1)
  = VInt (sequence_id ws r).
Proof.
  unfold ExcelProcessor.write_sequence, sequence_id.
  destruct (r =? 1)%nat; rewrite cell_write; by destruct (decide _).
Qed.

Variable W : Xl.Worksheet -> nat -> X -> Xl.Worksheet.
Hypothesis W_other : forall ws r x r' c,
  r' <> r -> Xl.cell (W ws r x) r' c = Xl.cell ws r' c.
Hypothesis W_id : forall ws r x,
  Xl.value_of (Xl.cell (W ws r x) r 1) = VInt (sequence_id ws r).

Lemma paste_fold_ids xs r0 k ws j x :
  (1 <= r0)%nat -> xs !! j = Some x ->
  Xl.value_of
    (Xl.cell (fold_left (fun ws '(i, x) => W ws (r0 + i)%nat x)
                        (combine (seq k (length xs)) xs) ws) (r0 + k + j) 1)
  = VInt (sequence_id ws (r0 + k) + Z.of_nat j).
Proof.
  intros Hr0. revert k ws j. induction xs as [|x0 xs IH]; intros k ws j Hj; [done|].
  simpl. destruct j as [|j].
  - rewrite (paste_fold_other W W_other) by lia.
    rewrite Nat.add_0_r, W_id. f_equal. lia.
  - simpl in Hj. specialize (IH (S k) (W ws (r0 + k)%nat x0) j Hj).
    replace (r0 + S k + j)%nat with (r0 + k + S j)%nat in IH by lia.
    rewrite IH. f_equal. unfold sequence_id at 1.
    replace (r0 + S k =? 1)%nat with false by (symmetry; apply Nat.eqb_neq; lia).
    replace (r0 + S k - 1)%nat with (r0 + k)%nat by lia.
    rewrite W_id. cbn [ExcelProcessor.previous_id]. lia.
Qed.

End sequence.

Section sequence_writers.
Context `{Library}.
Implicit Types (ws : Xl.Worksheet).

Lemma l_aa_row_id ws r row_vals :
  Xl.value_of (Xl.cell (ExcelProcessor.write_l_aa_row ws r row_vals) r 1)
  = VInt (sequence_id ws r).
Proof.
  unfold ExcelProcessor.write_l_aa_row, Py.enumerate.
  rewrite (fold_left_ext_in _
             (fun ws '(i, x) =>
                (fun ws c x => Xl.write ws r c (ExcelProcessor.date_coerced x))
                  ws (i + 2)%nat x))
    by (intros ? [i x] _; by rewrite (Nat.add_comm 2 i)).
  rewrite (cell_fold_columns
             (fun ws c x => Xl.write ws r c (ExcelProcessor.date_coerced x))
             (fun cl _ x => assigned cl (ExcelProcessor.date_coerced x)) r)
    by (intros; apply cell_write).
  destruct (decide (r = r)) as [_|]; [|done].
  change (0 + 2 <=? 1)%nat with false. cbv iota.
  rewrite cell_apply_master_formats. destruct (decide (r = r)) as [_|]; [|done].
  rewrite master_cell_value. apply write_sequence_id.
Qed.

Lemma appender_row_id ws r row_vals :
  Xl.value_of (Xl.cell (Appender.paste_row ws r row_vals) r 1)
  = VInt (sequence_id ws r).
Proof.
  rewrite appender_row_cell. cbv zeta.
  destruct (decide (r = r)) as [_|]; [|done].
  change (2 <=? 1)%nat with false. cbv iota. apply write_sequence_id.
Qed.

Lemma legacy_row_id formats ws r row_vals :
  Xl.value_of (Xl.cell (Filtration.paste_row formats ws r row_vals) r 1)
  = VInt (sequence_id ws r).
Proof.
  rewrite legacy_row_cell. cbv zeta.
  destruct (decide (r = r)) as [_|]; [|done].
  change (2 <=? 1)%nat with false. cbv iota. apply write_sequence_id.
Qed.

End sequence_writers.




(** ** Normalized names and exact matches *)

Section normalized.
Import PyStr.

Lemma alnum_not_space c : is_lower c || is_digit c = true -> is_space c = false.
Proof.
  unfold is_lower, is_digit, is_space. cbv zeta. generalize (code c). intros n Hn.
  apply orb_true_iff in Hn.
  apply orb_false_iff.
  destruct Hn as [Hn|Hn]; apply andb_true_iff in Hn as [H1 H2];
    apply Nat.leb_le in H1, H2; split; apply andb_false_iff.
  - right. apply Nat.leb_gt. lia.
  - right. apply Nat.leb_gt. lia.
  - right. apply Nat.leb_gt. lia.
  - right. apply Nat.leb_gt. lia.
Qed.

Lemma alnum_lower c : is_lower c || is_digit c = true -> lower_char c = c.
Proof.
  unfold is_lower, is_digit, lower_char, is_upper. cbv zeta.
  generalize (code c). intros n Hn.
  replace ((65 <=? n) && (n <=? 90))%nat with false; [done|].
  symmetry. apply andb_false_iff. apply orb_true_iff in Hn.
  destruct Hn as [Hn|Hn]; apply andb_true_iff in Hn as [H1 H2];
    apply Nat.leb_le in H1, H2.
  - right. apply Nat.leb_gt. lia.
  - left. apply Nat.leb_gt. lia.
Qed.

Lemma drop_while_none {A} (p : A -> bool) l :
  Forall (fun x => p x = false) l -> drop_while p l = l.
Proof. intros Hl. destruct Hl as [|x l Hx _]; [done|]. simpl. by rewrite Hx. Qed.

Lemma strip_chars_alnum l :
  Forall (fun c => is_lower c || is_digit c = true) l -> strip_chars l = l.
Proof.
  intros Hl. unfold strip_chars.
  assert (Hs : Forall (fun c => is_space c = false) l).
  { eapply Forall_impl; [exact Hl|]. apply alnum_not_space. }
  rewrite (drop_while_none _ l Hs).
  rewrite drop_while_none; [apply rev_involutive|].
  apply List.Forall_forall. intros c Hc. apply in_rev in Hc.
  revert c Hc. by apply List.Forall_forall.
Qed.

Lemma map_lower_alnum l :
  Forall (fun c => is_lower c || is_digit c = true) l -> map lower_char l = l.
Proof.
  induction 1 as [|c l Hc _ IH]; simpl; [done|]. by rewrite alnum_lower, IH.
Qed.

Lemma filter_alnum_fix l :
  Forall (fun c => is_lower c || is_digit c = true) l ->
  List.filter (fun c => is_lower c || is_digit c) l = l.
Proof. induction 1 as [|c l Hc _ IH]; simpl; [done|]. by rewrite Hc, IH. Qed.

Lemma normalize_alnum name :
  Forall (fun c => is_lower c || is_digit c = true)
         (chars (Transformer.normalize_column_name name)).
Proof.
  unfold Transformer.normalize_column_name, keep_alnum. rewrite chars_text.
  apply List.Forall_forall. intros c Hc. by apply filter_In in Hc as [_ Hc].
Qed.

Lemma normalize_fix s :
  Forall (fun c => is_lower c || is_digit c = true) (chars s) ->
  Transformer.normalize_column_name s = s.
Proof.
  intros Hs. unfold Transformer.normalize_column_name, keep_alnum, lower, strip.
  rewrite !chars_text, (strip_chars_alnum _ Hs), (map_lower_alnum _ Hs),
    (filter_alnum_fix _ Hs).
  apply text_chars.
Qed.

End normalized.

(** X4.  A normalized column name consists of lowercase letters and digits
    only, and normalizing it again changes nothing: [normalize_column_name]
    of [transformer.py] and the helper [norm] of [hda_matrix_to_master_cols]
    are idempotent. *)
Theorem normalize_column_name_idempotent (name : string) :
  let n := Transformer.normalize_column_name name in
  ExcelProcessor.norm name = n /\
  Forall (fun c => PyStr.is_lower c || PyStr.is_digit c = true) (PyStr.chars n) /\
  Transformer.normalize_column_name n = n /\
  PyStr.strip n = n /\ PyStr.lower n = n.
Proof.
  intros n. pose proof (normalize_alnum name) as Hn. fold n in Hn.
  split; [reflexivity|]. split; [exact Hn|]. split; [by apply normalize_fix|].
  split.
  - unfold PyStr.strip. rewrite (strip_chars_alnum _ Hn). apply text_chars.
  - unfold PyStr.lower. rewrite (map_lower_alnum _ Hn). apply text_chars.
Qed.

Section exact_match.

Lemma norm_map_last k1 c k2 :
  (forall x, In x k2 ->
     Transformer.normalize_column_name x <> Transformer.normalize_column_name c) ->
  Py.dict_get (Transformer.normalize_column_name c) (norm_map_of (k1 ++ c :: k2))
  = Some c.
Proof.
  unfold norm_map_of. induction k2 as [|x k2 IH] using rev_ind; intros Hk2.
  - rewrite fold_left_app. simpl. rewrite dict_get_set. by rewrite String.eqb_refl.
  - rewrite app_comm_cons, app_assoc, fold_left_app. simpl. rewrite dict_get_set.
    destruct (String.eqb _ _) eqn:E.
    + apply String.eqb_eq in E. exfalso. apply (Hk2 x); [|done].
      apply in_or_app. right. by left.
    + apply IH.
      intros y Hy. apply Hk2. apply in_or_app. by left.
Qed.

Lemma norm_map_miss cols k :
  (forall c, In c cols -> Transformer.normalize_column_name c <> k) ->
  Py.dict_get k (norm_map_of cols) = None.
Proof.
  intros Hall. destruct (Py.dict_get k (norm_map_of cols)) as [c|] eqn:E; [|done].
  apply norm_map_get in E as [Hin Hk]. by destruct (Hall c Hin).
Qed.

Lemma first_some_first {A B} (f : A -> option B) l1 a l2 b :
  (forall x, In x l1 -> f x = None) -> f a = Some b ->
  Py.first_some f (l1 ++ a :: l2) = Some b.
Proof.
  intros Hl1 Ha. induction l1 as [|x l1 IH]; simpl.
  - by rewrite Ha.
  - rewrite Hl1 by (by left). apply IH. intros y Hy. apply Hl1. by right.
Qed.

End exact_match.

(** X5.  When some candidate has an exact match, [find_column] (and the
    helper [get_col] of [hda_matrix_to_master_cols]) answers for the first
    such candidate of the list, and among the columns that normalize like
    it with the last one of the frame: a later column replaces an earlier
    one under the same normalized key. *)
Theorem find_column_exact_match_order (df : Pd.DataFrame)
    (l1 l2 k1 k2 : list string) (cand c : string) (allow_contains : bool) :
  Pd.columns df = k1 ++ c :: k2 ->
  matches_exactly cand c ->
  (forall x, In x k2 -> ~ matches_exactly cand x) ->
  (forall y x, In y l1 -> In x (Pd.columns df) -> ~ matches_exactly y x) ->
  Transformer.find_column df (l1 ++ cand :: l2) allow_contains = Some c /\
  ExcelProcessor.get_col (Pd.columns df) (l1 ++ cand :: l2) allow_contains = Some c.
Proof.
  intros Hcols Hc Hk2 Hl1.
  assert (Hfirst :
            Py.first_some
              (fun candidate =>
                 Py.dict_get (Transformer.normalize_column_name candidate)
                             (norm_map_of (Pd.columns df)))
              (l1 ++ cand :: l2) = Some c).
  { apply first_some_first.
    - intros y Hy. apply norm_map_miss. intros x Hx. by apply Hl1.
    - rewrite Hcols. unfold matches_exactly in Hc. rewrite <- Hc.
      apply norm_map_last. intros x Hx E. apply (Hk2 x Hx).
      unfold matches_exactly. congruence. }
  assert (Hfind : Transformer.find_column df (l1 ++ cand :: l2) allow_contains
                  = Some c).
  { unfold Transformer.find_column. fold (norm_map_of (Pd.columns df)).
    cbv zeta. by rewrite Hfirst. }
  split; [exact Hfind|exact Hfind].
Qed.

Lemma find_column_exact_match_order_witness :
  Transformer.find_column twin_columns ["Rate"; "term"; "Price"] false = Some "TERM".
Proof.
  refine (proj1 (find_column_exact_match_order twin_columns ["Rate"] ["Price"]
                   ["Term "; "Price"] [] "term" "TERM" false eq_refl eq_refl _ _)).
  - intros x [].
  - intros y x [<-|[]] Hx E. vm_compute in Hx.
    destruct Hx as [<-|[<-|[<-|[]]]]; vm_compute in E; discriminate E.
Defined.


(** ** Header mapping of the template *)

Section header_mapping.
Implicit Types (ws : Xl.Worksheet).

Lemma mapping_fold (g : nat -> option string) cs m name :
  Py.dict_get name
    (fold_left
       (fun mapping c =>
          match g c with
          | Some norm_name =>
              if negb (bool_decide (is_Some (Py.dict_get norm_name mapping)))
              then Py.dict_set norm_name c mapping else mapping
          | None => mapping
          end) cs m)
  = match Py.dict_get name m with
    | Some c0 => Some c0
    | None => List.find (fun c => bool_decide (g c = Some name)) cs
    end.
Proof.
  revert m. induction cs as [|x cs IH]; intros m; simpl.
  - by destruct (Py.dict_get name m).
  - rewrite IH. destruct (g x) as [nm|] eqn:Eg.
    + destruct (bool_decide (is_Some (Py.dict_get nm m))) eqn:Ein; simpl.
      * apply bool_decide_eq_true in Ein as [c0 Hc0].
        destruct (Py.dict_get name m) as [c1|] eqn:E1; [done|].
        rewrite bool_decide_eq_false_2; [done|]. intros [= ->]. congruence.
      * apply bool_decide_eq_false in Ein. rewrite dict_get_set.
        destruct (String.eqb nm name) eqn:E.
        -- apply String.eqb_eq in E as ->.
           destruct (Py.dict_get name m) as [c1|] eqn:E1; [destruct Ein; eauto|].
           by rewrite bool_decide_eq_true_2.
        -- apply String.eqb_neq in E.
           destruct (Py.dict_get name m) as [c1|]; [done|].
           rewrite bool_decide_eq_false_2; [done|]. intros [= ->]. done.
    + destruct (Py.dict_get name m) as [c1|]; [done|].
      by rewrite bool_decide_eq_false_2.
Qed.

Lemma build_source_mapping_get ws header_row name :
  Py.dict_get name (ExcelProcessor.build_source_mapping ws header_row)
  = List.find (fun c => bool_decide (header_name ws header_row c = Some name))
              (Py.range 1 (Xl.max_column ws + 1)).
Proof.
  unfold ExcelProcessor.build_source_mapping.
  rewrite (fold_left_ext_in _
             (fun mapping c =>
                match header_name ws header_row c with
                | Some norm_name =>
                    if negb (bool_decide (is_Some (Py.dict_get norm_name mapping)))
                    then Py.dict_set norm_name c mapping else mapping
                | None => mapping
                end)).
  - by rewrite mapping_fold.
  - intros m c _. unfold header_name.
    destruct (ExcelProcessor.header_key _) as [key|]; [|done].
    destruct (Py.dict_get key ExcelProcessor.SOURCE_SYNONYMS) as [nm|]; [|done].
    by destruct (Pd.mem nm ExcelProcessor.MASTER_HEADERS).
Qed.

Lemma mapping_lacks_name (ws : Xl.Worksheet)
    (header_row : nat) (name : string) :
  Py.dict_get name (ExcelProcessor.build_source_mapping ws header_row) = None <->
  forall c, (1 <= c <= Xl.max_column ws)%nat ->
            header_name ws header_row c <> Some name.
Proof.
  rewrite build_source_mapping_get. unfold Py.range. split.
  - intros E c Hc Hname.
    pose proof (find_seq_none _ _ _ E c) as Hn. cbv beta in Hn.
    rewrite bool_decide_eq_true_2 in Hn by done.
    assert (true = false) by (apply Hn; lia). done.
  - intros Hall. destruct (List.find _ _) as [c0|] eqn:E; [|done].
    apply find_seq_first in E as (Hc0 & Hb & _).
    apply bool_decide_eq_true in Hb. destruct (Hall c0); [lia|done].
Qed.

End header_mapping.

(** X6.  [build_source_mapping] maps a name to column [c] exactly when [c]
    is the leftmost column of the sheet whose header-row cell stands for
    that name: a string that, stripped, lowercased and with blanks turned
    into underscores, is a key of [SOURCE_SYNONYMS] naming a master header.
    A name no column stands for is absent from the mapping. *)
Theorem build_source_mapping_takes_leftmost_column (ws : Xl.Worksheet)
    (header_row : nat) (name : string) :
  let mapping := ExcelProcessor.build_source_mapping ws header_row in
  (forall c, Py.dict_get name mapping = Some c <->
     (1 <= c <= Xl.max_column ws)%nat /\
     header_name ws header_row c = Some name /\
     forall c', (1 <= c' < c)%nat -> header_name ws header_row c' <> Some name) /\
  (Py.dict_get name mapping = None <->
     forall c, (1 <= c <= Xl.max_column ws)%nat ->
               header_name ws header_row c <> Some name) /\
  (is_Some (Py.dict_get name mapping) -> In name ExcelProcessor.MASTER_HEADERS).
Proof.
  intros mapping. unfold mapping. rewrite build_source_mapping_get.
  unfold Py.range. split; [|split].
  - intros c. split.
    + intros (Hc & Hb & Hbelow)%find_seq_first.
      apply bool_decide_eq_true in Hb.
      split; [lia|]. split; [done|].
      intros c' Hc'. specialize (Hbelow c' Hc').
      by apply bool_decide_eq_false in Hbelow.
    + intros (Hc & Hname & Hbelow).
      destruct (List.find _ _) as [c0|] eqn:E.
      * apply find_seq_first in E as (Hc0 & Hb & Hb0).
        apply bool_decide_eq_true in Hb.
        destruct (Nat.lt_trichotomy c0 c) as [Hlt|[->|Hgt]]; [|done|].
        -- destruct (Hbelow c0); [lia|done].
        -- specialize (Hb0 c). cbv beta in Hb0. rewrite bool_decide_eq_true_2 in Hb0 by done.
           assert (true = false) by (apply Hb0; lia). done.
      * pose proof (find_seq_none _ _ _ E c) as Hn. cbv beta in Hn.
        rewrite bool_decide_eq_true_2 in Hn by done.
        assert (true = false) by (apply Hn; lia). done.
  - split.
    + intros E c Hc Hname.
      pose proof (find_seq_none _ _ _ E c) as Hn. cbv beta in Hn.
      rewrite bool_decide_eq_true_2 in Hn by done.
      assert (true = false) by (apply Hn; lia). done.
    + intros Hall. destruct (List.find _ _) as [c0|] eqn:E; [|done].
      apply find_seq_first in E as (Hc0 & Hb & _).
      apply bool_decide_eq_true in Hb. destruct (Hall c0); [lia|done].
  - intros [c Hc]. apply find_seq_first in Hc as (_ & Hb & _).
    apply bool_decide_eq_true in Hb. unfold header_name in Hb.
    destruct (ExcelProcessor.header_key _) as [key|]; [|done].
    destruct (Py.dict_get key ExcelProcessor.SOURCE_SYNONYMS) as [nm|]; [|done].
    destruct (Pd.mem nm ExcelProcessor.MASTER_HEADERS) eqn:Em; [|done].
    injection Hb as ->. unfold Pd.mem in Em.
    apply existsb_exists in Em as (x & Hx & E).
    apply String.eqb_eq in E. by subst.
Qed.



(** ** Edge cases of [a] *)

Section a_edges.
Context `{Library}.

Lemma mem_false_position c l : Pd.mem c l = false -> Pd.position c l = None.
Proof.
  unfold Pd.mem. induction l as [|x l IH]; simpl; [done|].
  rewrite String.eqb_sym. destruct (String.eqb x c); simpl; [done|].
  intros Hl. by rewrite IH.
Qed.

Lemma scale_column_shape df c df' :
  ExcelProcessor.scale_column df c = Some df' ->
  Pd.columns df' = Pd.columns df /\ Pd.len df' = Pd.len df /\
  is_Some (Pd.position c (Pd.columns df)).
Proof.
  unfold ExcelProcessor.scale_column.
  destruct (Pd.position c (Pd.columns df)) as [k|]; [|done].
  destruct (mapM _ (Pd.rows df)) as [rows|] eqn:E; [|done].
  intros [= <-]. split; [done|]. split; [|eauto].
  unfold Pd.len. simpl. symmetry. by apply length_mapM in E.
Qed.

End a_edges.

(** X8.  [a] leaves the sheet as it is and reports 0 rows for a frame
    without rows or without columns; on any other frame it raises when the
    Daily_No_Ruc or the Daily column is missing, and when it returns it has
    appended as many rows as the frame has, and the frame it leaves has the
    same columns and as many rows. *)
Theorem a_on_empty_and_incomplete_frames `{Library}
    (master_df : Pd.DataFrame) (ws_dst : Xl.Worksheet) :
  ((Pd.len master_df = 0%nat \/ Pd.columns master_df = []) ->
   ExcelProcessor.a master_df ws_dst = Some (master_df, ws_dst, 0%nat)) /\
  (Pd.len master_df <> 0%nat -> Pd.columns master_df <> [] ->
   (Pd.mem "Daily_No_Ruc" (Pd.columns master_df) = false \/
    Pd.mem "Daily" (Pd.columns master_df) = false) ->
   ExcelProcessor.a master_df ws_dst = None) /\
  (forall df' ws' n,
     ExcelProcessor.a master_df ws_dst = Some (df', ws', n) ->
     Pd.len master_df <> 0%nat -> Pd.columns master_df <> [] ->
     n = Pd.len master_df /\ Pd.columns df' = Pd.columns master_df /\
     Pd.len df' = Pd.len master_df).
Proof.
  unfold ExcelProcessor.a. split; [|split].
  - intros [Hlen|Hcols].
    + by rewrite Hlen.
    + rewrite Hcols. simpl. by rewrite orb_true_r.
  - intros Hlen Hcols Hmiss.
    replace ((Pd.len master_df =? 0)%nat || (length (Pd.columns master_df) =? 0)%nat)
      with false.
    2:{ symmetry. apply orb_false_iff. split; apply Nat.eqb_neq; [done|].
        by destruct (Pd.columns master_df). }
    destruct (ExcelProcessor.scale_column master_df "Daily_No_Ruc") as [df1|] eqn:E1;
      [|done].
    apply scale_column_shape in E1 as (Hc1 & _ & [k Hk]).
    destruct Hmiss as [Hm|Hm].
    + apply mem_false_position in Hm. congruence.
    + simpl. unfold ExcelProcessor.scale_column. rewrite Hc1.
      by rewrite (mem_false_position _ _ Hm).
  - intros df' ws' n Ha Hlen Hcols. revert Ha.
    replace ((Pd.len master_df =? 0)%nat || (length (Pd.columns master_df) =? 0)%nat)
      with false.
    2:{ symmetry. apply orb_false_iff. split; apply Nat.eqb_neq; [done|].
        by destruct (Pd.columns master_df). }
    destruct (ExcelProcessor.scale_column master_df "Daily_No_Ruc") as [df1|] eqn:E1;
      [|done].
    simpl.
    destruct (ExcelProcessor.scale_column df1 "Daily") as [df2|] eqn:E2; [|done].
    simpl. rewrite append_master_rows_eq. intros [= <- <- <-].
    apply scale_column_shape in E1 as (Hc1 & Hl1 & _).
    apply scale_column_shape in E2 as (Hc2 & Hl2 & _).
    split; [congruence|]. split; congruence.
Qed.

Lemma a_on_empty_and_incomplete_frames_witness :
  @ExcelProcessor.a sample_library sample_sheet sample_master = None.
Proof.
  refine (proj1 (proj2 (@a_on_empty_and_incomplete_frames sample_library
                          sample_sheet sample_master)) _ _ _).
  - vm_compute. lia.
  - discriminate.
  - left. reflexivity.
Defined.

(** ** What the append scripts change on the disk *)

Section disk_frame.
Context `{Library}.

Lemma unchanged_first_sheet_only (dst : string) (disk : Fs.Disk) :
  changes_first_sheet_only dst disk disk.
Proof. split; [done|by left]. Qed.

Lemma saved_first_sheet_only (dst : string) (disk : Fs.Disk)
    (wb : Fs.Workbook) (ws' : Xl.Worksheet) :
  disk !! dst = Some wb ->
  changes_first_sheet_only dst disk (<[dst := <[0%nat := ws']> wb]> disk).
Proof.
  intros Hwb. split.
  - intros path Hne. by rewrite lookup_insert_ne.
  - right. exists wb, ws'. split; [done|]. by rewrite lookup_insert_eq.
Qed.

End disk_frame.



(** ** Appending a filtered frame *)

Section filtered_rows.
Context `{Library}.
Implicit Types (ws : Xl.Worksheet).

Lemma cell_write_if_same (b : bool) ws r c v :
  Xl.cell (if b then Xl.write ws r c v else ws) r c
  = if b then assigned (Xl.cell ws r c) v else Xl.cell ws r c.
Proof. destruct b; [|done]. rewrite cell_write. by destruct (decide _). Qed.

Lemma cell_write_if_other (b : bool) ws r c v r' c' :
  (r, c) <> (r', c') ->
  Xl.cell (if b then Xl.write ws r c v else ws) r' c' = Xl.cell ws r' c'.
Proof.
  intros Hne. destruct b; [|done]. rewrite cell_write. by destruct (decide _).
Qed.

Lemma assigned_nth (row_data : list value) i cl :
  (if (i <? length row_data)%nat then assigned cl (nth i row_data VNone) else cl)
  = match row_data !! i with
    | Some v => assigned cl v
    | None => cl
    end.
Proof.
  destruct (i <? length row_data)%nat eqn:E.
  - apply Nat.ltb_lt in E.
    destruct (lookup_lt_is_Some_2 row_data i E) as [v Hv]. rewrite Hv.
    by rewrite (nth_lookup_Some _ _ VNone _ Hv).
  - apply Nat.ltb_ge in E. by rewrite (lookup_ge_None_2 row_data i E).
Qed.

Lemma write_filtered_row_eq ws r id row_data :
  ExcelProcessor.write_filtered_row ws r id row_data
  = let w i c ws :=
      if (i <? length row_data)%nat
      then Xl.write ws r c (nth i row_data VNone) else ws in
    w 5%nat 7%nat
      (w 4%nat 5%nat
         (w 3%nat 4%nat
            (w 2%nat 6%nat
               (w 0%nat 3%nat
                  (ExcelProcessor.apply_master_formats
                     (Xl.write ws r 1 (VInt id)) r))))).
Proof.
  unfold ExcelProcessor.write_filtered_row. cbv zeta.
  change (Py.enumerate ExcelProcessor.BASE_COLS)
    with [(0, "Start Month"); (1, "State"); (2, "Utility"); (3, "Congestion Zone");
          (4, "Load Factor"); (5, "Term"); (6, "Product"); (7, "0-200,000")]%nat.
  cbn [fold_left].
  change (Py.dict_get "Start Month" ExcelProcessor.col_mapping) with (Some (Some 1%nat)).
  change (Py.dict_get "State" ExcelProcessor.col_mapping) with (Some (@None nat)).
  change (Py.dict_get "Utility" ExcelProcessor.col_mapping) with (Some (Some 4%nat)).
  change (Py.dict_get "Congestion Zone" ExcelProcessor.col_mapping)
    with (Some (Some 2%nat)).
  change (Py.dict_get "Load Factor" ExcelProcessor.col_mapping) with (Some (Some 3%nat)).
  change (Py.dict_get "Term" ExcelProcessor.col_mapping) with (Some (Some 5%nat)).
  change (Py.dict_get "Product" ExcelProcessor.col_mapping) with (Some (@None nat)).
  change (Py.dict_get "0-200,000" ExcelProcessor.col_mapping) with (Some (@None nat)).
  cbv iota beta.
  by repeat match goal with
            | |- context [if ?b then ?x else ?x] => replace (if b then x else x) with x
                by (by destruct b)
            end.
Qed.

Lemma cell_write_filtered_row ws r id row_data r' c' :
  Xl.cell (ExcelProcessor.write_filtered_row ws r id row_data) r' c'
  = if decide (r' = r)
    then appended_cell (Xl.cell ws r c') id (filtered_values row_data) c'
    else Xl.cell ws r' c'.
Proof.
  rewrite write_filtered_row_eq. cbv beta zeta.
  destruct (decide (r' = r)) as [->|Hr].
  2:{ rewrite !cell_write_if_other by congruence.
      rewrite cell_apply_master_formats. destruct (decide _); [done|].
      by rewrite cell_write_other_row. }
  assert (Hbase : forall c,
            Xl.cell (ExcelProcessor.apply_master_formats
                       (Xl.write ws r 1 (VInt id)) r) r c
            = master_cell (if (c =? 1)%nat then Xl.bind_value (Xl.cell ws r 1) (VInt id)
                           else Xl.cell ws r c) c).
  { intros c. rewrite cell_apply_master_formats.
    destruct (decide (r = r)) as [_|]; [|done]. rewrite cell_write.
    destruct (c =? 1)%nat eqn:E.
    - apply Nat.eqb_eq in E as ->. by destruct (decide _).
    - apply Nat.eqb_neq in E.
      destruct (decide _) as [[= ?]|_]; [congruence|done]. }
  unfold appended_cell, filtered_values.
  destruct (Nat.eq_dec c' 7%nat) as [->|H7].
  { rewrite cell_write_if_same, !cell_write_if_other by congruence.
    rewrite assigned_nth, Hbase. cbn. by destruct (row_data !! 5%nat). }
  rewrite (cell_write_if_other _ _ _ 7%nat) by congruence.
  destruct (Nat.eq_dec c' 5%nat) as [->|H5].
  { rewrite cell_write_if_same, !cell_write_if_other by congruence.
    rewrite assigned_nth, Hbase. cbn. by destruct (row_data !! 4%nat). }
  rewrite (cell_write_if_other _ _ _ 5%nat) by congruence.
  destruct (Nat.eq_dec c' 4%nat) as [->|H4].
  { rewrite cell_write_if_same, !cell_write_if_other by congruence.
    rewrite assigned_nth, Hbase. cbn. by destruct (row_data !! 3%nat). }
  rewrite (cell_write_if_other _ _ _ 4%nat) by congruence.
  destruct (Nat.eq_dec c' 6%nat) as [->|H6].
  { rewrite cell_write_if_same, !cell_write_if_other by congruence.
    rewrite assigned_nth, Hbase. cbn. by destruct (row_data !! 2%nat). }
  rewrite (cell_write_if_other _ _ _ 6%nat) by congruence.
  destruct (Nat.eq_dec c' 3%nat) as [->|H3].
  { rewrite cell_write_if_same.
    rewrite assigned_nth, Hbase. cbn. by destruct (row_data !! 0%nat). }
  rewrite (cell_write_if_other _ _ _ 3%nat) by congruence.
  rewrite Hbase.
  destruct (Nat.eq_dec c' 1%nat) as [->|H1]; [done|].
  replace (c' =? 1)%nat with false by (symmetry; by apply Nat.eqb_neq).
  destruct (2 <=? c')%nat eqn:E2; [|done].
  apply Nat.leb_le in E2.
  destruct (Nat.eq_dec c' 2%nat) as [->|H2]; [done|].
  replace (c' - 2)%nat with (S (S (S (S (S (S (c' - 8))))))) by lia. done.
Qed.

Lemma append_filtered_rows_eq df ws :
  (Pd.len df =? 0)%nat || (length (Pd.columns df) =? 0)%nat = false ->
  ExcelProcessor.append_filtered_dataframe_to_master df ws
  = (write_rows ExcelProcessor.write_filtered_row
       (ExcelProcessor.find_first_blank_row ws) (ExcelProcessor.get_next_id ws)
       (Pd.values (Pd.rows df)) ws,
     Pd.len df).
Proof.
  intros Hne. unfold ExcelProcessor.append_filtered_dataframe_to_master.
  rewrite Hne. cbv zeta.
  change (default _ (List.find _ _)) with (ExcelProcessor.find_first_blank_row ws).
  change (ExcelProcessor.max_id_of ws + 1) with (ExcelProcessor.get_next_id ws).
  set (r0 := ExcelProcessor.find_first_blank_row ws).
  set (id0 := ExcelProcessor.get_next_id ws).
  rewrite (fold_left_ext_in _
             (fun '(a, n) x =>
                ((fun ws '(i, row) =>
                    ExcelProcessor.write_filtered_row ws (r0 + i)%nat
                      (id0 + Z.of_nat i) row) a x, (n + 1)%nat)))
    by (by intros [? ?] [? ?]).
  rewrite fold_counting. unfold Py.enumerate.
  rewrite (fold_enumerate_write_rows ExcelProcessor.write_filtered_row).
  f_equal.
  - f_equal; lia.
  - unfold Pd.len, Pd.values.
    rewrite length_combine, length_seq, !length_map. lia.
Qed.

End filtered_rows.

(** X10.  [append_filtered_dataframe_to_master] starts at the first
    unused row with the next identifier, as [find_first_blank_row] and
    [get_next_id] give them, and appends one row per row of the frame.  Of
    a row tuple it writes the cells at the places 0, 3, 4, 2 and 5 into
    columns C, D, E, F and G, whatever the labels of the frame are; it
    writes no value into column B nor into any column from H on, so the
    price is never written; and it leaves the rows above as they were. *)
Theorem append_filtered_dataframe_writes_by_position `{Library}
    (combined_df : Pd.DataFrame) (ws_dst : Xl.Worksheet) :
  Pd.len combined_df <> 0%nat -> Pd.columns combined_df <> [] ->
  let res := ExcelProcessor.append_filtered_dataframe_to_master combined_df ws_dst in
  let r0 := ExcelProcessor.find_first_blank_row ws_dst in
  let n0 := ExcelProcessor.get_next_id ws_dst in
  snd res = Pd.len combined_df /\
  (forall r c, (r < r0)%nat -> Xl.cell (fst res) r c = Xl.cell ws_dst r c) /\
  (forall j row_data c,
     Pd.values (Pd.rows combined_df) !! j = Some row_data ->
     Xl.cell (fst res) (r0 + j) c
     = appended_cell (Xl.cell ws_dst (r0 + j) c) (n0 + Z.of_nat j)
         (filtered_values row_data) c) /\
  (forall j row_data c,
     Pd.values (Pd.rows combined_df) !! j = Some row_data ->
     c = 2%nat \/ (8 <= c)%nat ->
     Xl.value_of (Xl.cell (fst res) (r0 + j) c)
     = Xl.value_of (Xl.cell ws_dst (r0 + j) c)).
Proof.
  intros Hlen Hcols res r0 n0.
  assert (Hne : (Pd.len combined_df =? 0)%nat
                || (length (Pd.columns combined_df) =? 0)%nat = false).
  { apply orb_false_iff. split; apply Nat.eqb_neq; [done|].
    by destruct (Pd.columns combined_df). }
  unfold res. rewrite (append_filtered_rows_eq _ _ Hne). cbn [fst snd].
  fold r0 n0.
  assert (Hrow : forall j row_data c,
            Pd.values (Pd.rows combined_df) !! j = Some row_data ->
            Xl.cell (write_rows ExcelProcessor.write_filtered_row r0 n0
                       (Pd.values (Pd.rows combined_df)) ws_dst) (r0 + j) c
            = appended_cell (Xl.cell ws_dst (r0 + j) c) (n0 + Z.of_nat j)
                (filtered_values row_data) c).
  { intros j row_data c Hj.
    rewrite (write_rows_cell _ filtered_values cell_write_filtered_row).
    replace (r0 <=? r0 + j)%nat with true by (symmetry; apply Nat.leb_le; lia).
    replace (r0 + j - r0)%nat with j by lia. by rewrite Hj. }
  split; [done|]. split; [|split].
  - intros r c Hr.
    rewrite (write_rows_cell _ filtered_values cell_write_filtered_row).
    by replace (r0 <=? r)%nat with false by (symmetry; apply Nat.leb_gt; lia).
  - exact Hrow.
  - intros j row_data c Hj Hc. rewrite (Hrow _ _ _ Hj).
    unfold appended_cell, filtered_values.
    destruct Hc as [->|Hc].
    + cbn. by rewrite ?master_cell_value.
    + replace (c =? 1)%nat with false by (symmetry; apply Nat.eqb_neq; lia).
      replace (2 <=? c)%nat with true by (symmetry; apply Nat.leb_le; lia).
      replace (c - 2)%nat with (S (S (S (S (S (S (c - 8))))))) by lia.
      destruct (c - 8)%nat; cbn; apply master_cell_value.
Qed.

Lemma append_filtered_dataframe_writes_by_position_witness :
  let ws := fst (@ExcelProcessor.append_filtered_dataframe_to_master sample_library
                   (@ExcelProcessor.filter_sheet sample_library sample_sheet)
                   sample_master) in
  Xl.value_of (Xl.cell ws 4 3) = VStr "2024-01-01" /\
  Xl.value_of (Xl.cell ws 4 9) = VNone.
Proof.
  destruct (@append_filtered_dataframe_writes_by_position sample_library
              (@ExcelProcessor.filter_sheet sample_library sample_sheet) sample_master)
    as (_ & _ & Hrow & Hskip).
  - vm_compute. lia.
  - vm_compute. discriminate.
  - cbv zeta in *.
    assert (Er : ExcelProcessor.find_first_blank_row sample_master = 4%nat)
      by (vm_compute; reflexivity).
    rewrite Er in Hrow, Hskip.
    assert (Hj : Pd.values (Pd.rows (@ExcelProcessor.filter_sheet sample_library
                                       sample_sheet)) !! 0%nat
                 = Some [VStr "2024-01-01"; VStr "TX"; VStr "HOUSTON"; VInt 12;
                         VStr "Fixed Price"; VFloat (151 # 2)])
      by (vm_compute; reflexivity).
    pose proof (Hrow 0%nat _ 3%nat Hj) as H3.
    assert (Hc : 9%nat = 2%nat \/ (8 <= 9)%nat) by (right; lia).
    pose proof (Hskip 0%nat _ 9%nat Hj Hc) as H9.
    change (4 + 0)%nat with 4%nat in H3, H9.
    split; [rewrite H3|rewrite H9]; vm_compute; reflexivity.
Defined.


(** ** Writing an updated copy of the master *)

Section master_copy.
Context `{Library}.
Implicit Types (ws : Xl.Worksheet) (cols : list string) (row : list value).

(** The row of a renumbered frame: its ID cell replaced, or added at the
    end when the frame has no ID column. *)
Lemma renumber_values df next_id :
  Pd.values (Pd.rows (ExcelProcessor.renumber df next_id))
  = map (fun '(j, r) =>
           match Pd.position "ID" (Pd.columns df) with
           | Some k => Pd.set_nth k (VInt (next_id + Z.of_nat j)) r
           | None => r ++ [VInt (next_id + Z.of_nat j)]
           end)
        (Py.enumerate (Pd.values (Pd.rows df))).
Proof.
  unfold ExcelProcessor.renumber, Py.enumerate, Pd.values.
  rewrite length_map. generalize 0%nat as k0.
  destruct (Pd.position "ID" (Pd.columns df)) as [k|]; cbn [Pd.rows];
    induction (Pd.rows df) as [|[i r] rs IH]; intros k0; simpl; try done;
    by rewrite IH.
Qed.

Lemma not_master_header_id h : In h ExcelProcessor.MASTER_HEADERS -> h <> "ID".
Proof.
  intros Hin ->. revert Hin. unfold ExcelProcessor.MASTER_HEADERS.
  cbn [In]. intuition discriminate.
Qed.

Lemma mem_app_id h cols : h <> "ID" -> Pd.mem h (cols ++ ["ID"]) = Pd.mem h cols.
Proof.
  intros Hh. unfold Pd.mem. rewrite existsb_app. simpl.
  replace (String.eqb h "ID") with false by (symmetry; by apply String.eqb_neq).
  by rewrite !orb_false_r.
Qed.

Lemma position_app c l l' k :
  Pd.position c l = Some k -> Pd.position c (l ++ l') = Some k.
Proof.
  revert k. induction l as [|x l IH]; intros k; simpl; [done|].
  destruct (String.eqb x c); [done|].
  destruct (Pd.position c l) as [k'|]; [|done]. simpl. intros [= <-].
  by rewrite (IH k' eq_refl).
Qed.

Lemma position_app_last c l :
  Pd.position c l = None -> Pd.position c (l ++ [c]) = Some (length l).
Proof.
  induction l as [|x l IH]; simpl.
  - by rewrite String.eqb_refl.
  - destruct (String.eqb x c); [done|].
    destruct (Pd.position c l) as [k'|]; [done|]. intros _. by rewrite IH.
Qed.

Lemma mem_position c l : Pd.mem c l = true -> is_Some (Pd.position c l).
Proof.
  intros Hm. destruct (Pd.position c l) as [k|] eqn:E; [eauto|].
  unfold Pd.mem in Hm. apply existsb_exists in Hm as (x & Hx & Ex).
  apply String.eqb_eq in Ex as <-.
  destruct (position_In c l Hx) as [k Hk]. congruence.
Qed.

Lemma position_mem c l k : Pd.position c l = Some k -> Pd.mem c l = true.
Proof.
  intros Hk. destruct (Pd.mem c l) eqn:E; [done|].
  apply mem_false_position in E. congruence.
Qed.

(** Renumbering changes neither which master headers the frame has nor
    the cells under them, and puts the identifier under ID. *)
Lemma renumbered_cells cols row id :
  length row = length cols ->
  let cols' := match Pd.position "ID" cols with
               | Some _ => cols
               | None => cols ++ ["ID"]
               end in
  let row' := match Pd.position "ID" cols with
              | Some k => Pd.set_nth k (VInt id) row
              | None => row ++ [VInt id]
              end in
  Pd.mem "ID" cols' = true /\ Pd.cell cols' "ID" row' = VInt id /\
  forall h, h <> "ID" ->
    Pd.mem h cols' = Pd.mem h cols /\
    (Pd.mem h cols = true -> Pd.cell cols' h row' = Pd.cell cols h row).
Proof.
  intros Hlen. cbv zeta.
  destruct (Pd.position "ID" cols) as [k|] eqn:Ek.
  - destruct (position_Some _ _ _ Ek) as [Hk _].
    split; [by apply (position_mem _ _ k)|]. split.
    + unfold Pd.cell. rewrite Ek. apply nth_set_nth_eq. lia.
    + intros h Hh. split; [done|]. intros Hm.
      destruct (mem_position _ _ Hm) as [p Hp]. unfold Pd.cell. rewrite Hp.
      apply nth_set_nth_ne. intros E. apply Hh.
      apply (position_inj h "ID" cols p); congruence.
  - split; [apply (position_mem _ _ (length cols)); by apply position_app_last|].
    split.
    + unfold Pd.cell. rewrite (position_app_last _ _ Ek), <- Hlen.
      by rewrite app_nth2, Nat.sub_diag by lia.
    + intros h Hh. split; [by apply mem_app_id|]. intros Hm.
      destruct (mem_position _ _ Hm) as [p Hp]. unfold Pd.cell.
      rewrite (position_app _ _ ["ID"] _ Hp), Hp.
      destruct (position_Some _ _ _ Hp) as [Hlt _].
      apply app_nth1. lia.
Qed.

Lemma cell_write_copy_row cols row ws r id r' c' :
  length row = length cols ->
  let cols' := match Pd.position "ID" cols with
               | Some _ => cols
               | None => cols ++ ["ID"]
               end in
  let row' := match Pd.position "ID" cols with
              | Some k => Pd.set_nth k (VInt id) row
              | None => row ++ [VInt id]
              end in
  Xl.cell (ExcelProcessor.write_copy_row cols' ws r id row') r' c'
  = if decide (r' = r)
    then appended_cell (Xl.cell ws r c') id (master_values cols row) c'
    else Xl.cell ws r' c'.
Proof.
  intros Hlen cols' row'.
  destruct (renumbered_cells cols row id Hlen) as (Hmem & Hid & Hother).
  fold cols' row' in Hmem, Hid, Hother.
  unfold ExcelProcessor.write_copy_row, Py.enumerate. rewrite Hmem, Hid.
  rewrite (fold_left_ext_in _
             (fun ws '(i, h) =>
                match (if Pd.mem h cols then Some (Pd.cell cols h row) else None) with
                | Some v => Xl.write ws r (i + 2) v
                | None => ws
                end)).
  2:{ intros ws0 [i h] Hin. apply in_combine_r in Hin.
      destruct (Hother h (not_master_header_id h Hin)) as [Hm Hc].
      rewrite Hm. destruct (Pd.mem h cols); [|done]. by rewrite Hc. }
  rewrite (cell_write_values
             (fun h => if Pd.mem h cols then Some (Pd.cell cols h row) else None)).
  rewrite !cell_write, !cell_apply_master_formats.
  destruct (decide (r' = r)) as [->|Hr].
  - destruct (decide (r = r)) as [_|?]; [|done].
    unfold appended_cell, master_values.
    rewrite list_lookup_fmap.
    change (0 + 2 <=? c')%nat with (2 <=? c')%nat.
    change (0 + 2)%nat with 2%nat.
    destruct (decide ((r, 1%nat) = (r, c'))) as [[= <-]|Hne].
    + simpl. done.
    + replace (c' =? 1)%nat with false
        by (symmetry; apply Nat.eqb_neq; congruence).
      destruct (2 <=? c')%nat; [|done].
      destruct (ExcelProcessor.MASTER_HEADERS !! _) as [h|]; [|done]. simpl.
      by destruct (Pd.mem h cols).
  - destruct (decide ((r, 1%nat) = (r', c'))) as [[= ? ?]|_]; [congruence|].
    by destruct (decide (r' = r)).
Qed.

Lemma copy_rows_fold cols xs r0 n0 k ws r c :
  Forall (fun row => length row = length cols) xs ->
  let cols' := match Pd.position "ID" cols with
               | Some _ => cols
               | None => cols ++ ["ID"]
               end in
  Xl.cell
    (fold_left
       (fun ws '(i, row) =>
          ExcelProcessor.write_copy_row cols' ws (r0 + i)%nat (n0 + Z.of_nat i) row)
       (combine (seq k (length xs))
          (map (fun '(j, x) =>
                  match Pd.position "ID" cols with
                  | Some k0 => Pd.set_nth k0 (VInt (n0 + Z.of_nat j)) x
                  | None => x ++ [VInt (n0 + Z.of_nat j)]
                  end)
               (combine (seq k (length xs)) xs)))
       ws) r c
  = Xl.cell (write_rows (ExcelProcessor.write_master_row cols)
               (r0 + k)%nat (n0 + Z.of_nat k) xs ws) r c.
Proof.
  intros Hvalid cols'. revert k ws.
  induction Hvalid as [|x xs Hx Hxs IH]; intros k ws; [done|].
  cbn [length seq combine map fold_left write_rows].
  rewrite IH.
  replace (r0 + S k)%nat with (S (r0 + k)) by lia.
  replace (n0 + Z.of_nat (S k)) with (n0 + Z.of_nat k + 1) by lia.
  rewrite !(write_rows_cell _ _ (cell_write_master_row cols)).
  rewrite !(cell_write_copy_row cols x) by done.
  by rewrite !cell_write_master_row.
Qed.

Lemma write_copy_rows_cells df ws r c :
  rectangular df ->
  Xl.cell (fst (ExcelProcessor.write_copy_rows df ws)) r c
  = Xl.cell (fst (ExcelProcessor.append_master_rows df ws)) r c.
Proof.
  intros Hrect. rewrite append_master_rows_eq. cbn [fst].
  unfold ExcelProcessor.write_copy_rows. cbv zeta.
  generalize (ExcelProcessor.find_first_blank_row ws) as r0.
  generalize (ExcelProcessor.get_next_id ws) as n0. intros n0 r0.
  rewrite (fold_left_ext_in _
             (fun '(a, n) x =>
                ((fun ws '(i, row) =>
                    ExcelProcessor.write_copy_row
                      (Pd.columns (ExcelProcessor.renumber df n0)) ws (r0 + i)%nat
                      (n0 + Z.of_nat i) row) a x, (n + 1)%nat)))
    by (by intros [? ?] [? ?]).
  rewrite fold_counting. cbn [fst].
  rewrite renumber_values.
  assert (Hcols : Pd.columns (ExcelProcessor.renumber df n0)
                  = match Pd.position "ID" (Pd.columns df) with
                    | Some _ => Pd.columns df
                    | None => Pd.columns df ++ ["ID"]
                    end).
  { unfold ExcelProcessor.renumber. by destruct (Pd.position _ _). }
  rewrite Hcols.
  assert (Hvalid : Forall (fun row => length row = length (Pd.columns df))
                          (Pd.values (Pd.rows df))).
  { apply List.Forall_forall. intros row Hin. unfold Pd.values in Hin.
    apply in_map_iff in Hin as (ir & <- & Hin). by apply Hrect. }
  unfold Py.enumerate. rewrite length_map, length_combine, length_seq, Nat.min_id.
  rewrite (copy_rows_fold (Pd.columns df) _ r0 n0 0 ws r c Hvalid).
  f_equal. f_equal; lia.
Qed.

End master_copy.

(** X11.  [write_updated_master_copy] changes no file but the output
    file, so the master itself stays as it is when the output is another
    file.  It raises [FileNotFoundError] when the master is missing, and
    writes nothing for a frame without rows or columns.  Otherwise the
    output is the master workbook whose active sheet has received, cell
    for cell, the rows that the row loop of [a] writes for the same frame:
    the identifiers continue the master's, whatever the ID column of the
    frame held, and no price is rescaled. *)
Theorem write_updated_master_copy_spares_master `{Library}
    (save_denied : bool) (active : nat) (master_df : Pd.DataFrame)
    (disk : Fs.Disk) (master_path out_path : string) :
  let out := ExcelProcessor.write_updated_master_copy save_denied active master_df
               disk master_path out_path in
  (forall path, path <> out_path -> Fs.disk_after out !! path = disk !! path) /\
  (disk !! master_path = None ->
   Fs.raised out = Some "FileNotFoundError" /\ Fs.disk_after out = disk) /\
  (is_Some (disk !! master_path) ->
   Pd.len master_df = 0%nat \/ Pd.columns master_df = [] ->
   Fs.raised out = None /\ Fs.disk_after out = disk) /\
  (forall wb_dst ws_dst,
     disk !! master_path = Some wb_dst -> wb_dst !! active = Some ws_dst ->
     Pd.len master_df <> 0%nat -> Pd.columns master_df <> [] ->
     rectangular master_df -> save_denied = false ->
     Fs.raised out = None /\
     exists ws',
       Fs.disk_after out !! out_path = Some (<[active := ws']> wb_dst) /\
       forall r c,
         Xl.cell ws' r c
         = Xl.cell (fst (ExcelProcessor.append_master_rows master_df ws_dst)) r c).
Proof.
  intros out. unfold out, ExcelProcessor.write_updated_master_copy, Fs.save.
  split; [|split; [|split]].
  - intros path Hpath.
    destruct (disk !! master_path) as [wb_dst|]; [|done].
    destruct (_ || _); [done|].
    destruct (wb_dst !! active) as [ws_dst|]; [|done].
    destruct (ExcelProcessor.write_copy_rows master_df ws_dst) as [ws n].
    destruct save_denied; [done|]. cbn [Fs.disk_after].
    by rewrite lookup_insert_ne.
  - by intros ->.
  - intros [wb_dst Hwb] Hempty. rewrite Hwb.
    replace ((Pd.len master_df =? 0)%nat || (length (Pd.columns master_df) =? 0)%nat)
      with true; [done|].
    symmetry. apply orb_true_iff.
    destruct Hempty as [E|E]; rewrite E; [by left|by right].
  - intros wb_dst ws_dst Hwb Hws Hlen Hcols Hrect Hsave. rewrite Hwb, Hsave.
    replace ((Pd.len master_df =? 0)%nat || (length (Pd.columns master_df) =? 0)%nat)
      with false.
    2:{ symmetry. apply orb_false_iff. split; apply Nat.eqb_neq; [done|].
        by destruct (Pd.columns master_df). }
    rewrite Hws.
    pose proof (fun r c => write_copy_rows_cells master_df ws_dst r c Hrect) as Hcells.
    destruct (ExcelProcessor.write_copy_rows master_df ws_dst) as [ws n].
    cbn [Fs.raised Fs.disk_after]. split; [done|].
    exists ws. split; [by rewrite lookup_insert_eq|]. exact Hcells.
Qed.

Lemma write_updated_master_copy_spares_master_witness :
  let out := @ExcelProcessor.write_updated_master_copy sample_library false 0
               sample_master_frame master_only_disk "Master-Table.xlsx"
               "master-file-updated.xlsx" in
  Fs.disk_after out !! "Master-Table.xlsx" = Some [sample_master] /\
  Fs.raised out = None.
Proof.
  pose proof (@write_updated_master_copy_spares_master sample_library false 0
                sample_master_frame master_only_disk "Master-Table.xlsx"
                "master-file-updated.xlsx") as (Hframe & _ & _ & Hrows).
  cbv zeta in *. split.
  - rewrite Hframe by discriminate. reflexivity.
  - refine (proj1 (Hrows [sample_master] sample_master eq_refl eq_refl _ _ _ eq_refl)).
    + vm_compute. lia.
    + discriminate.
    + intros ir Hin. vm_compute in Hin.
      destruct Hin as [<-|[<-|[]]]; reflexivity.
Defined.


(** ** The row filter of [filtration.py] *)

Section keyed_labels.
Variable key : string -> string.
Local Abbreviation key_map := (key_map key).

Lemma key_map_get cols k c :
  Py.dict_get k (key_map cols) = Some c -> In c cols /\ key c = k.
Proof.
  unfold key_map. revert k c.
  induction cols as [|x cols IH] using rev_ind; intros k c; [done|].
  rewrite fold_left_app. simpl. rewrite dict_get_set.
  destruct (String.eqb _ k) eqn:E.
  - apply String.eqb_eq in E. intros [= <-]. split; [|done].
    apply in_or_app. right. by left.
  - intros Hg. destruct (IH _ _ Hg) as [Hin Hk].
    split; [|done]. apply in_or_app. by left.
Qed.

Lemma key_map_miss cols k :
  (forall c, In c cols -> key c <> k) -> Py.dict_get k (key_map cols) = None.
Proof.
  intros Hall. destruct (Py.dict_get k (key_map cols)) as [c|] eqn:E; [|done].
  apply key_map_get in E as [Hin Hk]. by destruct (Hall c Hin).
Qed.

Lemma key_map_last k1 c k2 :
  (forall x, In x k2 -> key x <> key c) ->
  Py.dict_get (key c) (key_map (k1 ++ c :: k2)) = Some c.
Proof.
  unfold key_map. induction k2 as [|x k2 IH] using rev_ind; intros Hk2.
  - rewrite fold_left_app. simpl. rewrite dict_get_set. by rewrite String.eqb_refl.
  - rewrite app_comm_cons, app_assoc, fold_left_app. simpl. rewrite dict_get_set.
    destruct (String.eqb _ _) eqn:E.
    + apply String.eqb_eq in E. exfalso. apply (Hk2 x); [|done].
      apply in_or_app. right. by left.
    + apply IH. intros y Hy. apply Hk2. apply in_or_app. by left.
Qed.

Lemma key_map_has cols c :
  In c cols -> is_Some (Py.dict_get (key c) (key_map cols)).
Proof.
  unfold key_map.
  induction cols as [|x cols IH] using rev_ind; [done|].
  rewrite fold_left_app. simpl. rewrite dict_get_set.
  intros [Hin|[<-|[]]]%in_app_or.
  - destruct (String.eqb _ _); eauto.
  - rewrite String.eqb_refl. eauto.
Qed.

End keyed_labels.

Section legacy_filter.
Context `{Library}.

Lemma find_col_eq df names :
  Filtration.find_col df names
  = match Py.first_some
            (fun name => Py.dict_get (label_key name) (key_map label_key (Pd.columns df)))
            names with
    | Some col => Some col
    | None =>
        Py.first_some
          (fun '(key, orig) =>
             if existsb (fun name => PyStr.contains (label_key name) key) names
             then Some orig else None)
          (key_map label_key (Pd.columns df))
    end.
Proof. reflexivity. Qed.

(** With one label only that reads [a] or [b], both filters pick it. *)
Lemma only_label_found (a b : string) (a' b' : string) cols c :
  label_key a' = a -> label_key b' = b ->
  only_label (fun x => label_key x = a \/ label_key x = b) cols c ->
  (forall df, Pd.columns df = cols -> Filtration.find_col df [a'; b'] = Some c) /\
  List.find (fun col => Pd.mem (label_key col) [a; b]) cols = Some c.
Proof.
  intros Ha Hb (k1 & k2 & -> & Hc & Hothers). split.
  - intros df Hcols. rewrite find_col_eq, Hcols. cbn [Py.first_some].
    rewrite Ha, Hb.
    assert (Hlast : forall x, In x k2 -> label_key x <> label_key c).
    { intros x Hx E. apply (Hothers x); [apply in_or_app; by right|].
      rewrite E. exact Hc. }
    destruct Hc as [Hc|Hc].
    + rewrite <- Hc at 1. by rewrite (key_map_last label_key k1 c k2 Hlast).
    + destruct (Py.dict_get a (key_map label_key (k1 ++ c :: k2))) as [c0|] eqn:E.
      * apply key_map_get in E as [Hin Hk].
        apply in_app_or in Hin as [Hin|[<-|Hin]].
        -- destruct (Hothers c0); [apply in_or_app; by left|by left].
        -- done.
        -- destruct (Hothers c0); [apply in_or_app; by right|by left].
      * rewrite <- Hc at 1. by rewrite (key_map_last label_key k1 c k2 Hlast).
  - induction k1 as [|x k1 IH]; cbn [app List.find].
    + replace (Pd.mem (label_key c) [a; b]) with true; [done|].
      symmetry. unfold Pd.mem. simpl.
      destruct Hc as [->| ->]; rewrite String.eqb_refl; [done|].
      by rewrite orb_true_r.
    + replace (Pd.mem (label_key x) [a; b]) with false.
      * apply IH. intros y Hy. apply Hothers. by right.
      * symmetry. unfold Pd.mem. simpl. rewrite orb_false_r.
        apply orb_false_iff.
        assert (Hx : ~ (label_key x = a \/ label_key x = b))
          by (apply Hothers; by left).
        split; apply String.eqb_neq; intros E; apply Hx; auto.
Qed.

End legacy_filter.



(** X13.  Whenever [find_col] finds no product or no term column,
    [filter_sheet] of [filtration.py] raises [KeyError]: the empty frame
    it selects the base columns from has them all only if the frame has a
    'Product' and a 'Term' column, which [find_col] would have found. *)
Theorem legacy_filter_sheet_raises_without_columns `{Library} (df : Pd.DataFrame) :
  (Pd.mem "Product" (Pd.columns df) = true ->
   is_Some (Filtration.find_col df ["Product"; "Products"])) /\
  (Pd.mem "Term" (Pd.columns df) = true ->
   is_Some (Filtration.find_col df ["Term"; "Terms"])) /\
  (Filtration.find_col df ["Product"; "Products"] = None \/
   Filtration.find_col df ["Term"; "Terms"] = None ->
   Filtration.filter_sheet df = None).
Proof.
  assert (Hfound : forall a b, Pd.mem a (Pd.columns df) = true ->
            is_Some (Filtration.find_col df [a; b])).
  { intros a b Hm. rewrite find_col_eq. cbn [Py.first_some].
    assert (Hin : In a (Pd.columns df)).
    { unfold Pd.mem in Hm. apply existsb_exists in Hm as (x & Hx & E).
      apply String.eqb_eq in E. by subst. }
    destruct (key_map_has label_key _ _ Hin) as [c Hc]. rewrite Hc. eauto. }
  split; [apply Hfound|]. split; [apply Hfound|].
  intros Hnone. unfold Filtration.filter_sheet. cbv zeta.
  assert (Hbase : forallb (fun c => Pd.mem c (Pd.columns df)) Filtration.BASE_COLS
                  = false).
  { destruct (forallb _ _) eqn:E; [|done]. exfalso.
    rewrite forallb_forall in E.
    assert (Hp : Pd.mem "Product" (Pd.columns df) = true)
      by (apply E; unfold Filtration.BASE_COLS; cbn [In]; tauto).
    assert (Ht : Pd.mem "Term" (Pd.columns df) = true)
      by (apply E; unfold Filtration.BASE_COLS; cbn [In]; tauto).
    destruct (Hfound "Product" "Products" Hp) as [c1 H1].
    destruct (Hfound "Term" "Terms" Ht) as [c2 H2].
    destruct Hnone; congruence. }
  destruct Hnone as [E|E]; rewrite E.
  - by rewrite Hbase.
  - destruct (Filtration.find_col df ["Product"; "Products"]); by rewrite Hbase.
Qed.


(** ** Formatting a row twice, and two rows *)

Section formats_compose.
Implicit Types (ws : Xl.Worksheet) (cl : Xl.Cell).

Lemma master_cell_idem cl c : master_cell (master_cell cl c) c = master_cell cl c.
Proof.
  unfold master_cell. destruct ((1 <=? c) && (c <=? 17))%nat eqn:E; [|done].
  cbn [Xl.value_of Xl.number_format Xl.alignment]. f_equal.
  - by destruct (master_format c).
  - by destruct (c =? 6)%nat.
Qed.

End formats_compose.

(** X14.  [apply_master_formats] is idempotent and acts on its row only:
    formatting a row a second time changes no cell, and formatting two
    rows gives the same cells in either order. *)
Theorem apply_master_formats_idempotent (ws : Xl.Worksheet) (r1 r2 r c : nat) :
  Xl.cell (ExcelProcessor.apply_master_formats
             (ExcelProcessor.apply_master_formats ws r1) r1) r c
  = Xl.cell (ExcelProcessor.apply_master_formats ws r1) r c /\
  Xl.cell (ExcelProcessor.apply_master_formats
             (ExcelProcessor.apply_master_formats ws r1) r2) r c
  = Xl.cell (ExcelProcessor.apply_master_formats
               (ExcelProcessor.apply_master_formats ws r2) r1) r c.
Proof.
  rewrite !cell_apply_master_formats. split.
  - destruct (decide (r = r1)) as [->|]; [|done].
    destruct (decide (r1 = r1)); [|done]. apply master_cell_idem.
  - destruct (decide (r = r2)) as [E2|H2], (decide (r = r1)) as [E1|H1]; subst;
      repeat (destruct (decide _); try done; try congruence); done.
Qed.


(** ** Choosing the sheet and processing a workbook *)

Section sheets.

Lemma find_In {A} (f : A -> bool) l x : List.find f l = Some x -> In x l /\ f x = true.
Proof. apply find_some. Qed.

Lemma find_after_misses {A} (f : A -> bool) l1 x l2 :
  (forall y, In y l1 -> f y = false) -> f x = true ->
  List.find f (l1 ++ x :: l2) = Some x.
Proof.
  intros Hl1 Hx. induction l1 as [|y l1 IH]; simpl.
  - by rewrite Hx.
  - rewrite Hl1 by (by left). apply IH. intros z Hz. apply Hl1. by right.
Qed.

Lemma find_None_all {A} (f : A -> bool) l :
  (forall y, In y l -> f y = false) -> List.find f l = None.
Proof.
  intros Hl. destruct (List.find f l) as [x|] eqn:E; [|done].
  apply find_some in E as [Hin Hx]. rewrite Hl in Hx by done. done.
Qed.

End sheets.

(** X15.  The sheet chosen for a preferred name is one of the sheets of
    the workbook.  A sheet whose stripped, lowercased name equals the
    stripped, lowercased preferred name wins over every other, the first
    such sheet being taken.  A preferred name made of white space only has
    no words, so, unless a sheet has a blank name, the first sheet of the
    workbook is taken. *)
Theorem preferred_sheet_choice (names : list string) (prefer : string) :
  (forall t, ExcelProcessor.preferred_sheet names prefer = Some t -> In t names) /\
  (forall l1 t l2,
     names = l1 ++ t :: l2 ->
     label_key t = label_key prefer ->
     (forall x, In x l1 -> label_key x <> label_key prefer) ->
     ExcelProcessor.preferred_sheet names prefer = Some t) /\
  (label_key prefer = "" ->
   (forall x, In x names -> label_key x <> "") ->
   ExcelProcessor.preferred_sheet names prefer = hd_error names).
Proof.
  unfold ExcelProcessor.preferred_sheet. cbv zeta. fold (label_key prefer).
  split; [|split].
  - intros t. destruct (List.find _ names) as [t0|] eqn:E.
    + intros [= <-]. by apply find_some in E as [Hin _].
    + intros Hf. by apply find_some in Hf as [Hin _].
  - intros l1 t l2 -> Ht Hl1.
    rewrite (find_after_misses _ l1 t l2); [done| |].
    + intros y Hy. apply String.eqb_neq. by apply Hl1.
    + apply String.eqb_eq. exact Ht.
  - intros Hblank Hnames. rewrite Hblank.
    rewrite find_None_all.
    2:{ intros y Hy. apply String.eqb_neq. by apply Hnames. }
    by destruct names.
Qed.

Lemma preferred_sheet_choice_witness :
  ExcelProcessor.preferred_sheet ["Notes"; " Matrix Table "; "matrix table"] "MATRIX TABLE"
  = Some " Matrix Table ".
Proof.
  refine (proj1 (proj2 (preferred_sheet_choice
                          ["Notes"; " Matrix Table "; "matrix table"] "MATRIX TABLE"))
            ["Notes"] " Matrix Table " ["matrix table"] eq_refl eq_refl _).
  intros x [<-|[]] E. vm_compute in E. discriminate E.
Defined.

Section pipeline.
Context `{Library}.

Lemma scale_column_rows df c df' :
  ExcelProcessor.scale_column df c = Some df' ->
  exists k, Pd.position c (Pd.columns df) = Some k /\
    Pd.columns df' = Pd.columns df /\
    Forall2 (fun ir ir' => exists v, snd ir' = Pd.set_nth k v (snd ir))
            (Pd.rows df) (Pd.rows df').
Proof.
  unfold ExcelProcessor.scale_column.
  destruct (Pd.position c (Pd.columns df)) as [k|]; [|done].
  destruct (mapM _ (Pd.rows df)) as [rows|] eqn:E; [|done].
  intros [= <-]. exists k. split; [done|]. split; [done|]. cbn [Pd.rows].
  apply mapM_Some_1 in E. eapply Forall2_impl; [exact E|].
  intros [i r] ir'. cbn [snd].
  destruct (ExcelProcessor.times_100 (nth k r VNaN)) as [v|]; [|done].
  simpl. intros [= <-]. by exists v.
Qed.

(** Scaling a price column leaves the Term cell of every row of a frame
    in master format as it is. *)
Lemma scale_column_keeps_term df c df' :
  Pd.columns df = master_schema -> c <> "Term" ->
  ExcelProcessor.scale_column df c = Some df' ->
  Pd.columns df' = master_schema /\
  Forall2 (fun ir ir' => nth 6 (snd ir') VNaN = nth 6 (snd ir) VNaN)
          (Pd.rows df) (Pd.rows df').
Proof.
  intros Hcols Hc (k & Hk & Hcols' & Hrows)%scale_column_rows.
  split; [congruence|].
  eapply Forall2_impl; [exact Hrows|].
  intros ir ir' [v ->]. apply nth_set_nth_ne.
  rewrite Hcols in Hk. by apply (position_term_only c).
Qed.

End pipeline.




(** ** The schema mapper, row by row *)

Section mapper_rows.
Context `{Library}.

Lemma lookup_series work f c i :
  Pd.lookup_label i (Pd.series_map f (Pd.getitem work c)) = aligned work f c i.
Proof.
  unfold aligned, labelled_row, Pd.series_map, Pd.getitem.
  induction (Pd.rows work) as [|[j r] rs IH]; simpl; [done|].
  destruct (Nat.eqb i j); [done|]. exact IH.
Qed.

Lemma lookup_if (b : bool) s1 s2 i :
  Pd.lookup_label i (if b then s1 else s2)
  = if b then Pd.lookup_label i s1 else Pd.lookup_label i s2.
Proof. by destruct b. Qed.

Lemma forallb_series work f c :
  forallb Py.isna (Pd.values (Pd.series_map f (Pd.getitem work c)))
  = forallb (fun ir => Py.isna (f (Pd.cell (Pd.columns work) c (snd ir))))
            (Pd.rows work).
Proof.
  unfold Pd.values, Pd.series_map, Pd.getitem.
  induction (Pd.rows work) as [|[j r] rs IH]; simpl; [done|]. by rewrite IH.
Qed.

Lemma blank_shape n cols :
  Pd.blank n cols = tabulated cols (fun _ => map (fun _ => VNaN) cols) (seq 0 n).
Proof. reflexivity. Qed.

Lemma set_scalar_shape cols (F : nat -> list value) (l : list nat) c v k :
  Pd.position c cols = Some k ->
  Pd.set_scalar (tabulated cols F l) c v
  = tabulated cols (fun i => Pd.set_nth k v (F i)) l.
Proof.
  intros Hk. unfold Pd.set_scalar, tabulated. cbn [Pd.columns Pd.rows]. rewrite Hk.
  by rewrite map_map.
Qed.

Lemma set_series_shape cols (F : nat -> list value) (l : list nat) c s k :
  Pd.position c cols = Some k ->
  Pd.set_series (tabulated cols F l) c s
  = tabulated cols (fun i => Pd.set_nth k (Pd.lookup_label i s) (F i)) l.
Proof.
  intros Hk. unfold Pd.set_series, tabulated. cbn [Pd.columns Pd.rows]. rewrite Hk.
  by rewrite map_map.
Qed.

Lemma select_map_map {A B} (f : A -> bool) (g : A -> B) (l : list A) :
  Pd.select (map f l) (map g l) = map g (List.filter f l).
Proof. induction l as [|x l IH]; simpl; [done|]. rewrite IH. by destruct (f x). Qed.

Lemma keep_rows_shape cols (G : nat -> list value) (l : list nat) :
  Pd.position "Term" cols = Some 6%nat ->
  Pd.rows (Pd.getitem_mask (tabulated cols G l)
             (map (fun v => negb (Py.isna v))
                  (Pd.values (Pd.getitem (tabulated cols G l) "Term"))))
  = map (fun i => (i, G i))
        (List.filter (fun i => negb (Py.isna (nth 6 (G i) VNaN))) l).
Proof.
  intros Hk. unfold Pd.getitem_mask, Pd.getitem, Pd.values, Pd.cell, tabulated.
  cbn [Pd.columns Pd.rows]. rewrite Hk, !map_map. cbn [snd].
  apply (select_map_map (fun i => negb (Py.isna (nth 6 (G i) VNaN)))).
Qed.

Lemma map_filter_ext {A B} (g g' : A -> B) (p p' : A -> bool) l :
  (forall x, g x = g' x) -> (forall x, p x = p' x) ->
  map g (List.filter p l) = map g' (List.filter p' l).
Proof.
  intros Hg Hp. induction l as [|x l IH]; simpl; [done|].
  rewrite Hp. destruct (p' x); simpl; by rewrite ?Hg, IH.
Qed.

Lemma no_rows_no_labels (g : nat -> nat * list value) (p : nat -> bool) work :
  (Pd.len work =? 0)%nat = true ->
  [] = map g (List.filter p (seq 0 (Pd.len work))).
Proof. intros E%Nat.eqb_eq. by rewrite E. Qed.

Ltac mapper_rows_chain :=
  rewrite blank_shape;
  repeat first [ erewrite set_scalar_shape by reflexivity
               | erewrite set_series_shape by reflexivity ];
  rewrite keep_rows_shape by reflexivity;
  apply map_filter_ext; intros i;
  cbn [map Pd.set_nth nth];
  unfold mapped_row, mapped_term, mapped_price;
  cbn [m_desc m_price m_green m_term m_start m_zone m_lf m_prod];
  rewrite ?lookup_if, ?lookup_series, ?forallb_series;
  reflexivity.

Lemma mapper_rows_core (c_desc c_price c_green c_term c_start c_zone c_lf c_prod
                          : option string) (work : Pd.DataFrame) :
  let cs := {| m_desc := c_desc; m_price := c_price; m_green := c_green;
               m_term := c_term; m_start := c_start; m_zone := c_zone;
               m_lf := c_lf; m_prod := c_prod |} in
  forall t s,
    Pd.rows
         (let master_cols :=
            ["ID"; "Price_Date"; "Date"; "Zone"; "Load"; "REP1"; "Term"; "Min_MWh";
             "Max_MWh"; "Daily_No_Ruc"; "RUC_Nodal"; "Daily"; "Com_Disc";
             "HOA_Disc"; "Broker_Fee"; "Meter_Fee"; "Max_Meters"] in
          let out := Pd.empty master_cols in
          let num_rows := Pd.len work in
          if (num_rows =? 0)%nat then out
          else
            let out := Pd.blank num_rows master_cols in
            let out := Pd.set_scalar out "ID" VNone in
            let out := Pd.set_scalar out "Price_Date" today in
            let start_dates :=
              Pd.series_map to_datetime_date (Pd.getitem work s) in
            let out := Pd.set_series out "Date" start_dates in
            let out :=
              match c_desc with
              | Some c_desc =>
                  let out :=
                    Pd.set_series out "Zone"
                      (Pd.series_map (fun v => VStr (ExcelProcessor.parse_zone v))
                                     (Pd.getitem work c_desc)) in
                  Pd.set_series out "Load"
                    (Pd.series_map (fun v => VStr (ExcelProcessor.parse_lf v))
                                   (Pd.getitem work c_desc))
              | None =>
                  let out :=
                    match c_zone with
                    | Some c_zone =>
                        Pd.set_series out "Zone"
                          (Pd.series_map (fun v => VStr (Py.str v))
                                         (Pd.getitem work c_zone))
                    | None => Pd.set_scalar out "Zone" (VStr "")
                    end in
                  match c_lf with
                  | Some c_lf =>
                      Pd.set_series out "Load"
                        (Pd.series_map (fun v => VStr (Py.str v))
                                       (Pd.getitem work c_lf))
                  | None => Pd.set_scalar out "Load" (VStr "")
                  end
              end in
            let out := Pd.set_scalar out "REP1" (VStr "HUDSON") in
            let out :=
              Pd.set_series out "Term"
                (Pd.series_map
                   (fun v => ExcelProcessor.term_cell (ExcelProcessor.term_to_int v))
                   (Pd.getitem work t)) in
            let out := Pd.set_scalar out "Min_MWh" (VInt 0) in
            let out := Pd.set_scalar out "Max_MWh" (VInt 1000) in
            let price_series :=
              match c_price with
              | Some c_price => Pd.series_map to_numeric (Pd.getitem work c_price)
              | None => []
              end in
            let price_series :=
              match c_green with
              | Some c_green =>
                  if forallb Py.isna (Pd.values price_series)
                  then Pd.series_map to_numeric (Pd.getitem work c_green)
                  else price_series
              | None => price_series
              end in
            let out := Pd.set_series out "Daily_No_Ruc" price_series in
            let out := Pd.set_scalar out "RUC_Nodal" (VInt 0) in
            let out := Pd.set_series out "Daily" price_series in
            let out := Pd.set_scalar out "Com_Disc" (VInt 0) in
            let out := Pd.set_scalar out "HOA_Disc" (VInt 0) in
            let out := Pd.set_scalar out "Broker_Fee" (VInt 0) in
            let out := Pd.set_scalar out "Meter_Fee" (VInt 0) in
            let out := Pd.set_scalar out "Max_Meters" (VInt 5) in
            Pd.getitem_mask out
              (map (fun v => negb (Py.isna v)) (Pd.values (Pd.getitem out "Term"))))
      = map (fun i => (i, mapped_row cs t s work i))
            (List.filter (fun i => negb (Py.isna (mapped_term t work i)))
                         (seq 0 (Pd.len work))).
Proof.
  intros cs t s. cbv zeta. unfold cs.
  destruct (Pd.len work =? 0)%nat eqn:Elen;
    [by apply no_rows_no_labels|].
  destruct c_desc, c_zone, c_lf, c_price, c_green; mapper_rows_chain.
Qed.

Lemma labelled_row_aligned work i :
  map fst (Pd.rows work) = seq 0 (Pd.len work) ->
  labelled_row work i = snd <$> Pd.rows work !! i.
Proof.
  unfold labelled_row, Pd.len. generalize (Pd.rows work) as rs.
  intros rs Hlabels.
  assert (Hgen : forall k (rs : list (nat * list value)),
            map fst rs = seq k (length rs) -> (k <= i)%nat ->
            snd <$> List.find (fun ir => Nat.eqb i (fst ir)) rs
            = snd <$> rs !! (i - k)%nat).
  { clear. intros k rs. revert k.
    induction rs as [|[j r] rs IH]; intros k Hl Hk; [done|].
    simpl in Hl. injection Hl as -> Hl. simpl.
    destruct (Nat.eqb_spec i k) as [->|Hne].
    - by rewrite Nat.sub_diag.
    - rewrite (IH (S k)) by (done || lia).
      replace (i - k)%nat with (S (i - S k)) by lia. done. }
  rewrite (Hgen 0%nat rs Hlabels) by lia. by rewrite Nat.sub_0_r.
Qed.

End mapper_rows.



(** ** The two copies of the schema mapper *)

Section mapper_copies.

Lemma first_some_app {A B} (f : A -> option B) l1 l2 :
  Py.first_some f (l1 ++ l2)
  = match Py.first_some f l1 with
    | Some b => Some b
    | None => Py.first_some f l2
    end.
Proof.
  induction l1 as [|x l1 IH]; simpl; [done|]. by destruct (f x).
Qed.

Lemma first_some_ext_in {A B} (f g : A -> option B) l :
  (forall a, In a l -> f a = g a) -> Py.first_some f l = Py.first_some g l.
Proof.
  induction l as [|x l IH]; simpl; [done|].
  intros Hfg. rewrite (Hfg x) by (by left).
  destruct (g x); [done|]. apply IH. intros a Ha. apply Hfg. by right.
Qed.

(** A further candidate that normalizes like one of the list changes
    nothing. *)
Lemma get_col_repeated_candidate cols candidates x y allow_contains :
  In y candidates -> ExcelProcessor.norm x = ExcelProcessor.norm y ->
  ExcelProcessor.get_col cols (candidates ++ [x]) allow_contains
  = ExcelProcessor.get_col cols candidates allow_contains.
Proof.
  intros Hy Hxy. unfold ExcelProcessor.get_col. cbv zeta.
  generalize (fold_left (fun d c => Py.dict_set (ExcelProcessor.norm c) c d) cols [])
    as norm_map.
  intros norm_map. rewrite first_some_app.
  destruct (Py.first_some _ candidates) as [c|] eqn:Hexact; [done|].
  cbn [Py.first_some]. rewrite Hxy.
  rewrite first_some_None in Hexact. rewrite (Hexact y Hy).
  destruct allow_contains; [|done].
  apply first_some_ext_in. intros [k c] _.
  rewrite existsb_app. cbn [existsb]. rewrite Hxy, orb_false_r.
  destruct (existsb _ candidates) eqn:Hany; [done|].
  cbn [orb].
  assert (Hn : PyStr.contains (ExcelProcessor.norm y) k = false); [|by rewrite Hn].
  destruct (PyStr.contains (ExcelProcessor.norm y) k) eqn:Hc; [|done].
  rewrite <- Hany. symmetry. apply existsb_exists. by exists y.
Qed.

End mapper_copies.

(** X18.  The schema mapper of [transformer.py] and the one of
    [excel_processor.py] yield the same frame for every sheet.  The copies
    differ in the candidate [DeliveryStart] for the start column, which only
    [hda_matrix_to_master_cols] lists, and in the resolved columns
    [c_created] and [c_tdsp], which it never uses: [DeliveryStart]
    normalizes like the candidate [Delivery Start] that both list, so that
    it resolves no further column. *)
Theorem schema_mapper_copies_agree `{Library} (df : Pd.DataFrame) :
  Transformer.transform_to_master_format df
  = ExcelProcessor.hda_matrix_to_master_cols df.
Proof.
  pose proof (get_col_repeated_candidate (Pd.columns df)
                ["StartDate"; "Start Date"; "StartMonth"; "Start Month";
                 "Delivery Start"; "First Delivery"] "DeliveryStart"
                "Delivery Start" true
                ltac:(cbn; tauto) eq_refl) as E.
  cbn [app] in E.
  unfold ExcelProcessor.hda_matrix_to_master_cols. cbv zeta.
  rewrite E. reflexivity.
Qed.
